(** * ccflare request interception pipeline and account failover

  A shallow embedding of the proxy core of the repository:

  - [packages/proxy/src/handlers/system-prompt-interceptor.ts]
    (the System-Prompt Interceptor),
  - the agent interceptor ([interceptAndModifyRequest] and its private
    copy of [applySystemPromptInterception]),
  - [packages/database/src/repositories/system-kv.repository.ts] and the
    interceptor repository,
  - the account loop of [handleProxy] in [packages/proxy/src/proxy.ts].

  JavaScript values coming out of [JSON.parse] are modelled by the
  inductive type [JSON]; [undefined] is [None] in [option JSON].
  Strings are Rocq strings, read as sequences of UTF-16 code units: the
  character [ascii_of_nat n] is the code unit [n], so the strings of the
  model are those whose code units are below 256. The string methods
  the code calls ([includes], [indexOf], [substring], [trim], [match],
  [replace], [join]) are defined below with the ECMAScript behaviour
  the code relies on. *)

From Stdlib Require Import ZArith Lia Ascii DecimalString ssreflect.
From Stdlib Require QArith.
From stdpp Require Import gmap strings list fin_maps.

Set Default Proof Using "Type".
Set Warnings "-rewrite-rw".

(* ===================================================================== *)
(** * JavaScript strings *)
(* ===================================================================== *)

Module JSString.

(** [startsWith needle s]: [needle] is a prefix of [s]. *)
Fixpoint startsWith (needle s : string) : bool :=
  match needle, s with
  | EmptyString, _ => true
  | String a needle', String b s' =>
      if Ascii.eqb a b then startsWith needle' s' else false
  | String _ _, EmptyString => false
  end.

(** [s.indexOf(needle)]: position of the first occurrence, [None] for -1. *)
Fixpoint indexOf (needle s : string) {struct s} : option nat :=
  if startsWith needle s then Some 0
  else match s with
       | EmptyString => None
       | String _ s' => S <$> indexOf needle s'
       end.

(** [s.includes(needle)]. *)
Definition includes (needle s : string) : bool :=
  match indexOf needle s with Some _ => true | None => false end.

(** [s.substring(n)]: the suffix of [s] from position [n]. *)
Fixpoint substringFrom (n : nat) (s : string) : string :=
  match n, s with
  | 0, _ => s
  | S n', String _ s' => substringFrom n' s'
  | S _, EmptyString => EmptyString
  end.

(** [s.substring(0, n)]. *)
Fixpoint substringTo (n : nat) (s : string) : string :=
  match n, s with
  | S n', String c s' => String c (substringTo n' s')
  | _, _ => EmptyString
  end.

(** The code units that [String.prototype.trim] removes (WhiteSpace and
    LineTerminator of ECMAScript) among those below 256: TAB, LF, VT, FF,
    CR, SPACE and the no-break space U+00A0. The others (U+FEFF, U+1680,
    U+2000 to U+200A, U+2028, U+2029, U+202F, U+205F, U+3000) are above
    255. *)
Definition isWhiteSpace (c : ascii) : bool :=
  match Ascii.nat_of_ascii c with
  | 9 | 10 | 11 | 12 | 13 | 32 | 160 => true
  | _ => false
  end.

Fixpoint trimStart (s : string) : string :=
  match s with
  | EmptyString => EmptyString
  | String c s' => if isWhiteSpace c then trimStart s' else s
  end.

Fixpoint trimEnd (s : string) : string :=
  match s with
  | EmptyString => EmptyString
  | String c s' =>
      match trimEnd s' with
      | EmptyString => if isWhiteSpace c then EmptyString else String c EmptyString
      | r => String c r
      end
  end.

Definition trim (s : string) : string := trimEnd (trimStart s).

(** [parts.join(sep)] on an array of strings. *)
Fixpoint join (sep : string) (parts : list string) : string :=
  match parts with
  | [] => EmptyString
  | [p] => p
  | p :: rest => p +:+ sep +:+ join sep rest
  end.

(** ** Replacement patterns

    [GetSubstitution] of ECMAScript for a regular expression without
    capture groups: in the replacement text, [$$] stands for a dollar
    sign, [$&] for the matched text, [$`] for the part of the subject
    before the match and [$'] for the part after it. [$1]..[$99] and
    [$<] are left as they are because there is no group to refer to. *)
Fixpoint getSubstitution (matched before after replacement : string) : string :=
  match replacement with
  | EmptyString => EmptyString
  | String "$" (String "$" r) => String "$" (getSubstitution matched before after r)
  | String "$" (String "&" r) => matched +:+ getSubstitution matched before after r
  | String "$" (String "`" r) => before +:+ getSubstitution matched before after r
  | String "$" (String "'" r) => after +:+ getSubstitution matched before after r
  | String c r => String c (getSubstitution matched before after r)
  end.

(** [replaceEach token subst fuel before s]: the scan of
    [subject.replace(/token/g, ...)] over the rest [s] of the subject,
    [before] being the part already passed. [token] is a literal,
    non-empty text; each match is replaced by [subst before after]. *)
Fixpoint replaceEach (token : string) (subst : string -> string -> string)
    (fuel : nat) (before s : string) : string :=
  match fuel with
  | 0 => s
  | S fuel' =>
      if startsWith token s then
        let after := substringFrom (String.length token) s in
        subst before after
          +:+ replaceEach token subst fuel' (before +:+ token) after
      else
        match s with
        | EmptyString => EmptyString
        | String c s' =>
            String c (replaceEach token subst fuel' (before +:+ String c EmptyString) s')
        end
  end.

(** [subject.replace(/token/g, replacement)] with a replacement string. *)
Definition replaceAll (token replacement subject : string) : string :=
  replaceEach token (fun before after => getSubstitution token before after replacement)
    (S (String.length subject)) EmptyString subject.

(** The same scan with the replacement inserted as it is: what
    [subject.replaceAll(token, () => replacement)] computes. *)
Definition replaceAllVerbatim (token replacement subject : string) : string :=
  replaceEach token (fun _ _ => replacement)
    (S (String.length subject)) EmptyString subject.

(** [text.match(/<open>([\s\S]*?)<close>/g) || []]: the successive,
    non-overlapping, shortest blocks that start with [open] and end with
    the next [close]. *)
Fixpoint matchBlocks (open close : string) (fuel : nat) (text : string) : list string :=
  match fuel with
  | 0 => []
  | S fuel' =>
      match indexOf open text with
      | None => []
      | Some i =>
          let inner := substringFrom (i + String.length open) text in
          match indexOf close inner with
          | None => []
          | Some j =>
              (open +:+ substringTo j inner +:+ close)
                :: matchBlocks open close fuel'
                     (substringFrom (j + String.length close) inner)
          end
      end
  end.

End JSString.

Import JSString.

(** Line feed, written [\n] in the source. *)
Definition LF : string := String (Ascii.ascii_of_nat 10) EmptyString.

(* ===================================================================== *)
(** * JSON values and property access *)
(* ===================================================================== *)

(** What [JSON.parse] returns. An object keeps its fields in insertion
    order, as [JSON.stringify] prints them in that order; its keys are
    distinct, and the operations below act on the first field of a key. *)

(** A number that [JSON.parse] returns: the exact value of a finite
    double, or an infinity (a literal such as [1e400] overflows to
    [Infinity], [-1e400] to [-Infinity]). [JSON.parse] returns no
    [NaN]. *)
Inductive Number : Type :=
| Finite (q : QArith_base.Q)
| Infinity (negative : bool).

#[warnings="-register-all"]
Inductive JSON : Type :=
| JNull
| JBool (b : bool)
| JNumber (n : Number)
| JString (s : string)
| JArray (items : list JSON)
| JObject (fields : list (string * JSON)).

(** [JSON.parse(JSON.stringify(v))] for a value [v] that [JSON.parse]
    returned (or such a value after the assignments and deletions of the
    code): [JSON.stringify] writes [null] for a number that is not
    finite, and everything else as it reads it back. *)
Fixpoint reparsed (v : JSON) : JSON :=
  match v with
  | JNumber (Infinity _) => JNull
  | JArray items => JArray (map reparsed items)
  | JObject fields => JObject (map (fun kv => (fst kv, reparsed (snd kv))) fields)
  | _ => v
  end.


(** Exceptions the code can meet. *)
Inductive Exn : Type :=
| SyntaxError            (* JSON.parse on malformed text *)
| TypeError              (* property read on null or undefined *)
| ExternalError (what : string). (* raised by a collaborator *)

(** The error monad of a [try] block. *)
Definition Try (A : Type) : Type := Exn + A.

Definition tryBind {A B : Type} (m : Try A) (k : A -> Try B) : Try B :=
  match m with
  | inl e => inl e
  | inr a => k a
  end.

Notation "'try!' x ':=' m 'in' k" := (tryBind m (fun x => k))
  (at level 10, x name, m at level 100, k at level 200).

(** JavaScript truthiness ([None] is [undefined]). *)
Definition truthy (v : option JSON) : bool :=
  match v with
  | None | Some JNull => false
  | Some (JBool b) => b
  | Some (JNumber (Finite q)) => negb (Z.eqb (QArith_base.Qnum q) 0)
  | Some (JNumber (Infinity _)) => true
  | Some (JString s) => negb (String.eqb s EmptyString)
  | Some (JArray _) | Some (JObject _) => true
  end.

Fixpoint lookupField (k : string) (fields : list (string * JSON)) : option JSON :=
  match fields with
  | [] => None
  | (k', v) :: rest => if String.eqb k k' then Some v else lookupField k rest
  end.

(** [obj[k] = v]: an existing key keeps its place, a new key goes last. *)
Fixpoint setField (k : string) (v : JSON) (fields : list (string * JSON))
  : list (string * JSON) :=
  match fields with
  | [] => [(k, v)]
  | (k', v') :: rest =>
      if String.eqb k k' then (k, v) :: rest else (k', v') :: setField k v rest
  end.

(** [delete obj[k]]. *)
Fixpoint deleteField (k : string) (fields : list (string * JSON))
  : list (string * JSON) :=
  match fields with
  | [] => []
  | (k', v') :: rest =>
      if String.eqb k k' then deleteField k rest else (k', v') :: deleteField k rest
  end.

(** [v.k] for one of the property names the code reads ([system], [tools],
    [model], [messages], [type], [text], [role], [content] and the
    configuration fields): a [TypeError] on [null], the field of an object,
    [undefined] on anything else. *)
Definition getProp (k : string) (v : JSON) : Try (option JSON) :=
  match v with
  | JNull => inl TypeError
  | JObject fields => inr (lookupField k fields)
  | _ => inr None
  end.

(** [v.length], read only to be logged: it matters only that [null] and
    [undefined] make it raise. *)
Definition readLength (v : option JSON) : Try unit :=
  match v with
  | None | Some JNull => inl TypeError
  | Some _ => inr tt
  end.

Definition isArray (v : option JSON) : bool :=
  match v with Some (JArray _) => true | _ => false end.

(** [requestBody.k = v] on an object. *)
Definition assignProp (k : string) (v : JSON) (obj : JSON) : JSON :=
  match obj with
  | JObject fields => JObject (setField k v fields)
  | _ => obj
  end.

(** [delete requestBody.k]. *)
Definition deleteProp (k : string) (obj : JSON) : JSON :=
  match obj with
  | JObject fields => JObject (deleteField k fields)
  | _ => obj
  end.

(** The platform services the handlers call: [new TextDecoder().decode]
    followed by [JSON.parse] on a request buffer ([None] when [JSON.parse]
    throws), [JSON.stringify] followed by [new TextEncoder().encode] into
    a fresh buffer, [JSON.stringify] to a string, and the conversion of a
    number to a string. *)
Class Runtime (ArrayBuffer : Type) : Type := {
  decodeJSON : ArrayBuffer -> option JSON;
  encodeJSON : JSON -> ArrayBuffer;
  JSON_stringify : JSON -> string;
  Number_toString : Number -> string
}.

(* ===================================================================== *)
(** * The database: interceptor configuration and system key/value store *)
(* ===================================================================== *)

(** [InterceptorConfig] of the interceptor repository. *)
Record InterceptorConfig : Type := {
  targetPrompt : string;
  replacementPrompt : string;
  toolsEnabled : bool
}.

(** The object [JSON.parse(JSON.stringify(config))] for a configuration. *)
Definition InterceptorConfig_toJSON (c : InterceptorConfig) : JSON :=
  JObject [ ("targetPrompt", JString (targetPrompt c));
            ("replacementPrompt", JString (replacementPrompt c));
            ("toolsEnabled", JBool (toolsEnabled c)) ].

(** A row of table [interceptors]. Column [config] holds JSON text; the
    row keeps the value this text parses to, [None] when [JSON.parse]
    rejects it. *)
Record InterceptorRow : Type := {
  is_enabled : Z;
  config : option JSON
}.

(** The state behind [dbOps]. [system_kv_store] is table
    [system_kv_store] as [getValue] reads it. [kv_statements] is the
    journal of the [setSystemKV] calls made so far, each with its key and
    the value passed ([None] for [undefined]). *)
Record DatabaseOperations : Type := {
  interceptors : gmap string InterceptorRow;
  system_kv_store : gmap string string;
  kv_statements : list (string * option string);
  agent_preferences : gmap string string
}.

(** [InterceptorRepository.getConfig]. *)
Definition getInterceptorConfig (dbOps : DatabaseOperations) (id : string)
  : Try (option (bool * JSON)) :=
  match interceptors dbOps !! id with
  | None => inr None
  | Some row =>
      match config row with
      | None => inl SyntaxError
      | Some cfg => inr (Some (Z.eqb (is_enabled row) 1, cfg))
      end
  end.

(** [InterceptorRepository.setConfig]. *)
Definition setInterceptorConfig (id : string) (isEnabled : bool)
    (c : InterceptorConfig) (dbOps : DatabaseOperations) : DatabaseOperations :=
  {| interceptors :=
       <[id := {| is_enabled := if isEnabled then 1%Z else 0%Z;
                  config := Some (InterceptorConfig_toJSON c) |}]> (interceptors dbOps);
     system_kv_store := system_kv_store dbOps;
     kv_statements := kv_statements dbOps;
     agent_preferences := agent_preferences dbOps |}.

(** [SystemKVRepository.getValue]: [row?.value ?? null]. *)
Definition getSystemKV (dbOps : DatabaseOperations) (key : string) : option string :=
  system_kv_store dbOps !! key.

(** [SystemKVRepository.setValue]: [INSERT OR REPLACE]. *)
Definition setSystemKV (key value : string) (dbOps : DatabaseOperations)
  : DatabaseOperations :=
  {| interceptors := interceptors dbOps;
     system_kv_store := <[key := value]> (system_kv_store dbOps);
     kv_statements := kv_statements dbOps ++ [(key, Some value)];
     agent_preferences := agent_preferences dbOps |}.

(** What the SQLite driver under [BaseRepository.run] does with a
    parameter that is [undefined]. The driver is not among the sources:
    it binds [NULL] (the row then reads as [null] through
    [row?.value ?? null]), or it refuses the statement and throws. *)
Inductive UndefinedBinding : Type :=
| BindsNull
| Rejects.

(** [dbOps.setSystemKV(key, undefined)], the exception of a refused
    statement left to the [catch] of the caller. *)
Definition setSystemKV_undefined (driver : UndefinedBinding) (key : string)
    (dbOps : DatabaseOperations) : DatabaseOperations :=
  {| interceptors := interceptors dbOps;
     system_kv_store :=
       match driver with
       | BindsNull => delete key (system_kv_store dbOps)
       | Rejects => system_kv_store dbOps
       end;
     kv_statements := kv_statements dbOps ++ [(key, None)];
     agent_preferences := agent_preferences dbOps |}.

(** Modelled from the spec: [dbOps.getAgentPreference(agentId)], whose
    class is not among the sources; it answers the stored [{model}] of
    the agent, or [null]. *)
Definition getAgentPreference (dbOps : DatabaseOperations) (agentId : string)
  : option string :=
  agent_preferences dbOps !! agentId.

(** [_updateLastSeenPrompt]. *)
Definition _updateLastSeenPrompt (prompt : string) (dbOps : DatabaseOperations)
  : DatabaseOperations :=
  let lastSeen := getSystemKV dbOps "last_seen_system_prompt" in
  if bool_decide (Some prompt <> lastSeen)
  then setSystemKV "last_seen_system_prompt" prompt dbOps
  else dbOps.

(** [toolsJson !== lastSeen], for [toolsJson] a string or [undefined]
    and [lastSeen] a string or [null]: [undefined] is different from
    both. *)
Definition strictNotEqual (toolsJson lastSeen : option string) : bool :=
  match toolsJson with
  | Some json => bool_decide (Some json <> lastSeen)
  | None => true
  end.

(** [_updateLastSeenTools]. [tools] is the value the caller passes, which
    the type annotation does not check: [None] is [undefined], and
    [JSON.stringify(undefined)] is [undefined]. After the write the log
    line reads [tools.length]; an exception of the write or of this read
    is caught by the [catch] of the function, which only logs. *)
Definition _updateLastSeenTools `{Runtime ArrayBuffer} (driver : UndefinedBinding)
    (tools : option JSON) (dbOps : DatabaseOperations) : DatabaseOperations :=
  let toolsJson := JSON_stringify <$> tools in
  let lastSeen := getSystemKV dbOps "last_seen_tools" in
  if strictNotEqual toolsJson lastSeen
  then match toolsJson with
       | Some json => setSystemKV "last_seen_tools" json dbOps
       | None => setSystemKV_undefined driver "last_seen_tools" dbOps
       end
  else dbOps.

(* ===================================================================== *)
(** * Parts shared by the two interceptors *)
(* ===================================================================== *)

Definition MAIN_AGENT_SIGNATURE : string :=
  "You are Claude Code, Anthropic's official CLI for Claude.".

Definition SUB_AGENT_SIGNATURE : string := "You are an agent for Claude Code".

(** [isSystemMessageWithText] (the two files hold the same copy): an
    object, not [null], with a [type] key and a [text] key whose value is
    a string. *)
Definition isSystemMessageWithText (item : option JSON) : bool :=
  match item with
  | Some (JObject fields) =>
      match lookupField "type" fields, lookupField "text" fields with
      | Some _, Some (JString _) => true
      | _, _ => false
      end
  | _ => false
  end.

(** [item.text] of an item that passed [isSystemMessageWithText]. *)
Definition messageText (item : option JSON) : string :=
  match item with
  | Some (JObject fields) =>
      match lookupField "text" fields with
      | Some (JString text) => text
      | _ => EmptyString
      end
  | _ => EmptyString
  end.

(** [text.match(/<env>([\s\S]*?)<\/env>/g) || []]. *)
Definition envBlocks (text : string) : list string :=
  matchBlocks "<env>" "</env>" (String.length text) text.

(** [envBlock]: empty without a block, the block when there is one, the
    blocks joined by a line feed otherwise. *)
Definition extractEnvBlock (text : string) : string :=
  match envBlocks text with
  | [] => EmptyString
  | [block] => block
  | blocks => join LF blocks
  end.

(** [gitStatusBlock]: from the first [gitStatus:] to the end. *)
Definition extractGitStatusBlock (text : string) : string :=
  match indexOf "gitStatus:" text with
  | Some gitStatusIndex => substringFrom gitStatusIndex text
  | None => EmptyString
  end.

(** [secondSystemMessage.text = newPrompt], seen through [requestBody]:
    [secondSystemMessage] is the object at [requestBody.system[1]]. *)
Definition setSecondSystemText (newPrompt : string) (requestBody : JSON) : JSON :=
  match requestBody with
  | JObject fields =>
      match lookupField "system" fields with
      | Some (JArray system) =>
          match system !! 1 with
          | Some (JObject second) =>
              JObject
                (setField "system"
                   (JArray (<[1 := JObject (setField "text" (JString newPrompt) second)]> system))
                   fields)
          | _ => requestBody
          end
      | _ => requestBody
      end
  | _ => requestBody
  end.

(** Work handed to [setImmediate]. The tools task reads
    [requestBody.tools] when it runs, not when it is scheduled. *)
Inductive Deferred : Type :=
| UpdateLastSeenTools
| UpdateLastSeenPrompt (originalPrompt : string).

(** How a [try] block is left early: by [return null] (or the
    no-modification result), or by an exception that the [catch] turns into
    the same result. *)
Inductive Exit : Type :=
| Unchanged
| Caught (e : Exn).

(** A run of an interceptor body: the tasks scheduled so far, and either
    an early exit or a value. *)
Definition Run (A : Type) : Type := (list Deferred * (Exit + A))%type.

Definition runRet {A : Type} (a : A) : Run A := ([], inr a).

Definition runBind {A B : Type} (m : Run A) (k : A -> Run B) : Run B :=
  match m with
  | (tasks, inl e) => (tasks, inl e)
  | (tasks, inr a) => let '(tasks', r) := k a in (tasks ++ tasks', r)
  end.

Definition unchanged {A : Type} : Run A := ([], inl Unchanged).

Definition caught {A : Type} (m : Try A) : Run A :=
  match m with
  | inl e => ([], inl (Caught e))
  | inr a => runRet a
  end.

Definition setImmediate (task : Deferred) : Run unit := ([task], inr tt).

Notation "'do!' x ':=' m 'in' k" := (runBind m (fun x => k))
  (at level 10, x name, m at level 100, k at level 200).

Definition parseBody `{Runtime ArrayBuffer} (buffer : ArrayBuffer) : Try JSON :=
  match decodeJSON buffer with
  | Some requestBody => inr requestBody
  | None => inl SyntaxError
  end.

(* ===================================================================== *)
(** * The System-Prompt Interceptor (system-prompt-interceptor.ts) *)
(* ===================================================================== *)

Module SystemPromptInterceptor.

(** Lines 204-205: both placeholders, one [replace] after the other. *)
Definition applyTemplate (replacementPrompt envBlock gitStatusBlock : string) : string :=
  let newPrompt := replaceAll "{{env_block}}" envBlock replacementPrompt in
  replaceAll "{{git_status_block}}" gitStatusBlock newPrompt.

(** The [try] block of [applySystemPromptInterception]; its value is
    [requestBody] as it is handed to [JSON.stringify]. *)
Definition intercept `{Runtime ArrayBuffer} (requestBodyBuffer : ArrayBuffer)
    (dbOps : DatabaseOperations) : Run JSON :=
  do! requestBody := caught (parseBody requestBodyBuffer) in
  do! interceptorConfig := caught (getInterceptorConfig dbOps "system_prompt") in
  match interceptorConfig with
  | None => unchanged
  | Some (isEnabled, config) =>
  if negb isEnabled then unchanged else
  do! system := caught (getProp "system" requestBody) in
  match system with
  | Some (JArray system) =>
    let firstSystemMessage := system !! 0 in
    if negb (isSystemMessageWithText firstSystemMessage) then unchanged else
    let firstSystemText := messageText firstSystemMessage in
    let isMainAgent := includes MAIN_AGENT_SIGNATURE firstSystemText in
    let isSubAgent := includes SUB_AGENT_SIGNATURE firstSystemText in
    if negb isMainAgent || isSubAgent then unchanged else
    do! tools := caught (getProp "tools" requestBody) in
    do! _ := (if truthy tools && isArray tools
              then setImmediate UpdateLastSeenTools else runRet tt) in
    let secondSystemMessage := system !! 1 in
    if negb (isSystemMessageWithText secondSystemMessage) then unchanged else
    let originalPrompt := messageText secondSystemMessage in
    do! _ := setImmediate (UpdateLastSeenPrompt originalPrompt) in
    let envBlock := extractEnvBlock originalPrompt in
    let gitStatusBlock := extractGitStatusBlock originalPrompt in
    do! replacementPrompt := caught (getProp "replacementPrompt" config) in
    do! toolsEnabled := caught (getProp "toolsEnabled" config) in
    match replacementPrompt with
    | Some (JString replacementPrompt) =>
      if String.eqb replacementPrompt EmptyString then unchanged else
      let newPrompt := applyTemplate replacementPrompt envBlock gitStatusBlock in
      let requestBody := setSecondSystemText newPrompt requestBody in
      if negb (truthy toolsEnabled) && bool_decide (tools <> None) then
        do! _ := caught (readLength tools) in
        runRet (deleteProp "tools" requestBody)
      else runRet requestBody
    | _ => unchanged
    end
  | _ => unchanged
  end
  end.

(** [applySystemPromptInterception]: the modified buffer, or [None] for
    [null]. *)
Definition applySystemPromptInterception `{Runtime ArrayBuffer}
    (requestBodyBuffer : option ArrayBuffer) (dbOps : DatabaseOperations)
  : option ArrayBuffer :=
  match requestBodyBuffer with
  | None => None
  | Some buffer =>
      match snd (intercept buffer dbOps) with
      | inr requestBody => Some (encodeJSON requestBody)
      | inl _ => None
      end
  end.

(** The tasks the call leaves on the event loop. *)
Definition scheduledTasks `{Runtime ArrayBuffer}
    (requestBodyBuffer : option ArrayBuffer) (dbOps : DatabaseOperations)
  : list Deferred :=
  match requestBodyBuffer with
  | None => []
  | Some buffer => fst (intercept buffer dbOps)
  end.

(** [requestBody.tools] when the scheduled tasks run, that is after the
    call has returned: the field of the request object as the call left
    it, deleted on the path that returns a buffer with tools disabled and
    as parsed on every other path. *)
Definition toolsAtRunTime `{Runtime ArrayBuffer} (requestBodyBuffer : ArrayBuffer)
    (dbOps : DatabaseOperations) : option JSON :=
  let requestBody :=
    match snd (intercept requestBodyBuffer dbOps) with
    | inr requestBody => Some requestBody
    | inl _ => decodeJSON requestBodyBuffer
    end in
  match requestBody with
  | Some (JObject fields) => lookupField "tools" fields
  | _ => None
  end.

(** A scheduled task runs on the database [dbOps] of that moment. The
    tools task is the closure
    [() => _updateLastSeenTools(requestBody.tools, dbOps)]: [toolsNow] is
    [requestBody.tools] as read then. *)
Definition runDeferred `{Runtime ArrayBuffer} (driver : UndefinedBinding)
    (toolsNow : option JSON) (task : Deferred) (dbOps : DatabaseOperations)
  : DatabaseOperations :=
  match task with
  | UpdateLastSeenTools => _updateLastSeenTools driver toolsNow dbOps
  | UpdateLastSeenPrompt originalPrompt => _updateLastSeenPrompt originalPrompt dbOps
  end.

End SystemPromptInterceptor.

(* ===================================================================== *)
(** * The Agent Interceptor *)
(* ===================================================================== *)

(** [Agent] of the agent directory. *)
Module Agent.
Record t : Type := {
  id : string;
  name : string;
  systemPrompt : string;
  model : string
}.
End Agent.

(** The agent directory and the file system, as the handler uses them.
    [extractAgentDirectories] is the scan of the prompt for
    [/.claude/agents] paths and [Contents of .../CLAUDE.md] lines, resolved
    by [node:path]; it is kept abstract with the file system. *)
Class AgentRegistry (Registry : Type) : Type := {
  extractAgentDirectories : string -> list string;
  existsSync : string -> bool;
  registerWorkspace : string -> Registry -> Try Registry;
  getAgents : Registry -> Try (list Agent.t)
}.

Module AgentInterceptor.

Record AgentInterceptResult (ArrayBuffer : Type) : Type := {
  modifiedBody : option ArrayBuffer;
  agentUsed : option string;
  originalModel : JSON;            (* [JNull] is [null] *)
  appliedModel : JSON;
  systemPromptModified : option bool;
  toolsRemoved : option bool
}.
Arguments modifiedBody {ArrayBuffer} _.
Arguments agentUsed {ArrayBuffer} _.
Arguments originalModel {ArrayBuffer} _.
Arguments appliedModel {ArrayBuffer} _.
Arguments systemPromptModified {ArrayBuffer} _.
Arguments toolsRemoved {ArrayBuffer} _.

(** [ToString] of a value, as [Array.prototype.join] applies it to its
    elements ([null] elements of a nested array give the empty string). *)
Fixpoint toStringJS `{Runtime ArrayBuffer} (v : JSON) : string :=
  match v with
  | JNull => "null"
  | JBool true => "true"
  | JBool false => "false"
  | JNumber n => Number_toString n
  | JString s => s
  | JArray items =>
      join "," (map (fun x => match x with JNull => EmptyString | _ => toStringJS x end) items)
  | JObject _ => "[object Object]"
  end.

Fixpoint filterTry {A : Type} (p : A -> Try bool) (l : list A) : Try (list A) :=
  match l with
  | [] => inr []
  | x :: rest =>
      try! keep := p x in
      try! rest' := filterTry p rest in
      inr (if keep then x :: rest' else rest')
  end.

Fixpoint findTry {A : Type} (p : A -> Try bool) (l : list A) : Try (option A) :=
  match l with
  | [] => inr None
  | x :: rest =>
      try! found := p x in
      if found then inr (Some x) else findTry p rest
  end.

(** [(item) => item.type === "text" && !!item.text]. *)
Definition isTextItem (item : JSON) : Try bool :=
  try! type := getProp "type" item in
  match type with
  | Some (JString ty) =>
      if String.eqb ty "text"
      then try! text := getProp "text" item in inr (truthy text)
      else inr false
  | _ => inr false
  end.

(** [(item) => item.text], then [ToString] by [join]. *)
Definition itemText `{Runtime ArrayBuffer} (item : JSON) : string :=
  match item with
  | JObject fields =>
      match lookupField "text" fields with
      | Some text => toStringJS text
      | None => EmptyString
      end
  | _ => EmptyString
  end.

(** [items.filter(...).map((item) => item.text).join("\n")]. *)
Definition joinedText `{Runtime ArrayBuffer} (items : list JSON) : Try string :=
  try! kept := filterTry isTextItem items in
  inr (join LF (map itemText kept)).

(** [(msg) => msg.role === role]. *)
Definition hasRole (role : string) (msg : JSON) : Try bool :=
  try! r := getProp "role" msg in
  match r with
  | Some (JString r) => inr (String.eqb r role)
  | _ => inr false
  end.

Definition mentionsClaudeMd (text : string) : bool :=
  includes "Contents of" text && includes "CLAUDE.md" text.

Definition pushIfNonEmpty (text : string) : list string :=
  if String.eqb text EmptyString then [] else [text].

(** The root-level [system] field of [extractSystemPrompt]: what it
    pushes to [allSystemContent]. *)
Definition rootSystemContent `{Runtime ArrayBuffer} (requestBody : JSON)
  : Try (list string) :=
  try! system := getProp "system" requestBody in
  if truthy system then
    match system with
    | Some (JString s) => inr [s]
    | Some (JArray items) =>
        try! systemText := joinedText items in inr (pushIfNonEmpty systemText)
    | _ => inr []
    end
  else inr [].

(** What the message found with role ["system"] pushes. *)
Definition systemMessageContent `{Runtime ArrayBuffer} (systemMessage : option JSON)
  : Try (list string) :=
  match systemMessage with
  | Some msg =>
      try! content := getProp "content" msg in
      match content with
      | Some (JString s) => inr [s]
      | Some (JArray items) =>
          try! systemText := joinedText items in inr (pushIfNonEmpty systemText)
      | _ => inr []
      end
  | None => inr []
  end.

(** What the message found with role ["user"] pushes. *)
Definition userMessageContent `{Runtime ArrayBuffer} (userMessage : option JSON)
  : Try (list string) :=
  match userMessage with
  | Some msg =>
      try! content := getProp "content" msg in
      match content with
      | Some (JArray items) =>
          try! allUserText := joinedText items in
          inr (if mentionsClaudeMd allUserText then [allUserText] else [])
      | Some (JString s) => inr (if mentionsClaudeMd s then [s] else [])
      | _ => inr []
      end
  | None => inr []
  end.

(** The [messages] array of [extractSystemPrompt]. *)
Definition messagesContent `{Runtime ArrayBuffer} (requestBody : JSON)
  : Try (list string) :=
  try! messages := getProp "messages" requestBody in
  match messages with
  | Some (JArray messages) =>
      try! systemMessage := findTry (hasRole "system") messages in
      try! fromSystemMessage := systemMessageContent systemMessage in
      try! userMessage := findTry (hasRole "user") messages in
      try! fromUserMessage := userMessageContent userMessage in
      inr (fromSystemMessage ++ fromUserMessage)
  | _ => inr []
  end.

(** [extractSystemPrompt]; [None] is [null]. *)
Definition extractSystemPrompt `{Runtime ArrayBuffer} (requestBody : JSON)
  : Try (option string) :=
  try! fromRoot := rootSystemContent requestBody in
  try! fromMessages := messagesContent requestBody in
  let allSystemContent := fromRoot ++ fromMessages in
  inr (match allSystemContent with
       | [] => None
       | _ => Some (join (LF +:+ LF) allSystemContent)
       end).

Record SystemPromptResult : Type := {
  modified : bool;
  promptToolsRemoved : bool
}.

Definition notModified : SystemPromptResult :=
  {| modified := false; promptToolsRemoved := false |}.

(** The part of the private [applySystemPromptInterception] that runs
    before [requestBody] is written to: its value is [newPrompt] with the
    [toolsEnabled] and [tools] values read on the way. *)
Definition prepare (requestBody : JSON) (dbOps : DatabaseOperations)
  : Run (string * option JSON * option JSON) :=
  do! interceptorConfig := caught (getInterceptorConfig dbOps "system_prompt") in
  match interceptorConfig with
  | None => unchanged
  | Some (isEnabled, config) =>
  if negb isEnabled then unchanged else
  do! system := caught (getProp "system" requestBody) in
  match system with
  | Some (JArray system) =>
    let firstSystemMessage := system !! 0 in
    if negb (isSystemMessageWithText firstSystemMessage) then unchanged else
    let firstSystemText := messageText firstSystemMessage in
    let isMainAgent := includes MAIN_AGENT_SIGNATURE firstSystemText in
    let isSubAgent := includes SUB_AGENT_SIGNATURE firstSystemText in
    if negb isMainAgent || isSubAgent then unchanged else
    let secondSystemMessage := system !! 1 in
    if negb (isSystemMessageWithText secondSystemMessage) then unchanged else
    let originalPrompt := messageText secondSystemMessage in
    do! _ := setImmediate (UpdateLastSeenPrompt originalPrompt) in
    let envBlock := extractEnvBlock originalPrompt in
    do! promptTemplate := caught (getProp "promptTemplate" config) in
    do! toolsEnabled := caught (getProp "toolsEnabled" config) in
    match promptTemplate with
    | Some (JString promptTemplate) =>
      if String.eqb promptTemplate EmptyString then unchanged else
      let newPrompt := replaceAll "{{env_block}}" envBlock promptTemplate in
      do! tools := caught (getProp "tools" requestBody) in
      runRet (newPrompt, toolsEnabled, tools)
    | _ => unchanged
    end
  | _ => unchanged
  end
  end.

(** The private [applySystemPromptInterception(requestBody, dbOps)] of the
    agent interceptor. It writes to the caller's [requestBody]: the result
    holds the object as the call leaves it, the flags returned, and the
    tasks scheduled. *)
Definition applySystemPromptInterception (requestBody : JSON)
    (dbOps : DatabaseOperations) : JSON * SystemPromptResult * list Deferred :=
  match prepare requestBody dbOps with
  | (tasks, inl _) => (requestBody, notModified, tasks)
  | (tasks, inr (newPrompt, toolsEnabled, tools)) =>
      let requestBody := setSecondSystemText newPrompt requestBody in
      if negb (truthy toolsEnabled) && bool_decide (tools <> None) then
        match readLength tools with
        | inl _ => (requestBody, notModified, tasks)
        | inr _ =>
            (deleteProp "tools" requestBody,
             {| modified := true; promptToolsRemoved := true |}, tasks)
        end
      else (requestBody, {| modified := true; promptToolsRemoved := false |}, tasks)
  end.

Definition isLineTerminator (c : ascii) : bool :=
  match Ascii.nat_of_ascii c with
  | 10 | 13 => true
  | _ => false
  end.

Definition isAgentsSuffix (s : string) : bool :=
  match s with
  | String "/" (String c rest) =>
      negb (isLineTerminator c) && String.eqb rest "claude/agents"
  | _ => false
  end.

(** [dir.replace(/\/.claude\/agents$/, "")]. *)
Fixpoint workspacePathOf (dir : string) : string :=
  if isAgentsSuffix dir then EmptyString
  else match dir with
       | EmptyString => EmptyString
       | String c dir' => String c (workspacePathOf dir')
       end.

(** The loop over [extraDirs]. *)
Fixpoint registerWorkspaces `{AgentRegistry Registry} (extraDirs : list string)
    (registry : Registry) : Try Registry :=
  match extraDirs with
  | [] => inr registry
  | dir :: rest =>
      let workspacePath := workspacePathOf dir in
      if existsSync (Registry := Registry) workspacePath then
        try! registry' := registerWorkspace workspacePath registry in
        registerWorkspaces rest registry'
      else registerWorkspaces rest registry
  end.

(** [preference?.model || detectedAgent.model]. *)
Definition preferredModelOf (preference : option string) (detectedAgent : Agent.t)
  : string :=
  match preference with
  | Some model => if String.eqb model EmptyString then Agent.model detectedAgent else model
  | None => Agent.model detectedAgent
  end.

(** [preferredModel === originalModel], [preferredModel] being a string. *)
Definition strictEqualString (s : string) (v : JSON) : bool :=
  match v with
  | JString s' => String.eqb s s'
  | _ => false
  end.

(** The [try] block of [interceptAndModifyRequest]. *)
Definition intercept `{Runtime ArrayBuffer} `{AgentRegistry Registry}
    (requestBodyBuffer : ArrayBuffer) (dbOps : DatabaseOperations)
    (agentRegistry : Registry)
  : Try (AgentInterceptResult ArrayBuffer * list Deferred) :=
  try! requestBody := parseBody requestBodyBuffer in
  try! model := getProp "model" requestBody in
  let originalModel := if truthy model then default JNull model else JNull in
  try! systemPrompt := extractSystemPrompt requestBody in
  match systemPrompt with
  | None | Some EmptyString =>
      inr ({| modifiedBody := Some requestBodyBuffer; agentUsed := None;
              originalModel := originalModel; appliedModel := originalModel;
              systemPromptModified := None; toolsRemoved := None |}, [])
  | Some systemPrompt =>
  let extraDirs := extractAgentDirectories (Registry := Registry) systemPrompt in
  try! agentRegistry := registerWorkspaces extraDirs agentRegistry in
  try! agents := getAgents agentRegistry in
  let detectedAgent :=
    List.find (fun agent => includes (trim (Agent.systemPrompt agent)) systemPrompt) agents in
  match detectedAgent with
  | None =>
      let '(requestBody, systemPromptResult, tasks) :=
        applySystemPromptInterception requestBody dbOps in
      if modified systemPromptResult || promptToolsRemoved systemPromptResult then
        inr ({| modifiedBody := Some (encodeJSON requestBody); agentUsed := None;
                originalModel := originalModel; appliedModel := originalModel;
                systemPromptModified := Some (modified systemPromptResult);
                toolsRemoved := Some (promptToolsRemoved systemPromptResult) |}, tasks)
      else
        inr ({| modifiedBody := Some requestBodyBuffer; agentUsed := None;
                originalModel := originalModel; appliedModel := originalModel;
                systemPromptModified := None; toolsRemoved := None |}, tasks)
  | Some detectedAgent =>
      let preference := getAgentPreference dbOps (Agent.id detectedAgent) in
      let preferredModel := preferredModelOf preference detectedAgent in
      if strictEqualString preferredModel originalModel then
        let '(requestBody, systemPromptResult, tasks) :=
          applySystemPromptInterception requestBody dbOps in
        if modified systemPromptResult || promptToolsRemoved systemPromptResult then
          inr ({| modifiedBody := Some (encodeJSON requestBody);
                  agentUsed := Some (Agent.id detectedAgent);
                  originalModel := originalModel; appliedModel := originalModel;
                  systemPromptModified := Some (modified systemPromptResult);
                  toolsRemoved := Some (promptToolsRemoved systemPromptResult) |}, tasks)
        else
          inr ({| modifiedBody := Some requestBodyBuffer;
                  agentUsed := Some (Agent.id detectedAgent);
                  originalModel := originalModel; appliedModel := originalModel;
                  systemPromptModified := None; toolsRemoved := None |}, tasks)
      else
        let requestBody := assignProp "model" (JString preferredModel) requestBody in
        let '(requestBody, systemPromptResult, tasks) :=
          applySystemPromptInterception requestBody dbOps in
        inr ({| modifiedBody := Some (encodeJSON requestBody);
                agentUsed := Some (Agent.id detectedAgent);
                originalModel := originalModel;
                appliedModel := JString preferredModel;
                systemPromptModified := Some (modified systemPromptResult);
                toolsRemoved := Some (promptToolsRemoved systemPromptResult) |}, tasks)
  end
  end.

(** [interceptAndModifyRequest]. *)
Definition interceptAndModifyRequest `{Runtime ArrayBuffer} `{AgentRegistry Registry}
    (requestBodyBuffer : option ArrayBuffer) (dbOps : DatabaseOperations)
    (agentRegistry : Registry) : AgentInterceptResult ArrayBuffer :=
  match requestBodyBuffer with
  | None =>
      {| modifiedBody := None; agentUsed := None; originalModel := JNull;
         appliedModel := JNull; systemPromptModified := None; toolsRemoved := None |}
  | Some buffer =>
      match intercept buffer dbOps agentRegistry with
      | inr (result, _) => result
      | inl _ =>
          {| modifiedBody := Some buffer; agentUsed := None; originalModel := JNull;
             appliedModel := JNull; systemPromptModified := None; toolsRemoved := None |}
      end
  end.

End AgentInterceptor.

(* ===================================================================== *)
(** * The proxy orchestrator (proxy.ts) *)
(* ===================================================================== *)

Module Proxy.

Inductive ProxyError : Type :=
| ValidationError
| ProviderError (e : Exn)
| ServiceUnavailableError (message provider : string).

(** [ProxyContext] and the handlers [handleProxy] imports. [World] is the
    state the forwarding calls act on. [proxyWithAccount] answers a
    [Response] or [null]; [proxyUnauthenticated] answers or throws. *)
Record ProxyContext (ArrayBuffer Account Response World : Type) : Type := {
  provider_name : string;
  validateProviderPath : string -> bool;
  ALL_ACCOUNTS_FAILED : string;
  selectAccountsForRequest : option string -> World -> list Account;
  proxyWithAccount :
    Account -> option ArrayBuffer -> nat -> World -> option Response * World;
  proxyUnauthenticated :
    option ArrayBuffer -> World -> Try Response * World
}.
Arguments provider_name {ArrayBuffer Account Response World} _.
Arguments validateProviderPath {ArrayBuffer Account Response World} _ _.
Arguments ALL_ACCOUNTS_FAILED {ArrayBuffer Account Response World} _.
Arguments selectAccountsForRequest {ArrayBuffer Account Response World} _ _ _.
Arguments proxyWithAccount {ArrayBuffer Account Response World} _ _ _ _ _.
Arguments proxyUnauthenticated {ArrayBuffer Account Response World} _ _ _.

(** One forwarding call, as it was made: the journal of a request. *)
Inductive Forward (Account Response : Type) : Type :=
| WithAccount (i : nat) (account : Account) (response : option Response)
| Unauthenticated.
Arguments WithAccount {Account Response} _ _ _.
Arguments Unauthenticated {Account Response}.

Section Orchestrator.
Context {ArrayBuffer Account Response World : Type}.
Context `{Runtime ArrayBuffer} `{AgentRegistry Registry}.
Variable ctx : ProxyContext ArrayBuffer Account Response World.

(** Step 9, the [for] loop from index [i] over the accounts left. *)
Fixpoint tryAccounts (finalBodyBuffer : option ArrayBuffer) (i : nat)
    (accounts : list Account) (w : World)
  : list (Forward Account Response) * option Response * World :=
  match accounts with
  | [] => ([], None, w)
  | account :: rest =>
      let '(response, w) := proxyWithAccount ctx account finalBodyBuffer i w in
      match response with
      | Some r => ([WithAccount i account response], Some r, w)
      | None =>
          let '(journal, result, w) := tryAccounts finalBodyBuffer (S i) rest w in
          (WithAccount i account None :: journal, result, w)
      end
  end.

(** The message of step 10. *)
Definition allAccountsFailedMessage (attempted : nat) : string :=
  ALL_ACCOUNTS_FAILED ctx +:+ " (" +:+ NilEmpty.string_of_uint (Nat.to_uint attempted)
    +:+ " attempted)".

(** [a || b] on buffers: a buffer is an object, hence truthy. *)
Definition orElse (a b : option ArrayBuffer) : option ArrayBuffer :=
  match a with
  | Some _ => a
  | None => b
  end.

(** Steps 6 to 10 of [handleProxy], for the accounts selected. *)
Definition forward (finalBodyBuffer : option ArrayBuffer)
    (accounts : list Account) (w : World)
  : list (Forward Account Response) * (ProxyError + Response) * World :=
  match accounts with
  | [] =>
      let '(result, w) := proxyUnauthenticated ctx finalBodyBuffer w in
      ([Unauthenticated],
       match result with
       | inl e => inl (ProviderError e)
       | inr response => inr response
       end, w)
  | _ =>
      let '(journal, result, w) := tryAccounts finalBodyBuffer 0 accounts w in
      match result with
      | Some response => (journal, inr response, w)
      | None =>
          (journal,
           inl (ServiceUnavailableError
                  (allAccountsFailedMessage (length accounts)) (provider_name ctx)), w)
      end
  end.

(** [handleProxy], from the buffered body on. The result is the journal
    of forwarding calls, the response or the error thrown, and the world
    left. The tasks the interceptors hand to [setImmediate] run later on
    the event loop and are no part of it. *)
Definition handleProxy (pathname : string) (requestBodyBuffer : option ArrayBuffer)
    (dbOps : DatabaseOperations) (agentRegistry : Registry) (w : World)
  : list (Forward Account Response) * (ProxyError + Response) * World :=
  if negb (validateProviderPath ctx pathname) then ([], inl ValidationError, w) else
  let promptInterceptedBody :=
    SystemPromptInterceptor.applySystemPromptInterception requestBodyBuffer dbOps in
  let intercepted :=
    AgentInterceptor.interceptAndModifyRequest
      (orElse promptInterceptedBody requestBodyBuffer) dbOps agentRegistry in
  let finalBodyBuffer :=
    orElse (AgentInterceptor.modifiedBody intercepted)
      (orElse promptInterceptedBody requestBodyBuffer) in
  let accounts :=
    selectAccountsForRequest ctx (AgentInterceptor.agentUsed intercepted) w in
  forward finalBodyBuffer accounts w.

End Orchestrator.

End Proxy.

(* ===================================================================== *)
(** * The interceptor repository, the rest *)
(* ===================================================================== *)

(** [InterceptorRepository.delete]: [changes > 0], and the table without
    the row. *)
Definition deleteInterceptorConfig (id : string) (dbOps : DatabaseOperations)
  : bool * DatabaseOperations :=
  (bool_decide (is_Some (interceptors dbOps !! id)),
   {| interceptors := delete id (interceptors dbOps);
      system_kv_store := system_kv_store dbOps;
      kv_statements := kv_statements dbOps;
      agent_preferences := agent_preferences dbOps |}).

(* ===================================================================== *)
(** * The configuration handlers (http-api/src/handlers/tools.ts) *)
(* ===================================================================== *)

Module ToolsHandler.

(** What a handler answers: [jsonResponse(data)] with the value that
    [JSON.stringify] writes for [data], [errorResponse(BadRequest(msg))],
    or the empty 204 response. *)
Inductive Response : Type :=
| JsonResponse (data : JSON)
| BadRequest (message : string)
| NoContent.

Definition DEFAULT_TARGET_PROMPT : string :=
  "You are Claude Code, Anthropic's official CLI for Claude.".

Definition defaultTemplate : string :=
  "You are a helpful assistant." +:+ LF +:+ LF +:+ "---" +:+ LF +:+ LF
    +:+ "{{env_block}}" +:+ LF +:+ LF +:+ "{{git_status_block}}".

(** An object literal as [JSON.stringify] writes it: a property whose
    value is [undefined] is left out. *)
Fixpoint objectLiteral (props : list (string * option JSON)) : list (string * JSON) :=
  match props with
  | [] => []
  | (k, Some v) :: rest => (k, v) :: objectLiteral rest
  | (_, None) :: rest => objectLiteral rest
  end.

(** [lastSeenPrompt || DEFAULT_TARGET_PROMPT]. *)
Definition orDefault (lastSeenPrompt : option string) (fallback : string) : string :=
  match lastSeenPrompt with
  | Some prompt => if String.eqb prompt EmptyString then fallback else prompt
  | None => fallback
  end.

(** [getSystemPromptConfig]. *)
Definition getSystemPromptConfig (dbOps : DatabaseOperations) : Try Response :=
  try! config := getInterceptorConfig dbOps "system_prompt" in
  match config with
  | None =>
      let lastSeenPrompt := getSystemKV dbOps "last_seen_system_prompt" in
      inr (JsonResponse (JObject
        [("isEnabled", JBool false);
         ("targetPrompt", JString (orDefault lastSeenPrompt DEFAULT_TARGET_PROMPT));
         ("replacementPrompt", JString defaultTemplate);
         ("toolsEnabled", JBool true)]))
  | Some (isEnabled, config) =>
      try! targetPrompt := getProp "targetPrompt" config in
      try! replacementPrompt := getProp "replacementPrompt" config in
      try! toolsEnabled := getProp "toolsEnabled" config in
      inr (JsonResponse (JObject (objectLiteral
        [("isEnabled", Some (JBool isEnabled));
         ("targetPrompt", targetPrompt);
         ("replacementPrompt", replacementPrompt);
         ("toolsEnabled", toolsEnabled)])))
  end.

(** [v === undefined || v === null]. *)
Definition isMissing (v : option JSON) : bool :=
  match v with
  | None | Some JNull => true
  | Some _ => false
  end.

(** The validation of [setSystemPromptConfig]: the message of the first
    check that fails, or the values to save. *)
Definition validate (body : JSON) : Try (string + bool * InterceptorConfig) :=
  try! isEnabled := getProp "isEnabled" body in
  if isMissing isEnabled then inr (inl "isEnabled is required") else
  match isEnabled with
  | Some (JBool isEnabled) =>
    try! targetPrompt := getProp "targetPrompt" body in
    if isMissing targetPrompt then inr (inl "targetPrompt is required") else
    match targetPrompt with
    | Some (JString targetPrompt) =>
      if String.eqb (trim targetPrompt) EmptyString
      then inr (inl "targetPrompt cannot be empty") else
      try! replacementPrompt := getProp "replacementPrompt" body in
      if isMissing replacementPrompt then inr (inl "replacementPrompt is required") else
      match replacementPrompt with
      | Some (JString replacementPrompt) =>
        try! toolsEnabled := getProp "toolsEnabled" body in
        if isMissing toolsEnabled then inr (inl "toolsEnabled is required") else
        match toolsEnabled with
        | Some (JBool toolsEnabled) =>
            inr (inr (isEnabled,
                      {| targetPrompt := targetPrompt;
                         replacementPrompt := replacementPrompt;
                         toolsEnabled := toolsEnabled |}))
        | _ => inr (inl "toolsEnabled must be a boolean")
        end
      | _ => inr (inl "replacementPrompt must be a string")
      end
    | _ => inr (inl "targetPrompt must be a string")
    end
  | _ => inr (inl "isEnabled must be a boolean")
  end.

(** [setSystemPromptConfig]. [parsed] is what [await req.json()] gives,
    [None] when it throws its [SyntaxError]; any other exception is
    thrown again. The result is the response or the exception, with the
    database as the call leaves it. *)
Definition setSystemPromptConfig (parsed : option JSON) (dbOps : DatabaseOperations)
  : Try Response * DatabaseOperations :=
  match parsed with
  | None => (inr (BadRequest "Invalid JSON"), dbOps)
  | Some body =>
      match validate body with
      | inl e => (inl e, dbOps)
      | inr (inl message) => (inr (BadRequest message), dbOps)
      | inr (inr (isEnabled, c)) =>
          (inr (JsonResponse (JObject
             [("success", JBool true);
              ("isEnabled", JBool isEnabled);
              ("targetPrompt", JString (targetPrompt c));
              ("replacementPrompt", JString (replacementPrompt c));
              ("toolsEnabled", JBool (toolsEnabled c))])),
           setInterceptorConfig "system_prompt" isEnabled c dbOps)
      end
  end.

(** [resetSystemPromptConfig]. *)
Definition resetSystemPromptConfig (dbOps : DatabaseOperations)
  : Response * DatabaseOperations :=
  (NoContent, snd (deleteInterceptorConfig "system_prompt" dbOps)).

End ToolsHandler.

(* ===================================================================== *)
(** * The usage worker of proxy.ts *)
(* ===================================================================== *)

Module UsageWorker.

(** A message of the worker, by its [type]. *)
Inductive OutgoingWorkerMessage : Type :=
| Summary (summary : JSON)
| Payload (payload : JSON)
| OtherMessage.

(** [requestEvents.emit("event", {type, payload})]. *)
Inductive Event : Type :=
| SummaryEvent (payload : JSON)
| PayloadEvent (payload : JSON).

(** The module state around [usageWorkerInstance]. Workers are numbered
    in the order of their creation. [hasUnref] says whether a worker has
    the [unref] method (Bun) and [timers] counts the pending
    [setTimeout] callbacks of [terminateUsageWorker]. *)
Record Process : Type := {
  hasUnref : bool;
  usageWorkerInstance : option nat;
  created : nat;
  unrefed : list nat;
  listening : list nat;        (* workers with [onmessage] set *)
  shutdownPosted : list nat;   (* [postMessage({type: "shutdown"})], in order *)
  terminated : list nat;       (* [terminate()], in order *)
  timers : nat;
  events : list Event
}.

Definition initial (hasUnref : bool) : Process :=
  {| hasUnref := hasUnref; usageWorkerInstance := None; created := 0; unrefed := [];
     listening := []; shutdownPosted := []; terminated := []; timers := 0; events := [] |}.

(** [getUsageWorker]. *)
Definition getUsageWorker (p : Process) : nat * Process :=
  match usageWorkerInstance p with
  | Some worker => (worker, p)
  | None =>
      let worker := created p in
      (worker,
       {| hasUnref := hasUnref p;
          usageWorkerInstance := Some worker;
          created := S (created p);
          unrefed := if hasUnref p then unrefed p ++ [worker] else unrefed p;
          listening := listening p ++ [worker];
          shutdownPosted := shutdownPosted p;
          terminated := terminated p;
          timers := timers p;
          events := events p |})
  end.

(** [terminateUsageWorker]: the message, and the timer. *)
Definition terminateUsageWorker (p : Process) : Process :=
  match usageWorkerInstance p with
  | Some worker =>
      {| hasUnref := hasUnref p;
         usageWorkerInstance := usageWorkerInstance p;
         created := created p;
         unrefed := unrefed p;
         listening := listening p;
         shutdownPosted := shutdownPosted p ++ [worker];
         terminated := terminated p;
         timers := S (timers p);
         events := events p |}
  | None => p
  end.

(** One pending [setTimeout] callback of [terminateUsageWorker] runs. *)
Definition timeoutFires (p : Process) : Process :=
  match timers p with
  | 0 => p
  | S pending =>
      match usageWorkerInstance p with
      | Some worker =>
          {| hasUnref := hasUnref p;
             usageWorkerInstance := None;
             created := created p;
             unrefed := unrefed p;
             listening := listening p;
             shutdownPosted := shutdownPosted p;
             terminated := terminated p ++ [worker];
             timers := pending;
             events := events p |}
      | None =>
          {| hasUnref := hasUnref p;
             usageWorkerInstance := None;
             created := created p;
             unrefed := unrefed p;
             listening := listening p;
             shutdownPosted := shutdownPosted p;
             terminated := terminated p;
             timers := pending;
             events := events p |}
      end
  end.

(** The [onmessage] handler set on a worker. *)
Definition onmessage (data : OutgoingWorkerMessage) (p : Process) : Process :=
  let emit event :=
    {| hasUnref := hasUnref p;
       usageWorkerInstance := usageWorkerInstance p;
       created := created p;
       unrefed := unrefed p;
       listening := listening p;
       shutdownPosted := shutdownPosted p;
       terminated := terminated p;
       timers := timers p;
       events := events p ++ [event] |} in
  match data with
  | Summary summary => emit (SummaryEvent summary)
  | Payload payload => emit (PayloadEvent payload)
  | OtherMessage => p
  end.

(** What the rest of the program does to the worker module. *)
Inductive Action : Type :=
| GetUsageWorker
| TerminateUsageWorker
| TimeoutFires
| Message (data : OutgoingWorkerMessage).

Definition step (p : Process) (a : Action) : Process :=
  match a with
  | GetUsageWorker => snd (getUsageWorker p)
  | TerminateUsageWorker => terminateUsageWorker p
  | TimeoutFires => timeoutFires p
  | Message data => onmessage data p
  end.

Definition run (actions : list Action) (p : Process) : Process :=
  fold_left step actions p.

End UsageWorker.

(* ===================================================================== *)
(** * A runtime to evaluate the handlers on *)
(* ===================================================================== *)

(** A request buffer is either a text that [JSON.parse] reads as the
    value [v], or bytes that [JSON.parse] rejects. The text that
    [JSON.stringify] writes for [v] is read as [reparsed v]. *)
Inductive Buffer : Type :=
| Encoded (v : JSON)
| Malformed (bytes : string).

Definition quote (s : string) : string :=
  let q := Ascii.ascii_of_nat 34 in String q (s +:+ String q EmptyString).

(** A printer for the values of the examples (strings without characters
    to escape, integral numbers). *)
Fixpoint printJSON (v : JSON) : string :=
  match v with
  | JNull => "null"
  | JBool true => "true"
  | JBool false => "false"
  | JNumber (Finite q) => NilZero.string_of_int (Z.to_int (QArith_base.Qnum q))
  | JNumber (Infinity _) => "null"
  | JString s => quote s
  | JArray items => "[" +:+ join "," (map printJSON items) +:+ "]"
  | JObject fields =>
      "{" +:+ join "," (map (fun kv => quote (fst kv) +:+ ":" +:+ printJSON (snd kv)) fields)
        +:+ "}"
  end.

#[export] Instance sampleRuntime : Runtime Buffer := {|
  decodeJSON b := match b with Encoded v => Some v | Malformed _ => None end;
  encodeJSON v := Encoded (reparsed v);
  JSON_stringify := printJSON;
  Number_toString n :=
    match n with
    | Finite q => NilZero.string_of_int (Z.to_int (QArith_base.Qnum q))
    | Infinity false => "Infinity"
    | Infinity true => "-Infinity"
    end
|}.

Definition textBlock (text : string) : JSON :=
  JObject [("type", JString "text"); ("text", JString text)].

Definition sampleDb (isEnabled : bool) (c : InterceptorConfig) : DatabaseOperations :=
  setInterceptorConfig "system_prompt" isEnabled c
    {| interceptors := ∅; system_kv_store := ∅; kv_statements := [];
       agent_preferences := ∅ |}.

Definition mainBody (second : string) (tools : list (string * JSON)) : JSON :=
  JObject ([("model", JString "base-v1");
            ("system", JArray [textBlock MAIN_AGENT_SIGNATURE; textBlock second]);
            ("messages", JArray [])] ++ tools).

(** A configuration with the template of scenario B. *)
Definition sampleConfig (toolsEnabled : bool) : InterceptorConfig :=
  {| targetPrompt := MAIN_AGENT_SIGNATURE;
     replacementPrompt := "Hi." +:+ LF +:+ "{{env_block}}";
     toolsEnabled := toolsEnabled |}.

(** A sub-agent session. *)
Definition subAgentBody : JSON :=
  JObject [("model", JString "base-v1");
           ("system", JArray [textBlock "You are an agent for Claude Code, working on a task.";
                              textBlock "<env>X</env>"]);
           ("messages", JArray [])].

Definition sampleTools : list (string * JSON) :=
  [("tools", JArray [JObject [("type", JString "custom"); ("name", JString "Bash")]])].

(** A configuration whose template is the prompt already in place. *)
Definition sameTextConfig : InterceptorConfig :=
  {| targetPrompt := MAIN_AGENT_SIGNATURE;
     replacementPrompt := "Keep this prompt.";
     toolsEnabled := true |}.

(** A registry for the examples: the agents it holds, no directory found
    in the prompt. *)
#[export] Instance sampleRegistry : AgentRegistry (list Agent.t) := {|
  extractAgentDirectories _ := [];
  existsSync _ := false;
  registerWorkspace _ registry := inr registry;
  getAgents registry := inr registry
|}.

(** A row written before the configuration field was renamed: it still
    has [promptTemplate]. *)
Definition legacyDb : DatabaseOperations :=
  {| interceptors :=
       {[ "system_prompt" :=
            {| is_enabled := 1;
               config := Some (JObject
                 [("promptTemplate", JString "P {{env_block}} {{git_status_block}}");
                  ("replacementPrompt", JString "P {{env_block}} {{git_status_block}}");
                  ("toolsEnabled", JBool true)]) |} ]};
     system_kv_store := ∅; kv_statements := []; agent_preferences := ∅ |}.

(** [Agent42] of scenario D. *)
Definition agent42 : Agent.t :=
  {| Agent.id := "Agent42"; Agent.name := "Agent 42";
     Agent.systemPrompt := "You are Agent42, a reviewer of pull requests." +:+ LF;
     Agent.model := "agent-default" |}.

Definition agent42Body : JSON :=
  JObject [("model", JString "base-v1");
           ("system",
            JString ("Rules. You are Agent42, a reviewer of pull requests." +:+ LF
                     +:+ "Be brief."));
           ("messages", JArray [])].

Definition preferenceDb (model : string) : DatabaseOperations :=
  {| interceptors := ∅; system_kv_store := ∅; kv_statements := [];
     agent_preferences := {[ "Agent42" := model ]} |}.

Definition message (role text : string) : JSON :=
  JObject [("role", JString role); ("content", JString text)].

(** Two messages of role ["system"]. *)
Definition twoSystemMessages : JSON :=
  JObject [("model", JString "base-v1");
           ("messages", JArray [message "system" "First rules.";
                                message "system" "Second rules.";
                                message "user" "Hello"])].

(** A request with every source of system text. *)
Definition fullRequest : JSON :=
  JObject [("system", JArray [textBlock "Root one."; textBlock "Root two."]);
           ("messages",
            JArray [message "user" "Contents of /repo/CLAUDE.md (project instructions)";
                    message "system" "Be terse.";
                    message "user" "Contents of /other/CLAUDE.md"])].

(** The no-break space U+00A0, and an agent whose stored signature is
    wrapped in it. *)
Definition NBSP : string := String (Ascii.ascii_of_nat 160) EmptyString.

Definition paddedAgent : Agent.t :=
  {| Agent.id := "Padded"; Agent.name := "Padded";
     Agent.systemPrompt := NBSP +:+ "Rules." +:+ NBSP;
     Agent.model := "agent-default" |}.

(** A configuration whose target prompt is one no-break space. *)
Definition blankTargetConfig : InterceptorConfig :=
  {| targetPrompt := NBSP;
     replacementPrompt := "Keep this prompt.";
     toolsEnabled := true |}.


(** A configuration whose template is the empty string. *)
Definition emptyTemplateConfig : InterceptorConfig :=
  {| targetPrompt := MAIN_AGENT_SIGNATURE;
     replacementPrompt := EmptyString;
     toolsEnabled := true |}.

(** The body of a [POST] to the configuration endpoint. *)
Definition configRequest (isEnabled : bool) (c : InterceptorConfig) : JSON :=
  JObject [("isEnabled", JBool isEnabled);
           ("targetPrompt", JString (targetPrompt c));
           ("replacementPrompt", JString (replacementPrompt c));
           ("toolsEnabled", JBool (toolsEnabled c))].

(** An agent whose signature does not occur in the examples, and one
    whose stored signature is blank. *)
Definition agent7 : Agent.t :=
  {| Agent.id := "Agent7"; Agent.name := "Agent 7";
     Agent.systemPrompt := "You are Agent7, a writer of release notes.";
     Agent.model := "agent-default" |}.

Definition blankAgent : Agent.t :=
  {| Agent.id := "Blank"; Agent.name := "Blank";
     Agent.systemPrompt := "  " +:+ LF;
     Agent.model := "agent-default" |}.

(** A request whose root-level [system] has a [null] among its blocks. *)
Definition nullBlockBody : JSON :=
  JObject [("model", JString "base-v1");
           ("system", JArray [textBlock "Rules."; JNull]);
           ("messages", JArray [])].

(** A directory without agents. *)
#[export] Instance emptyDirectory : AgentRegistry unit := {|
  extractAgentDirectories _ := [];
  existsSync _ := false;
  registerWorkspace _ registry := inr registry;
  getAgents _ := inr []
|}.

(** A database without rows. *)
Definition emptyDb : DatabaseOperations :=
  {| interceptors := ∅; system_kv_store := ∅; kv_statements := [];
     agent_preferences := ∅ |}.

(** A process in which [terminateUsageWorker] ran twice before the first
    timer: one timer is still pending when the handle is cleared. *)
Definition staleTimerProcess : UsageWorker.Process :=
  UsageWorker.run
    [UsageWorker.GetUsageWorker; UsageWorker.TerminateUsageWorker;
     UsageWorker.TerminateUsageWorker; UsageWorker.TimeoutFires]
    (UsageWorker.initial true).

(** A context for the examples: accounts and responses are names, the
    strategy returns [accounts], the world counts the forwarding calls,
    and only the account ["good"] answers. *)
Definition sampleContext (accounts : list string)
  : Proxy.ProxyContext Buffer string string nat :=
  {| Proxy.provider_name := "anthropic";
     Proxy.validateProviderPath path := startsWith "/v1/" path;
     Proxy.ALL_ACCOUNTS_FAILED := "All accounts failed to proxy the request";
     Proxy.selectAccountsForRequest _ _ := accounts;
     Proxy.proxyWithAccount account _ _ calls :=
       (if String.eqb account "good" then Some ("response via " +:+ account) else None,
        S calls);
     Proxy.proxyUnauthenticated _ calls := (inr "unauthenticated response", S calls) |}.

(* ===================================================================== *)
(** * Vocabulary of the statements *)
(* ===================================================================== *)

(** What the [catch] of [interceptAndModifyRequest] returns. *)
Definition degraded {ArrayBuffer : Type} (buffer : ArrayBuffer)
  : AgentInterceptor.AgentInterceptResult ArrayBuffer :=
  {| AgentInterceptor.modifiedBody := Some buffer; AgentInterceptor.agentUsed := None;
     AgentInterceptor.originalModel := JNull;
     AgentInterceptor.appliedModel := JNull;
     AgentInterceptor.systemPromptModified := None;
     AgentInterceptor.toolsRemoved := None |}.


(** An eligible main-agent request for an enabled configuration: a
    structured [system] array whose first block carries the main-agent
    signature and not the sub-agent one, a second text block, and a
    non-empty string as [replacementPrompt]. *)
Record Eligible (requestBody config : JSON) (system : list JSON)
    (template : string) (toolsFlag tools : option JSON) : Prop := {
  el_system : getProp "system" requestBody = inr (Some (JArray system));
  el_first : isSystemMessageWithText (system !! 0) = true;
  el_main : includes MAIN_AGENT_SIGNATURE (messageText (system !! 0)) = true;
  el_sub : includes SUB_AGENT_SIGNATURE (messageText (system !! 0)) = false;
  el_second : isSystemMessageWithText (system !! 1) = true;
  el_template : getProp "replacementPrompt" config = inr (Some (JString template));
  el_nonempty : template <> EmptyString;
  el_toolsFlag : getProp "toolsEnabled" config = inr toolsFlag;
  el_tools : getProp "tools" requestBody = inr tools
}.

(** [!toolsEnabled && requestBody.tools !== undefined]. *)
Definition removesTools (toolsFlag tools : option JSON) : bool :=
  negb (truthy toolsFlag) && bool_decide (tools <> None).

(** [system[1].text] of a request body. *)
Definition secondSystemText (requestBody : JSON) : option string :=
  match requestBody with
  | JObject fields =>
      match lookupField "system" fields with
      | Some (JArray system) =>
          if isSystemMessageWithText (system !! 1)
          then Some (messageText (system !! 1)) else None
      | _ => None
      end
  | _ => None
  end.


(** No dollar sign in [s]. *)
Fixpoint dollarFree (s : string) : bool :=
  match s with
  | EmptyString => true
  | String c r => negb (Ascii.eqb c "$") && dollarFree r
  end.

(** The template with each placeholder replaced by the block as it is:
    first [{{env_block}}], then [{{git_status_block}}]. *)
Definition substituteVerbatim (template envBlock gitStatusBlock : string) : string :=
  replaceAllVerbatim "{{git_status_block}}" gitStatusBlock
    (replaceAllVerbatim "{{env_block}}" envBlock template).

(** The model the claim names: [preferenceLookup(agent.id)?.model ??
    agent.model]. *)
Definition preferredModel_nullish (preference : option string) (agent : Agent.t) : string :=
  match preference with
  | Some model => model
  | None => Agent.model agent
  end.

(** The agent an interceptor run detects: the first of the directory
    whose trimmed signature occurs in the combined system prompt. *)
Definition detects `{Runtime ArrayBuffer} `{AgentRegistry Registry}
    (buffer : ArrayBuffer) (agentRegistry : Registry) (agent : Agent.t) : Prop :=
  exists requestBody systemPrompt registry' agents,
    decodeJSON buffer = Some requestBody /\
    AgentInterceptor.extractSystemPrompt requestBody = inr (Some systemPrompt) /\
    systemPrompt <> EmptyString /\
    AgentInterceptor.registerWorkspaces
      (extractAgentDirectories (Registry := Registry) systemPrompt) agentRegistry
      = inr registry' /\
    getAgents registry' = inr agents /\
    List.find (fun a => includes (trim (Agent.systemPrompt a)) systemPrompt) agents
      = Some agent.

(** ** Request bodies as the interfaces of the agent interceptor type them

    [MessageContent] ([type?: string; text?: string]), message content
    ([string | MessageContent[]]), [Message] and the two fields of
    [RequestBody] that [extractSystemPrompt] reads. *)
Record MessageContent : Type := {
  content_type : option string;
  content_text : option string
}.

Inductive Content : Type :=
| TextContent (text : string)
| BlockContent (items : list MessageContent).

Record Message : Type := {
  role : option string;
  content : option Content
}.

Record RequestBody : Type := {
  system : option Content;
  messages : option (list Message)
}.

Definition viewString (v : option JSON) : option (option string) :=
  match v with
  | None => Some None
  | Some (JString s) => Some (Some s)
  | Some _ => None
  end.

Definition viewMessageContent (item : JSON) : option MessageContent :=
  match item with
  | JObject fields =>
      ty ← viewString (lookupField "type" fields);
      text ← viewString (lookupField "text" fields);
      Some {| content_type := ty; content_text := text |}
  | _ => None
  end.

Definition viewContent (v : option JSON) : option (option Content) :=
  match v with
  | None => Some None
  | Some (JString s) => Some (Some (TextContent s))
  | Some (JArray items) =>
      blocks ← mapM viewMessageContent items; Some (Some (BlockContent blocks))
  | Some _ => None
  end.

Definition viewMessage (msg : JSON) : option Message :=
  match msg with
  | JObject fields =>
      r ← viewString (lookupField "role" fields);
      c ← viewContent (lookupField "content" fields);
      Some {| role := r; content := c |}
  | _ => None
  end.

(** [viewRequestBody v = Some body]: the parsed value [v] is an object
    that conforms to [RequestBody], read as [body]. *)
Definition viewRequestBody (v : JSON) : option RequestBody :=
  match v with
  | JObject fields =>
      sys ← viewContent (lookupField "system" fields);
      msgs ← match lookupField "messages" fields with
             | None => Some None
             | Some (JArray items) => ms ← mapM viewMessage items; Some (Some ms)
             | Some _ => None
             end;
      Some {| system := sys; messages := msgs |}
  | _ => None
  end.

(** The text of a block that counts: type ["text"] and a non-empty text. *)
Definition blockText (item : MessageContent) : option string :=
  match content_type item, content_text item with
  | Some ty, Some text =>
      if String.eqb ty "text" && negb (String.eqb text EmptyString)
      then Some text else None
  | _, _ => None
  end.

(** The joined text of blocks. *)
Definition blocksText (items : list MessageContent) : string :=
  join LF (omap blockText items).

Definition contentText (c : Content) : string :=
  match c with
  | TextContent text => text
  | BlockContent items => blocksText items
  end.

Definition hasRoleOf (r : string) (msg : Message) : bool :=
  match role msg with
  | Some r' => String.eqb r' r
  | None => false
  end.

Definition nonEmptyText (text : string) : list string :=
  if String.eqb text EmptyString then [] else [text].

Definition textOf (c : option Content) : string :=
  match c with
  | Some c => contentText c
  | None => EmptyString
  end.

Definition rootSystemPart (body : RequestBody) : list string :=
  nonEmptyText (textOf (system body)).

(** The combined system prompt as the claim words it: the root-level
    [system], then the text of every message of role ["system"], then the
    text of every message of role ["user"] whose text has both markers. *)
Definition combinedText_everyMessage (body : RequestBody) : string :=
  let msgs := default [] (messages body) in
  join (LF +:+ LF)
    (rootSystemPart body
     ++ map (fun m => textOf (content m)) (filter (fun m => hasRoleOf "system" m = true) msgs)
     ++ filter (fun text => AgentInterceptor.mentionsClaudeMd text = true)
          (map (fun m => textOf (content m))
             (filter (fun m => hasRoleOf "user" m = true) msgs))).

(** The text of the first message of role ["system"]: a string content
    as it is, block content when its joined text is not empty. *)
Definition firstSystemMessagePart (msgs : list Message) : list string :=
  match List.find (hasRoleOf "system") msgs with
  | Some m =>
      match content m with
      | Some (TextContent text) => [text]
      | Some (BlockContent items) => nonEmptyText (blocksText items)
      | None => []
      end
  | None => []
  end.

(** The text of the first message of role ["user"], when it has both
    markers. *)
Definition firstUserMessagePart (msgs : list Message) : list string :=
  match List.find (hasRoleOf "user") msgs with
  | Some m =>
      let text := textOf (content m) in
      if AgentInterceptor.mentionsClaudeMd text then [text] else []
  | None => []
  end.

(** The combined system prompt, first message of each role only; [None]
    when nothing was found. *)
Definition combinedText_firstMessage (body : RequestBody) : option string :=
  let msgs := default [] (messages body) in
  match rootSystemPart body ++ firstSystemMessagePart msgs ++ firstUserMessagePart msgs with
  | [] => None
  | parts => Some (join (LF +:+ LF) parts)
  end.

(** The journal of attempts that all came back without a response, for
    the accounts of a list in its order, numbered from [i]. *)
Fixpoint failedAttempts {Account Response : Type} (i : nat) (accounts : list Account)
  : list (Proxy.Forward Account Response) :=
  match accounts with
  | [] => []
  | account :: rest => Proxy.WithAccount i account None :: failedAttempts (S i) rest
  end.

(** No attempt of the journal returned a response. *)
Definition noResponse {Account Response : Type}
    (journal : list (Proxy.Forward Account Response)) : Prop :=
  forall i account response,
    In (Proxy.WithAccount i account (Some response)) journal -> False.


(** [replacementPrompt] passes the check of the interceptor: a string
    that is not empty. *)
Definition validTemplate (v : option JSON) : bool :=
  match v with
  | Some (JString template) => negb (String.eqb template EmptyString)
  | _ => false
  end.

(** A main-agent session: a [system] array whose first block is a text
    block with the main-agent signature and without the sub-agent one. *)
Definition mainAgentSession (requestBody : JSON) (system : list JSON) : Prop :=
  getProp "system" requestBody = inr (Some (JArray system)) /\
  isSystemMessageWithText (system !! 0) = true /\
  includes MAIN_AGENT_SIGNATURE (messageText (system !! 0)) = true /\
  includes SUB_AGENT_SIGNATURE (messageText (system !! 0)) = false.

(** What the tools task hands to [_updateLastSeenTools]: the closure
    reads [requestBody.tools] when it runs, that is from the request
    object as the interceptor has left it. *)
Definition toolsReadByTask (requestBody : JSON) : Try (option JSON) :=
  getProp "tools" requestBody.

(** The request bodies that [setSystemPromptConfig] accepts: an object
    with the two booleans and the two strings, the target prompt not
    blank. *)
Definition AcceptedBody (parsed : option JSON) (isEnabled : bool)
    (c : InterceptorConfig) : Prop :=
  exists fields,
    parsed = Some (JObject fields) /\
    lookupField "isEnabled" fields = Some (JBool isEnabled) /\
    lookupField "targetPrompt" fields = Some (JString (targetPrompt c)) /\
    trim (targetPrompt c) <> EmptyString /\
    lookupField "replacementPrompt" fields = Some (JString (replacementPrompt c)) /\
    lookupField "toolsEnabled" fields = Some (JBool (toolsEnabled c)).

(** The answer of [getSystemPromptConfig] with these four values. *)
Definition configResponse (isEnabled : bool) (c : InterceptorConfig)
  : ToolsHandler.Response :=
  ToolsHandler.JsonResponse (JObject
    [("isEnabled", JBool isEnabled);
     ("targetPrompt", JString (targetPrompt c));
     ("replacementPrompt", JString (replacementPrompt c));
     ("toolsEnabled", JBool (toolsEnabled c))]).

(** What holds of the worker module at any time: the handle is a live
    worker that is listened to (and unref'ed where the method exists), no
    worker was terminated twice, and every worker ever created is either
    the handle or terminated. *)
Definition WorkerInvariant (p : UsageWorker.Process) : Prop :=
  (forall worker, UsageWorker.usageWorkerInstance p = Some worker ->
     worker < UsageWorker.created p /\
     ~ In worker (UsageWorker.terminated p) /\
     In worker (UsageWorker.listening p) /\
     (UsageWorker.hasUnref p = true -> In worker (UsageWorker.unrefed p))) /\
  (forall worker, In worker (UsageWorker.terminated p) -> worker < UsageWorker.created p) /\
  NoDup (UsageWorker.terminated p) /\
  UsageWorker.created p
    = length (UsageWorker.terminated p)
      + match UsageWorker.usageWorkerInstance p with Some _ => 1 | None => 0 end.

(* ===================================================================== *)
(** * Facts about the string methods *)
(* ===================================================================== *)

(** In this part [simpl] may unfold [+:+] on a constructor. *)
#[local] Arguments String.append !_ _ / : simpl nomatch.

Lemma startsWith_spec needle s :
  startsWith needle s = true <-> exists post, s = needle +:+ post.
Proof.
  revert s. induction needle as [|a needle IH]; intros s; simpl.
  - split; [by exists s|done].
  - destruct s as [|b s]; simpl.
    + split; [done|]. by intros [post Hpost].
    + destruct (Ascii.eqb a b) eqn:Hab.
      * apply Ascii.eqb_eq in Hab as ->. rewrite IH.
        split; intros [post Hpost]; exists post; simpl in *; congruence.
      * apply Ascii.eqb_neq in Hab. split; [done|].
        intros [post Hpost]. simpl in Hpost. congruence.
Qed.

Lemma length_append (s t : string) :
  String.length (s +:+ t) = String.length s + String.length t.
Proof. induction s as [|c s IH]; simpl; [done|]. by rewrite IH. Qed.

Lemma append_assoc (s t u : string) : (s +:+ t) +:+ u = s +:+ (t +:+ u).
Proof. induction s as [|c s IH]; simpl; [done|]. by rewrite IH. Qed.

Lemma indexOf_Some needle s i :
  indexOf needle s = Some i ->
  exists pre post, s = pre +:+ needle +:+ post /\ String.length pre = i.
Proof.
  revert i. induction s as [|c s IH]; intros i; simpl.
  - destruct (startsWith needle EmptyString) eqn:Hstart; [|done].
    intros [= <-]. apply startsWith_spec in Hstart as [post Hpost].
    by exists EmptyString, post.
  - destruct (startsWith needle (String c s)) eqn:Hstart.
    + intros [= <-]. apply startsWith_spec in Hstart as [post Hpost].
      by exists EmptyString, post.
    + destruct (indexOf needle s) as [j|]; [|done]. simpl. intros [= <-].
      destruct (IH j eq_refl) as (pre & post & -> & Hlen).
      exists (String c pre), post. simpl. by rewrite Hlen.
Qed.

Lemma indexOf_None needle s pre post :
  indexOf needle s = None -> s <> pre +:+ needle +:+ post.
Proof.
  revert pre. induction s as [|c s IH]; intros pre; simpl.
  - destruct (startsWith needle EmptyString) eqn:Hstart; [done|]. intros _ Heq.
    destruct pre; [|done]. simpl in Heq.
    assert (startsWith needle EmptyString = true); [|congruence].
    apply startsWith_spec. by exists post.
  - destruct (startsWith needle (String c s)) eqn:Hstart; [done|].
    destruct (indexOf needle s) eqn:Hidx; [done|]. intros _ Heq.
    destruct pre as [|c' pre]; simpl in Heq.
    + assert (startsWith needle (String c s) = true); [|congruence].
      apply startsWith_spec. by exists post.
    + injection Heq as -> Heq. by eapply IH.
Qed.

(** [includes] is containment. *)
Lemma includes_spec needle s :
  includes needle s = true <-> exists pre post, s = pre +:+ needle +:+ post.
Proof.
  rewrite /includes. destruct (indexOf needle s) as [i|] eqn:Hidx.
  - split; [|done]. intros _.
    destruct (indexOf_Some _ _ _ Hidx) as (pre & post & Hs & _). by exists pre, post.
  - split; [done|]. intros (pre & post & Hs).
    by destruct (indexOf_None _ _ pre post Hidx).
Qed.

Lemma length_substringFrom n s :
  String.length (substringFrom n s) = String.length s - n.
Proof.
  revert s. induction n as [|n IH]; intros s; simpl; [lia|].
  destruct s; simpl; [done|]. by rewrite IH.
Qed.

Lemma indexOf_bound needle s i :
  indexOf needle s = Some i -> i + String.length needle <= String.length s.
Proof.
  intros (pre & post & -> & <-)%indexOf_Some. rewrite !length_append. lia.
Qed.

Lemma trimStart_split s : exists ws, s = ws +:+ trimStart s.
Proof.
  induction s as [|c s [ws IH]]; simpl; [by exists EmptyString|].
  destruct (isWhiteSpace c).
  - exists (String c ws). simpl. by rewrite -IH.
  - by exists EmptyString.
Qed.

Lemma trimEnd_split s : exists ws, s = trimEnd s +:+ ws.
Proof.
  induction s as [|c s [ws IH]]; simpl; [by exists EmptyString|].
  destruct (trimEnd s) as [|c' r] eqn:Hr.
  - destruct (isWhiteSpace c).
    + by exists (String c s).
    + exists ws. simpl. by rewrite {1}IH.
  - exists ws. simpl. by rewrite {1}IH.
Qed.

(** A text that contains a signature contains the trimmed signature. *)
Lemma includes_trim signature s :
  includes signature s = true -> includes (trim signature) s = true.
Proof.
  rewrite !includes_spec. intros (pre & post & ->).
  destruct (trimStart_split signature) as [ws Hws].
  destruct (trimEnd_split (trimStart signature)) as [ws' Hws'].
  exists (pre +:+ ws), (ws' +:+ post).
  rewrite /trim {1}Hws {1}Hws' !append_assoc. done.
Qed.

(** ** The fuel of the scans is enough *)

Lemma matchBlocks_empty open close fuel :
  close <> EmptyString -> matchBlocks open close fuel EmptyString = [].
Proof.
  intros Hclose. destruct fuel; simpl; [done|].
  destruct (startsWith open EmptyString); [|done].
  rewrite /substringFrom. destruct (0 + String.length open); simpl.
  all: destruct close; done.
Qed.

Lemma matchBlocks_fuel open close fuel fuel' text :
  close <> EmptyString ->
  String.length text <= fuel -> String.length text <= fuel' ->
  matchBlocks open close fuel text = matchBlocks open close fuel' text.
Proof.
  intros Hclose. revert fuel' text.
  induction fuel as [|fuel IH]; intros fuel' text Hfuel Hfuel'.
  - destruct text; [|simpl in Hfuel; lia]. by rewrite !matchBlocks_empty.
  - destruct fuel' as [|fuel'].
    + destruct text; [|simpl in Hfuel'; lia]. by rewrite !matchBlocks_empty.
    + simpl. destruct (indexOf open text) as [i|] eqn:Hopen; [|done].
      destruct (indexOf close (substringFrom (i + String.length open) text))
        as [j|] eqn:Hcl; [|done].
      f_equal. apply indexOf_bound in Hcl, Hopen.
      rewrite length_substringFrom in Hcl.
      assert (0 < String.length close) by (destruct close; [done|simpl; lia]).
      apply IH; rewrite !length_substringFrom; lia.
Qed.

Lemma replaceEach_fuel token subst fuel fuel' before s :
  token <> EmptyString ->
  String.length s < fuel -> String.length s < fuel' ->
  replaceEach token subst fuel before s = replaceEach token subst fuel' before s.
Proof.
  intros Htoken. revert fuel' before s.
  induction fuel as [|fuel IH]; intros fuel' before s Hfuel Hfuel'; [lia|].
  destruct fuel' as [|fuel']; [lia|]. simpl.
  destruct (startsWith token s) eqn:Hstart.
  - f_equal. apply startsWith_spec in Hstart as [post ->].
    assert (0 < String.length token) by (destruct token; [done|simpl; lia]).
    rewrite length_append in Hfuel, Hfuel'.
    apply IH; rewrite length_substringFrom length_append; lia.
  - destruct s as [|c s]; [done|]. f_equal. simpl in Hfuel, Hfuel'.
    apply IH; lia.
Qed.

#[local] Arguments String.append : simpl never.

(* ===================================================================== *)
(** * Facts about fields and runs *)
(* ===================================================================== *)

Lemma lookupField_setField_eq k v fields : lookupField k (setField k v fields) = Some v.
Proof.
  induction fields as [|[k' v'] rest IH]; simpl.
  - by rewrite String.eqb_refl.
  - destruct (String.eqb k k') eqn:E; simpl; rewrite ?String.eqb_refl ?E //.
Qed.

Lemma lookupField_setField_ne k k' v fields :
  k' <> k -> lookupField k' (setField k v fields) = lookupField k' fields.
Proof.
  intros Hne. induction fields as [|[k0 v0] rest IH]; simpl.
  - destruct (String.eqb k' k) eqn:E; [|done].
    apply String.eqb_eq in E. done.
  - destruct (String.eqb k k0) eqn:E; simpl.
    + apply String.eqb_eq in E. subst k0.
      destruct (String.eqb k' k) eqn:E'; [|done].
      apply String.eqb_eq in E'. done.
    + by rewrite IH.
Qed.

Lemma lookupField_deleteField_eq k fields : lookupField k (deleteField k fields) = None.
Proof.
  induction fields as [|[k' v'] rest IH]; simpl; [done|].
  destruct (String.eqb k k') eqn:E; simpl; rewrite ?E //.
Qed.

Lemma lookupField_deleteField_ne k k' fields :
  k' <> k -> lookupField k' (deleteField k fields) = lookupField k' fields.
Proof.
  intros Hne. induction fields as [|[k0 v0] rest IH]; simpl; [done|].
  destruct (String.eqb k k0) eqn:E; simpl.
  - apply String.eqb_eq in E. subst k0.
    destruct (String.eqb k' k) eqn:E'; [|done].
    apply String.eqb_eq in E'. done.
  - by rewrite IH.
Qed.

Lemma snd_runBind {A B} (m : Run A) (k : A -> Run B) :
  snd (runBind m k) = match snd m with inl e => inl e | inr a => snd (k a) end.
Proof. destruct m as [ts [e|a]]; simpl; [done|]. by destruct (k a). Qed.

Lemma fst_runBind {A B} (m : Run A) (k : A -> Run B) :
  fst (runBind m k) = fst m ++ match snd m with inl e => [] | inr a => fst (k a) end.
Proof.
  destruct m as [ts [e|a]]; simpl; [by rewrite app_nil_r|]. by destruct (k a).
Qed.

Lemma snd_caught {A} (m : Try A) :
  snd (caught m) = match m with inl e => inl (Caught e) | inr a => inr a end.
Proof. by destruct m. Qed.

Lemma fst_caught {A} (m : Try A) : fst (caught m) = [].
Proof. by destruct m. Qed.

Lemma snd_when (b : bool) (task : Deferred) :
  snd (if b then setImmediate task else runRet ()) = inr ().
Proof. by destruct b. Qed.

#[global] Arguments runBind : simpl never.

(** One step through a run: push [snd] under the binds. *)
Ltac run_step := rewrite ?snd_runBind ?snd_caught ?snd_when /=.

(* ===================================================================== *)
(** * The System-Prompt Interceptor: what a call returns *)
(* ===================================================================== *)

Section InterceptorFacts.
Context `{Runtime ArrayBuffer}.
Import SystemPromptInterceptor.

Lemma intercept_inv (buffer : ArrayBuffer) dbOps result :
  snd (intercept buffer dbOps) = inr result ->
  exists requestBody config system template toolsFlag tools,
    decodeJSON buffer = Some requestBody /\
    getInterceptorConfig dbOps "system_prompt" = inr (Some (true, config)) /\
    Eligible requestBody config system template toolsFlag tools /\
    (removesTools toolsFlag tools = true -> tools <> Some JNull) /\
    result =
      (if removesTools toolsFlag tools then deleteProp "tools" else id)
        (setSecondSystemText
           (applyTemplate template
              (extractEnvBlock (messageText (system !! 1)))
              (extractGitStatusBlock (messageText (system !! 1))))
           requestBody).
Proof.
  rewrite /intercept /parseBody. run_step.
  destruct (decodeJSON buffer) as [requestBody|] eqn:Hdec; run_step; [|done].
  destruct (getInterceptorConfig dbOps "system_prompt") as [e|[[isEnabled config]|]] eqn:Hcfg;
    run_step; [done| |done].
  destruct isEnabled; run_step; [|done].
  destruct (getProp "system" requestBody) as [e|system] eqn:Hsys; run_step; [done|].
  destruct system as [[ | | | |system| ]|]; try done.
  destruct (isSystemMessageWithText (system !! 0)) eqn:Hfirst; run_step; [|done].
  destruct (includes MAIN_AGENT_SIGNATURE (messageText (system !! 0))) eqn:Hmain;
    run_step; [|done].
  destruct (includes SUB_AGENT_SIGNATURE (messageText (system !! 0))) eqn:Hsub;
    run_step; [done|].
  destruct (getProp "tools" requestBody) as [e|tools] eqn:Htools; run_step; [done|].
  destruct (isSystemMessageWithText (system !! 1)) eqn:Hsecond; run_step; [|done].
  destruct (getProp "replacementPrompt" config) as [e|template] eqn:Htpl; run_step; [done|].
  destruct (getProp "toolsEnabled" config) as [e|toolsFlag] eqn:Hflag; run_step; [done|].
  destruct template as [[ | | |template| | ]|]; try done.
  destruct (String.eqb template EmptyString) eqn:Hne; [done|].
  apply String.eqb_neq in Hne.
  intros Hres.
  exists requestBody, config, system, template, toolsFlag, tools.
  split; [done|]. split; [done|]. split; [by constructor|].
  rewrite /removesTools.
  destruct (negb (truthy toolsFlag) && bool_decide (tools <> None)) eqn:Hrm.
  - move: Hres. run_step.
    destruct (readLength tools) as [e|[]] eqn:Hlen; [done|].
    simpl. intros Hres. split; [|congruence].
    intros _ ->. done.
  - simpl in Hres. split; [done|]. rewrite /id. congruence.
Qed.

Lemma intercept_eligible (buffer : ArrayBuffer) dbOps requestBody config system
    template toolsFlag tools :
  decodeJSON buffer = Some requestBody ->
  getInterceptorConfig dbOps "system_prompt" = inr (Some (true, config)) ->
  Eligible requestBody config system template toolsFlag tools ->
  (removesTools toolsFlag tools = true -> tools <> Some JNull) ->
  snd (intercept buffer dbOps) =
    inr ((if removesTools toolsFlag tools then deleteProp "tools" else id)
           (setSecondSystemText
              (applyTemplate template
                 (extractEnvBlock (messageText (system !! 1)))
                 (extractGitStatusBlock (messageText (system !! 1))))
              requestBody)).
Proof.
  intros Hdec Hcfg [Hsys Hfirst Hmain Hsub Hsecond Htpl Hne Hflag Htools] Hnull.
  rewrite /intercept /parseBody. run_step.
  rewrite Hdec Hcfg. run_step. rewrite Hsys. run_step.
  rewrite Hfirst Hmain Hsub. run_step. rewrite Htools. run_step.
  rewrite Hsecond. run_step. rewrite Htpl. run_step. rewrite Hflag.
  apply String.eqb_neq in Hne. rewrite Hne.
  rewrite /removesTools in Hnull |- *.
  destruct (negb (truthy toolsFlag) && bool_decide (tools <> None)) eqn:Hrm; [|done].
  run_step.
  destruct tools as [[]|]; try done.
  - by specialize (Hnull eq_refl).
  - rewrite andb_comm in Hrm. done.
Qed.

(** Outside a main-agent session the call returns [null] and schedules
    nothing. *)
Lemma intercept_not_main (buffer : ArrayBuffer) dbOps requestBody config system :
  decodeJSON buffer = Some requestBody ->
  getInterceptorConfig dbOps "system_prompt" = inr (Some (true, config)) ->
  getProp "system" requestBody = inr (Some (JArray system)) ->
  includes MAIN_AGENT_SIGNATURE (messageText (system !! 0))
    && negb (includes SUB_AGENT_SIGNATURE (messageText (system !! 0))) = false ->
  intercept buffer dbOps = ([], inl Unchanged).
Proof.
  intros Hdec Hcfg Hsys Hgate.
  rewrite /intercept /parseBody /runBind Hdec /= Hcfg /= Hsys /=.
  destruct (isSystemMessageWithText (system !! 0)); [|done]. simpl.
  destruct (includes MAIN_AGENT_SIGNATURE _); [|done].
  destruct (includes SUB_AGENT_SIGNATURE _); done.
Qed.

Lemma isSystemMessageWithText_object item :
  isSystemMessageWithText item = true ->
  exists fields, item = Some (JObject fields) /\
    lookupField "text" fields = Some (JString (messageText item)).
Proof.
  destruct item as [[]|]; try done. simpl.
  destruct (lookupField "type" fields); [|done].
  destruct (lookupField "text" fields) as [[]|] eqn:Htext; try done.
  intros _. exists fields. by rewrite Htext.
Qed.

(** The object handed to [JSON.stringify] against the object parsed. *)
Lemma rewritten_shape requestBody config system template toolsFlag tools newPrompt :
  Eligible requestBody config system template toolsFlag tools ->
  exists fields second,
    requestBody = JObject fields /\
    lookupField "system" fields = Some (JArray system) /\
    lookupField "tools" fields = tools /\
    system !! 1 = Some (JObject second) /\
    (if removesTools toolsFlag tools then deleteProp "tools" else id)
      (setSecondSystemText newPrompt requestBody) =
    JObject
      ((if removesTools toolsFlag tools then deleteField "tools" else id)
         (setField "system"
            (JArray (<[1 := JObject (setField "text" (JString newPrompt) second)]> system))
            fields)).
Proof.
  intros [Hsys _ _ _ Hsecond _ _ _ Htools].
  destruct requestBody as [ | | | | |fields]; try done.
  simpl in Hsys, Htools.
  apply isSystemMessageWithText_object in Hsecond as (second & Hsecond & _).
  exists fields, second. simpl.
  injection Hsys as Hsys. injection Htools as Htools.
  rewrite Hsys Hsecond.
  repeat split; try done.
  by destruct (removesTools toolsFlag tools).
Qed.

(** C4. With an enabled configuration and a structured [system] array,
    the interceptor returns a rewritten buffer only when [system[0].text]
    contains the main-agent signature and not the sub-agent signature;
    when that fails it returns [null], schedules nothing, and the buffer
    the orchestrator goes on with is the original one. *)
Theorem main_agent_gate (buffer : ArrayBuffer) dbOps requestBody config system :
  decodeJSON buffer = Some requestBody ->
  getInterceptorConfig dbOps "system_prompt" = inr (Some (true, config)) ->
  getProp "system" requestBody = inr (Some (JArray system)) ->
  let firstSystemText := messageText (system !! 0) in
  let isMainAgent := includes MAIN_AGENT_SIGNATURE firstSystemText in
  let isSubAgent := includes SUB_AGENT_SIGNATURE firstSystemText in
  (is_Some (applySystemPromptInterception (Some buffer) dbOps) ->
     isMainAgent = true /\ isSubAgent = false) /\
  (isMainAgent && negb isSubAgent = false ->
     applySystemPromptInterception (Some buffer) dbOps = None /\
     scheduledTasks (Some buffer) dbOps = [] /\
     Proxy.orElse (applySystemPromptInterception (Some buffer) dbOps) (Some buffer)
       = Some buffer).
Proof.
  intros Hdec Hcfg Hsys. simpl. split.
  - intros [out Hout]. rewrite /applySystemPromptInterception in Hout.
    destruct (snd (intercept buffer dbOps)) as [e|result] eqn:Hrun; [done|].
    apply intercept_inv in Hrun
      as (body' & config' & system' & template & toolsFlag & tools & Hdec' & Hcfg' & Hel & _).
    destruct Hel as [Hsys' _ Hmain Hsub _ _ _ _ _].
    rewrite Hdec in Hdec'. injection Hdec' as <-.
    rewrite Hsys in Hsys'. injection Hsys' as <-. done.
  - intros Hgate.
    rewrite /applySystemPromptInterception /scheduledTasks.
    by rewrite (intercept_not_main _ _ _ _ _ Hdec Hcfg Hsys Hgate).
Qed.








End InterceptorFacts.


Lemma main_agent_gate_witness :
  SystemPromptInterceptor.applySystemPromptInterception
    (Some (Encoded subAgentBody)) (sampleDb true (sampleConfig true)) = None
  /\ SystemPromptInterceptor.scheduledTasks
       (Some (Encoded subAgentBody)) (sampleDb true (sampleConfig true)) = []
  /\ Proxy.orElse
       (SystemPromptInterceptor.applySystemPromptInterception
          (Some (Encoded subAgentBody)) (sampleDb true (sampleConfig true)))
       (Some (Encoded subAgentBody)) = Some (Encoded subAgentBody).
Proof.
  refine (proj2 (main_agent_gate (Encoded subAgentBody) (sampleDb true (sampleConfig true))
            subAgentBody (InterceptorConfig_toJSON (sampleConfig true))
            [textBlock "You are an agent for Claude Code, working on a task.";
             textBlock "<env>X</env>"] _ _ _) _); reflexivity.
Defined.



(* ===================================================================== *)
(** * Template substitution *)
(* ===================================================================== *)

Lemma getSubstitution_dollarFree matched before after replacement :
  dollarFree replacement = true ->
  getSubstitution matched before after replacement = replacement.
Proof.
  induction replacement as [|c r IH]; [done|].
  simpl. intros [Hc Hr]%andb_prop. specialize (IH Hr).
  destruct c as [[] [] [] [] [] [] [] []]; simpl in *; try done; by rewrite IH.
Qed.

Lemma replaceEach_ext token f g fuel before s :
  (forall b a, f b a = g b a) ->
  replaceEach token f fuel before s = replaceEach token g fuel before s.
Proof.
  intros Hfg. revert before s.
  induction fuel as [|fuel IH]; intros before s; simpl; [done|].
  destruct (startsWith token s).
  - by rewrite Hfg IH.
  - destruct s; [done|]. by rewrite IH.
Qed.

Lemma replaceAll_dollarFree token replacement subject :
  dollarFree replacement = true ->
  replaceAll token replacement subject = replaceAllVerbatim token replacement subject.
Proof.
  intros Hfree. apply replaceEach_ext. intros b a.
  by apply getSubstitution_dollarFree.
Qed.

(** Without a dollar sign in the extracted blocks, the two [replace]
    calls insert the blocks as they are. *)
Lemma applyTemplate_dollarFree template envBlock gitStatusBlock :
  dollarFree envBlock = true -> dollarFree gitStatusBlock = true ->
  SystemPromptInterceptor.applyTemplate template envBlock gitStatusBlock
    = substituteVerbatim template envBlock gitStatusBlock.
Proof.
  intros Henv Hgit.
  rewrite /SystemPromptInterceptor.applyTemplate /substituteVerbatim.
  by rewrite !replaceAll_dollarFree.
Qed.

Section RewrittenPrompt.
Context `{Runtime ArrayBuffer}.
Import SystemPromptInterceptor.

Lemma isSystemMessageWithText_type item :
  isSystemMessageWithText item = true ->
  exists fields, item = Some (JObject fields) /\ is_Some (lookupField "type" fields).
Proof.
  destruct item as [[]|]; try done. simpl.
  destruct (lookupField "type" fields) eqn:Htype; [|done].
  intros _. exists fields. by rewrite Htype.
Qed.

(** For an eligible request the call returns the re-encoded body, whose
    [system[1].text] is the template after the two [replace] calls. *)
Lemma rewritten_prompt_text (buffer : ArrayBuffer) dbOps requestBody config system
    template toolsFlag tools :
  decodeJSON buffer = Some requestBody ->
  getInterceptorConfig dbOps "system_prompt" = inr (Some (true, config)) ->
  Eligible requestBody config system template toolsFlag tools ->
  (removesTools toolsFlag tools = true -> tools <> Some JNull) ->
  exists result,
    applySystemPromptInterception (Some buffer) dbOps = Some (encodeJSON result) /\
    secondSystemText result =
      Some (applyTemplate template
              (extractEnvBlock (messageText (system !! 1)))
              (extractGitStatusBlock (messageText (system !! 1)))).
Proof.
  intros Hdec Hcfg Hel Hnull.
  rewrite /applySystemPromptInterception.
  rewrite (intercept_eligible _ _ _ _ _ _ _ _ Hdec Hcfg Hel Hnull).
  eexists. split; [done|].
  set (newPrompt := applyTemplate _ _ _).
  destruct (rewritten_shape _ _ _ _ _ _ newPrompt Hel)
    as (fields & second & -> & Hsys & Htools & Hsecond & ->).
  destruct Hel as [_ _ _ _ Hsnd _ _ _ _].
  apply isSystemMessageWithText_type in Hsnd as (second0 & Hsecond0 & [ty Hty]).
  rewrite Hsecond in Hsecond0. injection Hsecond0 as <-.
  rewrite /secondSystemText.
  assert (lookupField "system"
    ((if removesTools toolsFlag tools then deleteField "tools" else id)
       (setField "system"
          (JArray (<[1:=JObject (setField "text" (JString newPrompt) second)]> system))
          fields))
    = Some (JArray (<[1:=JObject (setField "text" (JString newPrompt) second)]> system)))
    as ->.
  { destruct (removesTools toolsFlag tools); simpl.
    - by rewrite lookupField_deleteField_ne // lookupField_setField_eq.
    - by rewrite lookupField_setField_eq. }
  rewrite list_lookup_insert_eq; [by apply lookup_lt_Some in Hsecond|].
  simpl. rewrite lookupField_setField_ne // Hty lookupField_setField_eq. done.
Qed.

(** When the extracted blocks hold no dollar sign, [system[1].text] is
    the template with each placeholder replaced by its block. *)
Corollary rewritten_prompt_verbatim (buffer : ArrayBuffer) dbOps requestBody config
    system template toolsFlag tools :
  decodeJSON buffer = Some requestBody ->
  getInterceptorConfig dbOps "system_prompt" = inr (Some (true, config)) ->
  Eligible requestBody config system template toolsFlag tools ->
  (removesTools toolsFlag tools = true -> tools <> Some JNull) ->
  dollarFree (extractEnvBlock (messageText (system !! 1))) = true ->
  dollarFree (extractGitStatusBlock (messageText (system !! 1))) = true ->
  exists result,
    applySystemPromptInterception (Some buffer) dbOps = Some (encodeJSON result) /\
    secondSystemText result =
      Some (substituteVerbatim template
              (extractEnvBlock (messageText (system !! 1)))
              (extractGitStatusBlock (messageText (system !! 1)))).
Proof.
  intros Hdec Hcfg Hel Hnull Henv Hgit.
  destruct (rewritten_prompt_text _ _ _ _ _ _ _ _ Hdec Hcfg Hel Hnull)
    as (result & Hout & Htext).
  exists result. split; [done|]. by rewrite Htext applyTemplate_dollarFree.
Qed.

End RewrittenPrompt.

(** Scenario B: one [<env>X</env>] block and the template
    ["Hi.\n{{env_block}}"]. *)
Example scenario_B :
  SystemPromptInterceptor.applySystemPromptInterception
    (Some (Encoded (mainBody "intro <env>X</env> outro" [])))
    (sampleDb true (sampleConfig true))
  = Some (Encoded (mainBody ("Hi." +:+ LF +:+ "<env>X</env>") [])).
Proof. reflexivity. Qed.

(** Scenario C: [toolsEnabled = false] removes the [tools] field. *)
Example scenario_C :
  SystemPromptInterceptor.applySystemPromptInterception
    (Some (Encoded (mainBody "intro <env>X</env> outro" sampleTools)))
    (sampleDb true (sampleConfig false))
  = Some (Encoded (mainBody ("Hi." +:+ LF +:+ "<env>X</env>") [])).
Proof. reflexivity. Qed.

(** Scenario A: a disabled configuration. *)
Example scenario_A :
  SystemPromptInterceptor.applySystemPromptInterception
    (Some (Encoded (mainBody "intro <env>X</env> outro" sampleTools)))
    (sampleDb false (sampleConfig false))
  = None.
Proof. reflexivity. Qed.

(** C3. The env block [<env>cwd: /tmp/$$</env>] is extracted as it is,
    but the text produced for the template ["Hi.\n{{env_block}}"] holds
    [<env>cwd: /tmp/$</env>]: [String.prototype.replace] reads [$$] in
    its replacement argument as one dollar sign. Replacing the placeholder
    by the block gives the other text. *)
Theorem dollar_pattern_alters_env_block :
  let original := "<env>cwd: /tmp/$$</env>" in
  let requestBody := mainBody original [] in
  let dbOps := sampleDb true (sampleConfig true) in
  extractEnvBlock original = original /\
  extractGitStatusBlock original = EmptyString /\
  SystemPromptInterceptor.applySystemPromptInterception (Some (Encoded requestBody)) dbOps
    = Some (Encoded (mainBody ("Hi." +:+ LF +:+ "<env>cwd: /tmp/$</env>") [])) /\
  substituteVerbatim (replacementPrompt (sampleConfig true)) original EmptyString
    = "Hi." +:+ LF +:+ "<env>cwd: /tmp/$$</env>" /\
  secondSystemText (mainBody ("Hi." +:+ LF +:+ "<env>cwd: /tmp/$</env>") [])
    <> Some (substituteVerbatim (replacementPrompt (sampleConfig true)) original EmptyString).
Proof. repeat split; try reflexivity. by vm_compute. Qed.


(** C7. The template equals the prompt in place and no tool is removed:
    nothing changes, and the call still returns a re-encoded buffer (of
    the same body) where [null] is documented. *)
Theorem unchanged_request_is_reencoded :
  let requestBody := mainBody "Keep this prompt." sampleTools in
  let dbOps := sampleDb true sameTextConfig in
  SystemPromptInterceptor.applySystemPromptInterception (Some (Encoded requestBody)) dbOps
    = Some (Encoded requestBody) /\
  SystemPromptInterceptor.applySystemPromptInterception (Some (Encoded requestBody)) dbOps
    <> None.
Proof. split; [reflexivity|by vm_compute]. Qed.

(* ===================================================================== *)
(** * Deferred last-seen updates *)
(* ===================================================================== *)

Section LastSeen.
Context `{Runtime ArrayBuffer}.

Lemma update_if_changed key value dbOps :
  (if bool_decide (Some value <> getSystemKV dbOps key)
   then setSystemKV key value dbOps else dbOps)
  = (if bool_decide (getSystemKV dbOps key = Some value)
     then dbOps else setSystemKV key value dbOps).
Proof. repeat case_bool_decide; congruence. Qed.

(** A last-seen update whose new value [v] is defined (the prompt, or
    the serialization of the tools passed) leaves the database as it is,
    without a [setSystemKV] call, when [v] is the value stored under the
    key; otherwise it makes one [setSystemKV] call that stores [v] under
    the key. *)
Lemma defined_update_compares_before_write driver
    (dbOps : DatabaseOperations) (prompt : string) (tools : JSON) :
  let toolsJson := JSON_stringify tools in
  (getSystemKV dbOps "last_seen_system_prompt" = Some prompt ->
     _updateLastSeenPrompt prompt dbOps = dbOps) /\
  (getSystemKV dbOps "last_seen_system_prompt" <> Some prompt ->
     _updateLastSeenPrompt prompt dbOps
       = setSystemKV "last_seen_system_prompt" prompt dbOps /\
     getSystemKV (_updateLastSeenPrompt prompt dbOps) "last_seen_system_prompt"
       = Some prompt /\
     kv_statements (_updateLastSeenPrompt prompt dbOps)
       = kv_statements dbOps ++ [("last_seen_system_prompt", Some prompt)]) /\
  (getSystemKV dbOps "last_seen_tools" = Some toolsJson ->
     _updateLastSeenTools driver (Some tools) dbOps = dbOps) /\
  (getSystemKV dbOps "last_seen_tools" <> Some toolsJson ->
     _updateLastSeenTools driver (Some tools) dbOps
       = setSystemKV "last_seen_tools" toolsJson dbOps /\
     getSystemKV (_updateLastSeenTools driver (Some tools) dbOps) "last_seen_tools"
       = Some toolsJson /\
     kv_statements (_updateLastSeenTools driver (Some tools) dbOps)
       = kv_statements dbOps ++ [("last_seen_tools", Some toolsJson)]).
Proof.
  simpl. rewrite /_updateLastSeenPrompt /_updateLastSeenTools /strictNotEqual /=.
  rewrite !update_if_changed.
  split; [|split; [|split]]; intros Hkv; case_bool_decide; try done;
    rewrite /getSystemKV /setSystemKV /=; by rewrite ?lookup_insert_eq.
Qed.

(** The tools task of a rewritten request with tools disabled reads
    [undefined]. *)
Lemma toolsAtRunTime_deleted (buffer : ArrayBuffer) dbOps requestBody config system
    template toolsFlag items :
  decodeJSON buffer = Some requestBody ->
  getInterceptorConfig dbOps "system_prompt" = inr (Some (true, config)) ->
  Eligible requestBody config system template toolsFlag (Some (JArray items)) ->
  truthy toolsFlag = false ->
  SystemPromptInterceptor.toolsAtRunTime buffer dbOps = None /\
  In UpdateLastSeenTools (SystemPromptInterceptor.scheduledTasks (Some buffer) dbOps).
Proof.
  intros Hdec Hcfg Hel Hflag.
  assert (Hnull : removesTools toolsFlag (Some (JArray items)) = true ->
                  Some (JArray items) <> Some JNull) by done.
  split.
  - rewrite /SystemPromptInterceptor.toolsAtRunTime.
    rewrite (intercept_eligible _ _ _ _ _ _ _ _ Hdec Hcfg Hel Hnull).
    set (newPrompt := SystemPromptInterceptor.applyTemplate _ _ _).
    destruct (rewritten_shape _ _ _ _ _ _ newPrompt Hel)
      as (fields & second & -> & Hsys & Htools & Hsecond & ->).
    rewrite /removesTools Hflag /=. apply lookupField_deleteField_eq.
  - destruct Hel as [Hsys Hfirst Hmain Hsub Hsecond Htpl Hne Hf Htools].
    rewrite /SystemPromptInterceptor.scheduledTasks /SystemPromptInterceptor.intercept
      /runBind /caught /parseBody /unchanged /runRet /setImmediate.
    rewrite Hdec Hcfg /= Hsys /= Hfirst Hmain Hsub /= Htools /= Hsecond /=.
    rewrite Htpl Hf /=. apply String.eqb_neq in Hne. rewrite Hne Hflag /=. by left.
Qed.

(** C9. The claim fails for the tools task of a request that is
    rewritten with tools disabled. The task is scheduled for the
    request's [tools] array, but reads [requestBody.tools] when it runs,
    after the field was deleted: the new value is [undefined], never the
    serialization [v] of the array. Whatever is stored then, [setSystemKV]
    is called (with [undefined]), also when [v] is stored already; and
    when [v] is not stored, the key is not set to [v]. *)
Theorem last_seen_update_compares_before_write (driver : UndefinedBinding)
    (buffer : ArrayBuffer) dbOps requestBody config system template toolsFlag items
    (later : DatabaseOperations) :
  decodeJSON buffer = Some requestBody ->
  getInterceptorConfig dbOps "system_prompt" = inr (Some (true, config)) ->
  Eligible requestBody config system template toolsFlag (Some (JArray items)) ->
  truthy toolsFlag = false ->
  let v := JSON_stringify (JArray items) in
  let later' :=
    SystemPromptInterceptor.runDeferred driver
      (SystemPromptInterceptor.toolsAtRunTime buffer dbOps) UpdateLastSeenTools later in
  In UpdateLastSeenTools (SystemPromptInterceptor.scheduledTasks (Some buffer) dbOps) /\
  kv_statements later' = kv_statements later ++ [("last_seen_tools", None)] /\
  (getSystemKV later "last_seen_tools" = Some v -> later' <> later) /\
  (getSystemKV later "last_seen_tools" <> Some v ->
     getSystemKV later' "last_seen_tools" <> Some v).
Proof.
  intros Hdec Hcfg Hel Hflag. simpl.
  destruct (toolsAtRunTime_deleted _ _ _ _ _ _ _ _ Hdec Hcfg Hel Hflag) as [-> Htask].
  split; [done|].
  rewrite /_updateLastSeenTools /strictNotEqual /=.
  split; [done|]. split.
  - intros _ Heq. apply (f_equal kv_statements), (f_equal length) in Heq.
    rewrite /= length_app /= in Heq. lia.
  - intros Hne. rewrite /getSystemKV /=. destruct driver; [|done].
    by rewrite lookup_delete_eq.
Qed.

(** Other keys are not touched by an update. *)
Lemma last_seen_update_other_keys driver (dbOps : DatabaseOperations) prompt tools key :
  key <> "last_seen_system_prompt" -> key <> "last_seen_tools" ->
  getSystemKV (_updateLastSeenPrompt prompt dbOps) key = getSystemKV dbOps key /\
  getSystemKV (_updateLastSeenTools driver tools dbOps) key = getSystemKV dbOps key.
Proof.
  intros Hk1 Hk2. rewrite /_updateLastSeenPrompt /_updateLastSeenTools /strictNotEqual.
  split; [case_bool_decide; try done; rewrite /getSystemKV /setSystemKV /=;
          by rewrite lookup_insert_ne|].
  destruct tools as [tools|]; simpl.
  - case_bool_decide; try done. rewrite /getSystemKV /setSystemKV /=.
    by rewrite lookup_insert_ne.
  - rewrite /getSystemKV /=. destruct driver; [|done]. by rewrite lookup_delete_ne.
Qed.

End LastSeen.

(* ===================================================================== *)
(** * The Agent Interceptor: its own prompt interception *)
(* ===================================================================== *)


Import AgentInterceptor.

(** The agent interceptor's copy reads [promptTemplate], a field that a
    stored [InterceptorConfig] does not have: for every configuration
    written by [setConfig] it leaves the request as it is. *)
Lemma agent_stage_skips_stored_config requestBody dbOps isEnabled (c : InterceptorConfig) :
  getInterceptorConfig dbOps "system_prompt"
    = inr (Some (isEnabled, InterceptorConfig_toJSON c)) ->
  exists tasks,
    applySystemPromptInterception requestBody dbOps = (requestBody, notModified, tasks).
Proof.
  intros Hcfg. rewrite /applySystemPromptInterception.
  assert (exists e, snd (prepare requestBody dbOps) = inl e) as [e He].
  { rewrite /prepare. run_step. rewrite Hcfg. simpl.
    destruct isEnabled; simpl; [|by eexists]. run_step.
    destruct (getProp "system" requestBody) as [e|[[ | | | |system| ]|]];
      simpl; try by eexists.
    destruct (isSystemMessageWithText (system !! 0)); simpl; [|by eexists].
    destruct (negb _ || _); [by eexists|].
    destruct (isSystemMessageWithText (system !! 1)); simpl; [|by eexists].
    run_step. by eexists. }
  destruct (prepare requestBody dbOps) as [tasks [e'|r]]; simpl in He; [|done].
  by exists tasks.
Qed.

(** C2. For a stored configuration and a main-agent request with tools,
    the interceptor of section 4.1 rewrites [system[1].text] and removes
    [tools]; the copy inside the agent interceptor reports no
    modification and leaves both. On a row that still has
    [promptTemplate], the copy rewrites but leaves
    [{{git_status_block}}] in the text where the interceptor of 4.1
    puts the git-status block. *)
Theorem agent_stage_interception_differs :
  let requestBody := mainBody "intro <env>X</env> gitStatus: clean" sampleTools in
  let dbOps := sampleDb true (sampleConfig false) in
  SystemPromptInterceptor.applySystemPromptInterception (Some (Encoded requestBody)) dbOps
    = Some (Encoded (mainBody ("Hi." +:+ LF +:+ "<env>X</env>") [])) /\
  applySystemPromptInterception requestBody dbOps
    = (requestBody, notModified,
       [UpdateLastSeenPrompt "intro <env>X</env> gitStatus: clean"]) /\
  SystemPromptInterceptor.applySystemPromptInterception (Some (Encoded requestBody)) legacyDb
    = Some (Encoded (mainBody "P <env>X</env> gitStatus: clean" sampleTools)) /\
  fst (fst (applySystemPromptInterception requestBody legacyDb))
    = mainBody "P <env>X</env> {{git_status_block}}" sampleTools.
Proof. repeat split; reflexivity. Qed.

(* ===================================================================== *)
(** * The Agent Interceptor: failure and model preference *)
(* ===================================================================== *)


Section AgentFacts.
Context `{Runtime ArrayBuffer} `{AgentRegistry Registry}.

Lemma intercept_malformed (buffer : ArrayBuffer) dbOps (agentRegistry : Registry) :
  decodeJSON buffer = None ->
  intercept buffer dbOps agentRegistry = inl SyntaxError.
Proof. intros Hdec. by rewrite /intercept /parseBody Hdec. Qed.

(** A body that is the JSON value [null] makes the stage raise too. *)
Lemma intercept_null_body (buffer : ArrayBuffer) dbOps (agentRegistry : Registry) :
  decodeJSON buffer = Some JNull ->
  intercept buffer dbOps agentRegistry = inl TypeError.
Proof. intros Hdec. by rewrite /intercept /parseBody Hdec. Qed.

(** C8. When the stage raises (bytes that are not JSON, or any
    exception inside the [try] block), [interceptAndModifyRequest] returns
    the input buffer itself with [agentUsed], [originalModel] and
    [appliedModel] all [null]: its result is a value, never the
    exception. *)
Theorem interceptor_failure_returns_original
    (buffer : ArrayBuffer) dbOps (agentRegistry : Registry) :
  decodeJSON buffer = None \/
    (exists e, intercept buffer dbOps agentRegistry = inl e) ->
  interceptAndModifyRequest (Some buffer) dbOps agentRegistry = degraded buffer /\
  modifiedBody (interceptAndModifyRequest (Some buffer) dbOps agentRegistry) = Some buffer /\
  agentUsed (interceptAndModifyRequest (Some buffer) dbOps agentRegistry) = None /\
  originalModel (interceptAndModifyRequest (Some buffer) dbOps agentRegistry) = JNull /\
  appliedModel (interceptAndModifyRequest (Some buffer) dbOps agentRegistry) = JNull.
Proof.
  intros Hraise.
  assert (exists e, intercept buffer dbOps agentRegistry = inl e) as [e He].
  { destruct Hraise as [Hdec|Hexn]; [|done].
    exists SyntaxError. by apply intercept_malformed. }
  by rewrite /interceptAndModifyRequest He.
Qed.

End AgentFacts.

Lemma interceptor_failure_returns_original_witness :
  interceptAndModifyRequest (Some (Malformed "{ not json")) (sampleDb true (sampleConfig true))
    ([] : list Agent.t)
  = degraded (Malformed "{ not json").
Proof.
  refine (proj1 (interceptor_failure_returns_original (Malformed "{ not json")
                   (sampleDb true (sampleConfig true)) [] _)).
  left. reflexivity.
Defined.

Lemma getProp_setSecondSystemText k newPrompt requestBody :
  k <> "system" ->
  getProp k (setSecondSystemText newPrompt requestBody) = getProp k requestBody.
Proof.
  intros Hk. destruct requestBody as [ | | | | |fields]; try done. simpl.
  destruct (lookupField "system" fields) as [[ | | | |system| ]|]; try done.
  destruct (system !! 1) as [[ | | | | |second]|]; try done.
  simpl. by rewrite lookupField_setField_ne.
Qed.

Lemma getProp_deleteProp k k' requestBody :
  k' <> k -> getProp k' (deleteProp k requestBody) = getProp k' requestBody.
Proof.
  intros Hk. destruct requestBody; try done. simpl.
  by rewrite lookupField_deleteField_ne.
Qed.

(** The agent interceptor's prompt interception never touches [model]. *)
Lemma applySystemPromptInterception_model requestBody dbOps :
  getProp "model" (fst (fst (applySystemPromptInterception requestBody dbOps)))
    = getProp "model" requestBody.
Proof.
  rewrite /applySystemPromptInterception.
  destruct (prepare requestBody dbOps) as [tasks [e|[[newPrompt toolsFlag] tools]]]; [done|].
  destruct (negb (truthy toolsFlag) && bool_decide (tools <> None)).
  - destruct (readLength tools); simpl.
    + by rewrite getProp_setSecondSystemText.
    + by rewrite getProp_deleteProp // getProp_setSecondSystemText.
  - simpl. by rewrite getProp_setSecondSystemText.
Qed.

Section ModelPreference.
Context `{Runtime ArrayBuffer} `{AgentRegistry Registry}.

Lemma extractSystemPrompt_object requestBody systemPrompt :
  extractSystemPrompt requestBody = inr (Some systemPrompt) ->
  exists fields, requestBody = JObject fields.
Proof. destruct requestBody; try done. by eexists. Qed.

Lemma strictEqualString_true s v : strictEqualString s v = true -> v = JString s.
Proof.
  destruct v; try done. simpl. intros Heq. apply String.eqb_eq in Heq. by subst.
Qed.

(** C5, as amended. When an agent is detected, [agentUsed] is its id and
    the applied model is [preference?.model || agent.model]: the stored
    preference when there is one and it is not the empty string, else the
    agent's own model. When that model differs from the original one, the
    returned buffer encodes a body whose [model] field holds it. *)
Theorem detected_agent_model (buffer : ArrayBuffer) dbOps (agentRegistry : Registry) agent :
  detects buffer agentRegistry agent ->
  let result := interceptAndModifyRequest (Some buffer) dbOps agentRegistry in
  let preference := getAgentPreference dbOps (Agent.id agent) in
  let preferredModel := preferredModelOf preference agent in
  agentUsed result = Some (Agent.id agent) /\
  appliedModel result = JString preferredModel /\
  (strictEqualString preferredModel (originalModel result) = false ->
     exists requestBody',
       modifiedBody result = Some (encodeJSON requestBody') /\
       getProp "model" requestBody' = inr (Some (JString preferredModel))) /\
  (preferredModel =
     match preference with
     | Some EmptyString | None => Agent.model agent
     | Some model => model
     end).
Proof.
  intros (requestBody & systemPrompt & registry' & agents
          & Hdec & Hprompt & Hne & Hreg & Hagents & Hfind).
  destruct (extractSystemPrompt_object _ _ Hprompt) as [fields ->].
  simpl. rewrite /interceptAndModifyRequest /intercept /parseBody Hdec /=.
  rewrite Hprompt /=.
  destruct systemPrompt as [|c systemPrompt]; [done|].
  rewrite Hreg /= Hagents /= Hfind.
  set (preferredModel := preferredModelOf _ agent).
  set (originalModel := if truthy (lookupField "model" fields) then _ else _).
  assert (Hpref : preferredModel =
     match getAgentPreference dbOps (Agent.id agent) with
     | Some EmptyString | None => Agent.model agent
     | Some model => model
     end).
  { rewrite /preferredModel /preferredModelOf.
    by destruct (getAgentPreference dbOps (Agent.id agent)) as [[|]|]. }
  destruct (strictEqualString preferredModel originalModel) eqn:Heq.
  - apply strictEqualString_true in Heq.
    destruct (applySystemPromptInterception (JObject fields) dbOps)
      as [[requestBody' flags] tasks].
    destruct (modified flags || promptToolsRemoved flags); simpl;
      rewrite ?Heq /=; repeat split; try done;
      by rewrite String.eqb_refl.
  - pose proof (applySystemPromptInterception_model
      (JObject (setField "model" (JString preferredModel) fields)) dbOps) as Hmodel.
    destruct (applySystemPromptInterception
      (JObject (setField "model" (JString preferredModel) fields)) dbOps)
      as [[requestBody' flags] tasks].
    simpl in *. repeat split; try done.
    intros _. exists requestBody'. split; [done|].
    by rewrite Hmodel lookupField_setField_eq.
Qed.

End ModelPreference.


(** Scenario D. *)
Example scenario_D :
  interceptAndModifyRequest (Some (Encoded agent42Body)) (preferenceDb "fast-v2") [agent42]
  = {| modifiedBody :=
         Some (Encoded (JObject
           [("model", JString "fast-v2");
            ("system",
             JString ("Rules. You are Agent42, a reviewer of pull requests." +:+ LF
                      +:+ "Be brief."));
            ("messages", JArray [])]));
       agentUsed := Some "Agent42";
       originalModel := JString "base-v1";
       appliedModel := JString "fast-v2";
       systemPromptModified := Some false;
       toolsRemoved := Some false |}.
Proof. reflexivity. Qed.

Lemma detected_agent_model_witness :
  let result :=
    interceptAndModifyRequest (Some (Encoded agent42Body)) (preferenceDb "fast-v2")
      [agent42] in
  agentUsed result = Some "Agent42" /\ appliedModel result = JString "fast-v2".
Proof.
  assert (detects (Encoded agent42Body) [agent42] agent42) as Hdetects.
  { exists agent42Body,
      ("Rules. You are Agent42, a reviewer of pull requests." +:+ LF +:+ "Be brief."),
      [agent42], [agent42].
    repeat split; try reflexivity. discriminate. }
  destruct (detected_agent_model (Encoded agent42Body) (preferenceDb "fast-v2")
              [agent42] agent42 Hdetects) as (Hused & Happlied & _).
  split; [exact Hused|exact Happlied].
Defined.

(** C5 as stated fails on a stored preference whose model is the empty
    string: [??] keeps it, the code's [||] falls back to the agent's
    model. *)
Lemma empty_preference_counterexample :
  let dbOps := preferenceDb EmptyString in
  let result :=
    interceptAndModifyRequest (Some (Encoded agent42Body)) dbOps [agent42] in
  agentUsed result = Some "Agent42" /\
  getAgentPreference dbOps "Agent42" = Some EmptyString /\
  appliedModel result = JString "agent-default" /\
  appliedModel result
    <> JString (preferredModel_nullish (getAgentPreference dbOps "Agent42") agent42).
Proof. repeat split; try reflexivity. by vm_compute. Qed.

(* ===================================================================== *)
(** * The combined system prompt *)
(* ===================================================================== *)

Section CombinedPrompt.
Context `{Runtime ArrayBuffer}.

Lemma isTextItem_view item block :
  viewMessageContent item = Some block ->
  isTextItem item = inr (bool_decide (is_Some (blockText block))) /\
  (forall text, blockText block = Some text -> itemText item = text).
Proof.
  destruct item as [ | | | | |fields]; try done. simpl.
  rewrite /blockText /isTextItem /itemText /=.
  destruct (lookupField "type" fields) as [[ | | |ty| | ]|]; try done;
    destruct (lookupField "text" fields) as [[ | | |text| | ]|]; try done;
    simpl; intros [= <-]; simpl; try done.
  - destruct (String.eqb ty "text"); simpl; [|done].
    destruct (String.eqb text EmptyString); simpl; split; try done.
    by intros ? [= <-].
  - by destruct (String.eqb ty "text").
Qed.

Lemma joinedText_view items blocks :
  mapM viewMessageContent items = Some blocks ->
  joinedText items = inr (blocksText blocks).
Proof.
  rewrite /joinedText /blocksText. intros Hview%mapM_Some.
  assert (exists kept, filterTry isTextItem items = inr kept /\
            map itemText kept = omap blockText blocks) as (kept & -> & Hkept).
  { induction Hview as [|item block items blocks Hitem _ (kept & IH & Hkept)].
    - by exists [].
    - destruct (isTextItem_view _ _ Hitem) as [Htest Htext].
      simpl. rewrite Htest IH /=.
      destruct (blockText block) as [text|] eqn:Hblock.
      + exists (item :: kept). split; [done|]. simpl. by rewrite (Htext text) // Hkept.
      + by exists kept. }
  simpl. by rewrite Hkept.
Qed.

Lemma hasRole_view r msg m :
  viewMessage msg = Some m -> hasRole r msg = inr (hasRoleOf r m).
Proof.
  destruct msg as [ | | | | |fields]; try done. simpl.
  rewrite /hasRole /hasRoleOf /=.
  destruct (lookupField "role" fields) as [[ | | |r'| | ]|]; try done; simpl;
    destruct (viewContent (lookupField "content" fields)); try done; simpl;
    by intros [= <-].
Qed.

Lemma findTry_view r msgs ms :
  mapM viewMessage msgs = Some ms ->
  (findTry (hasRole r) msgs = inr None /\ List.find (hasRoleOf r) ms = None) \/
  (exists msg m, findTry (hasRole r) msgs = inr (Some msg) /\
     List.find (hasRoleOf r) ms = Some m /\ viewMessage msg = Some m).
Proof.
  intros Hview%mapM_Some.
  induction Hview as [|msg m msgs ms Hmsg _ IH]; [by left|].
  simpl. rewrite (hasRole_view r _ _ Hmsg) /=.
  destruct (hasRoleOf r m); [|done].
  right. by exists msg, m.
Qed.

Lemma systemMessageContent_view msg m :
  viewMessage msg = Some m ->
  systemMessageContent (Some msg)
  = inr (match content m with
         | Some (TextContent text) => [text]
         | Some (BlockContent items) => nonEmptyText (blocksText items)
         | None => []
         end).
Proof.
  destruct msg as [ | | | | |fields]; try done. simpl.
  destruct (viewString (lookupField "role" fields)); [|done]. simpl.
  destruct (lookupField "content" fields) as [[ | | |s|items| ]|]; simpl; try done.
  - by intros [= <-].
  - destruct (mapM viewMessageContent items) as [blocks|] eqn:Hblocks; [|done].
    simpl. intros [= <-]. simpl. by rewrite (joinedText_view _ _ Hblocks).
  - by intros [= <-].
Qed.

Lemma userMessageContent_view msg m :
  viewMessage msg = Some m ->
  userMessageContent (Some msg)
  = inr (if mentionsClaudeMd (textOf (content m)) then [textOf (content m)] else []).
Proof.
  destruct msg as [ | | | | |fields]; try done. simpl.
  destruct (viewString (lookupField "role" fields)); [|done]. simpl.
  destruct (lookupField "content" fields) as [[ | | |s|items| ]|]; simpl; try done.
  - by intros [= <-].
  - destruct (mapM viewMessageContent items) as [blocks|] eqn:Hblocks; [|done].
    simpl. intros [= <-]. simpl. by rewrite (joinedText_view _ _ Hblocks).
  - by intros [= <-].
Qed.

Lemma rootSystemContent_view fields sys :
  viewContent (lookupField "system" fields) = Some sys ->
  rootSystemContent (JObject fields) = inr (nonEmptyText (textOf sys)).
Proof.
  rewrite /rootSystemContent /=.
  destruct (lookupField "system" fields) as [[ | | |s|items| ]|]; simpl; try done.
  - intros [= <-]. simpl. rewrite /nonEmptyText. by destruct (String.eqb s _).
  - destruct (mapM viewMessageContent items) as [blocks|] eqn:Hblocks; [|done].
    intros [= <-]. simpl. by rewrite (joinedText_view _ _ Hblocks).
  - by intros [= <-].
Qed.

Lemma messagesContent_view fields msgs :
  match lookupField "messages" fields with
  | Some (JArray items) => ms ← mapM viewMessage items; Some (Some ms)
  | Some _ => None
  | None => Some None
  end = Some msgs ->
  messagesContent (JObject fields)
  = inr (firstSystemMessagePart (default [] msgs) ++ firstUserMessagePart (default [] msgs)).
Proof.
  rewrite /messagesContent /=.
  destruct (lookupField "messages" fields) as [[ | | | |items| ]|]; simpl; try done.
  - destruct (mapM viewMessage items) as [ms|] eqn:Hms; [|done].
    intros [= <-]. simpl.
    rewrite /firstSystemMessagePart /firstUserMessagePart.
    destruct (findTry_view "system" _ _ Hms)
      as [[-> ->]|(msg & m & -> & -> & Hm)];
    destruct (findTry_view "user" _ _ Hms)
      as [[-> ->]|(msg' & m' & -> & -> & Hm')];
      rewrite /tryBind ?(systemMessageContent_view _ _ Hm)
        ?(userMessageContent_view _ _ Hm') //.
  - by intros [= <-].
Qed.

(** C6, as amended. For a body that conforms to [RequestBody], the
    combined system prompt is, in order and separated by blank lines: the
    root-level [system] (the string, or the line-joined text of its blocks
    of type ["text"]); the text of the first message of role ["system"];
    the text of the first message of role ["user"] when it holds both
    [Contents of] and [CLAUDE.md]; and [null] when none of them gives
    anything. *)
Theorem extractSystemPrompt_first_messages (v : JSON) (body : RequestBody) :
  viewRequestBody v = Some body ->
  extractSystemPrompt v = inr (combinedText_firstMessage body).
Proof.
  destruct v as [ | | | | |fields]; try done. simpl.
  destruct (viewContent (lookupField "system" fields)) as [sys|] eqn:Hsys; [|done].
  simpl.
  destruct (match lookupField "messages" fields with
            | Some (JArray items) => ms ← mapM viewMessage items; Some (Some ms)
            | Some _ => None
            | None => Some None
            end) as [msgs|] eqn:Hmsgs; [|done].
  simpl. intros [= <-].
  rewrite /extractSystemPrompt /combinedText_firstMessage /rootSystemPart.
  rewrite (rootSystemContent_view _ _ Hsys) (messagesContent_view _ _ Hmsgs).
  rewrite /tryBind. cbn [system messages].
  by destruct (nonEmptyText (textOf sys) ++ _).
Qed.

End CombinedPrompt.


(** C6 as stated fails on a request with two messages of role
    ["system"]: the code takes the first one only. *)
Lemma every_system_message_counterexample :
  exists body,
    viewRequestBody twoSystemMessages = Some body /\
    combinedText_everyMessage body = "First rules." +:+ LF +:+ LF +:+ "Second rules." /\
    extractSystemPrompt twoSystemMessages = inr (Some "First rules.") /\
    extractSystemPrompt twoSystemMessages <> inr (Some (combinedText_everyMessage body)).
Proof. eexists. repeat split; try reflexivity. by vm_compute. Qed.

Lemma extractSystemPrompt_first_messages_witness :
  extractSystemPrompt fullRequest
  = inr (Some ("Root one." +:+ LF +:+ "Root two." +:+ LF +:+ LF +:+ "Be terse."
               +:+ LF +:+ LF +:+ "Contents of /repo/CLAUDE.md (project instructions)")).
Proof.
  refine (extractSystemPrompt_first_messages fullRequest
            {| system := Some (BlockContent
                 [ {| content_type := Some "text"; content_text := Some "Root one." |};
                   {| content_type := Some "text"; content_text := Some "Root two." |} ]);
               messages := Some
                 [ {| role := Some "user";
                      content := Some (TextContent
                        "Contents of /repo/CLAUDE.md (project instructions)") |};
                   {| role := Some "system"; content := Some (TextContent "Be terse.") |};
                   {| role := Some "user";
                      content := Some (TextContent "Contents of /other/CLAUDE.md") |} ] |}
            _).
  reflexivity.
Defined.

(* ===================================================================== *)
(** * The account loop of the orchestrator *)
(* ===================================================================== *)

Section Failover.
Context {ArrayBuffer Account Response World : Type}.
Context `{Runtime ArrayBuffer} `{AgentRegistry Registry}.
Variable ctx : Proxy.ProxyContext ArrayBuffer Account Response World.
Import Proxy.

(** The loop stops at the first response; before it, every account was
    tried once, in the order of the list. *)
Lemma tryAccounts_journal finalBodyBuffer accounts i w :
  let '(journal, result, _) := tryAccounts ctx finalBodyBuffer i accounts w in
  match result with
  | Some response =>
      exists failed account rest,
        accounts = failed ++ account :: rest /\
        journal = failedAttempts i failed
                    ++ [WithAccount (i + length failed) account (Some response)]
  | None => journal = failedAttempts i accounts
  end.
Proof.
  revert i w. induction accounts as [|account rest IH]; intros i w; simpl; [done|].
  destruct (proxyWithAccount ctx account finalBodyBuffer i w) as [[response|] w1].
  - exists [], account, rest. by rewrite Nat.add_0_r.
  - specialize (IH (S i) w1).
    destruct (tryAccounts ctx finalBodyBuffer (S i) rest w1) as [[journal result] w2].
    destruct result as [response|].
    + destruct IH as (failed & account' & rest' & -> & ->).
      exists (account :: failed), account', rest'. split; [done|].
      simpl. by rewrite Nat.add_succ_r.
    + by rewrite IH.
Qed.

Lemma length_failedAttempts i (accounts : list Account) :
  length (failedAttempts (Response := Response) i accounts) = length accounts.
Proof. revert i. induction accounts as [|a rest IH]; intros i; simpl; [done|]. by rewrite IH. Qed.

Lemma noResponse_failedAttempts i (accounts : list Account) :
  noResponse (failedAttempts (Response := Response) i accounts).
Proof.
  revert i. induction accounts as [|a rest IH]; intros i j account response; simpl; [done|].
  intros [Heq|Hin]; [done|]. by eapply IH.
Qed.

Lemma forward_failover finalBodyBuffer (accounts : list Account) (w : World) :
  accounts <> [] ->
  let '(journal, outcome, _) := forward ctx finalBodyBuffer accounts w in
  let n := length accounts in
  length journal <= n /\
  ((exists failed account rest response,
      accounts = failed ++ account :: rest /\
      journal = failedAttempts 0 failed
                  ++ [WithAccount (length failed) account (Some response)] /\
      length journal = S (length failed) /\
      outcome = inr response)
   \/
   (journal = failedAttempts 0 accounts /\
    noResponse journal /\
    length journal = n /\
    outcome = inl (ServiceUnavailableError
                     (ALL_ACCOUNTS_FAILED ctx +:+ " ("
                        +:+ NilEmpty.string_of_uint (Nat.to_uint n) +:+ " attempted)")
                     (provider_name ctx)))).
Proof.
  intros Hne. rewrite /forward.
  destruct accounts as [|account0 rest0]; [done|].
  pose proof (tryAccounts_journal finalBodyBuffer (account0 :: rest0) 0 w) as Hjournal.
  destruct (tryAccounts ctx finalBodyBuffer 0 (account0 :: rest0) w)
    as [[journal result] w'].
  destruct result as [response|].
  - destruct Hjournal as (failed & account & rest & Haccounts & ->).
    assert (length (failedAttempts (Response := Response) 0 failed
                      ++ [WithAccount (length failed) account (Some response)])
            = S (length failed)) as Hlen.
    { rewrite length_app length_failedAttempts /=. lia. }
    split.
    + rewrite Hlen Haccounts length_app /=. lia.
    + left. exists failed, account, rest, response. by rewrite Haccounts.
  - subst journal. split; [by rewrite length_failedAttempts|].
    right. split; [done|]. split; [apply noResponse_failedAttempts|].
    split; [apply length_failedAttempts|done].
Qed.

(** C1, as amended. For a non-empty list of [n] accounts returned by the
    selection strategy, the accounts are tried one after the other in the
    order of the list. Either the [k]-th attempt is the first to return a
    response: then exactly [k] attempts were made ([k <= n]), every
    earlier one without a response, and that response is returned. Or no
    attempt returned a response: then all [n] accounts of the list were
    tried and the service-unavailable error is raised with the count [n]
    in its message and the provider name. *)
Theorem account_failover pathname (requestBodyBuffer : option ArrayBuffer)
    dbOps (agentRegistry : Registry) (w : World) (accounts : list Account) :
  validateProviderPath ctx pathname = true ->
  selectAccountsForRequest ctx
    (AgentInterceptor.agentUsed
       (AgentInterceptor.interceptAndModifyRequest
          (orElse (SystemPromptInterceptor.applySystemPromptInterception
                     requestBodyBuffer dbOps) requestBodyBuffer)
          dbOps agentRegistry)) w = accounts ->
  accounts <> [] ->
  let '(journal, outcome, _) :=
    handleProxy ctx pathname requestBodyBuffer dbOps agentRegistry w in
  let n := length accounts in
  length journal <= n /\
  ((exists failed account rest response,
      accounts = failed ++ account :: rest /\
      journal = failedAttempts 0 failed
                  ++ [WithAccount (length failed) account (Some response)] /\
      length journal = S (length failed) /\
      outcome = inr response)
   \/
   (journal = failedAttempts 0 accounts /\
    noResponse journal /\
    length journal = n /\
    outcome = inl (ServiceUnavailableError
                     (ALL_ACCOUNTS_FAILED ctx +:+ " ("
                        +:+ NilEmpty.string_of_uint (Nat.to_uint n) +:+ " attempted)")
                     (provider_name ctx)))).
Proof.
  intros Hpath Hselect Hne. rewrite /handleProxy Hpath /= Hselect.
  by apply forward_failover.
Qed.

End Failover.

(** Scenario E: three accounts, the first two attempts fail, the third
    succeeds. *)
Example scenario_E :
  Proxy.handleProxy (sampleContext ["bad-1"; "bad-2"; "good"]) "/v1/messages"
    (Some (Encoded agent42Body)) (preferenceDb "fast-v2") [agent42] 0
  = ([Proxy.WithAccount 0 "bad-1" None; Proxy.WithAccount 1 "bad-2" None;
      Proxy.WithAccount 2 "good" (Some "response via good")],
     inr "response via good", 3).
Proof. reflexivity. Qed.

Lemma account_failover_witness :
  let '(journal, outcome, _) :=
    Proxy.handleProxy (sampleContext ["bad-1"; "bad-2"; "good"]) "/v1/messages"
      (Some (Encoded agent42Body)) (preferenceDb "fast-v2") [agent42] 0 in
  length journal <= 3 /\
  ((exists failed account rest response,
      ["bad-1"; "bad-2"; "good"] = failed ++ account :: rest /\
      journal = failedAttempts 0 failed
                  ++ [Proxy.WithAccount (length failed) account (Some response)] /\
      length journal = S (length failed) /\
      outcome = inr response)
   \/
   (journal = failedAttempts 0 ["bad-1"; "bad-2"; "good"] /\
    noResponse journal /\
    length journal = 3 /\
    outcome = inl (Proxy.ServiceUnavailableError
                     ("All accounts failed to proxy the request (3 attempted)")
                     "anthropic"))).
Proof.
  refine (account_failover (sampleContext ["bad-1"; "bad-2"; "good"]) "/v1/messages"
            (Some (Encoded agent42Body)) (preferenceDb "fast-v2") [agent42] 0
            ["bad-1"; "bad-2"; "good"] _ _ _); [reflexivity|reflexivity|discriminate].
Defined.

(** All accounts fail: the error carries the count and the provider. *)
Example all_accounts_fail :
  Proxy.handleProxy (sampleContext ["bad-1"; "bad-2"]) "/v1/messages"
    (Some (Encoded agent42Body)) (preferenceDb "fast-v2") [agent42] 0
  = ([Proxy.WithAccount 0 "bad-1" None; Proxy.WithAccount 1 "bad-2" None],
     inl (Proxy.ServiceUnavailableError
            "All accounts failed to proxy the request (2 attempted)" "anthropic"), 2).
Proof. reflexivity. Qed.

(** C1 as stated fails on the empty list (scenario F): no attempt
    returns a response, and instead of the error with count 0 the request
    is forwarded once without an account and that response is returned. *)
Lemma no_account_counterexample :
  let '(journal, outcome, _) :=
    Proxy.handleProxy (sampleContext []) "/v1/messages"
      (Some (Encoded agent42Body)) (preferenceDb "fast-v2") [agent42] 0 in
  Proxy.selectAccountsForRequest (sampleContext []) (Some "Agent42") 0 = [] /\
  noResponse journal /\
  journal = [Proxy.Unauthenticated] /\
  outcome = inr "unauthenticated response" /\
  outcome <> inl (Proxy.ServiceUnavailableError
                    "All accounts failed to proxy the request (0 attempted)" "anthropic").
Proof.
  vm_compute. repeat split; try done.
  intros i account response [Hin|[]]. discriminate.
Qed.

(* ===================================================================== *)
(** * The repositories *)
(* ===================================================================== *)

(** X1. [SystemKVRepository]: a value written under a key is the value
    read back, the other keys keep their values, and of two writes under
    one key the store keeps the later one. *)
Theorem system_kv_write_read (dbOps : DatabaseOperations) (key key' value value' : string) :
  getSystemKV (setSystemKV key value dbOps) key = Some value /\
  (key' <> key -> getSystemKV (setSystemKV key value dbOps) key' = getSystemKV dbOps key') /\
  system_kv_store (setSystemKV key value' (setSystemKV key value dbOps))
    = system_kv_store (setSystemKV key value' dbOps) /\
  interceptors (setSystemKV key value dbOps) = interceptors dbOps.
Proof.
  rewrite /getSystemKV /setSystemKV /=. split; [by rewrite lookup_insert_eq|].
  split; [by intros Hne; rewrite lookup_insert_ne|].
  split; [by rewrite insert_insert_eq|done].
Qed.

(** X2. [InterceptorRepository]: [getConfig] after [setConfig] gives the
    enabled flag and the configuration that were saved (the flag goes
    through the integer column and comes back), replacing what the id had
    before; the rows of other ids and the key/value store are as before. *)
Theorem interceptor_config_write_read (dbOps : DatabaseOperations) (id id' : string)
    (isEnabled : bool) (c : InterceptorConfig) :
  getInterceptorConfig (setInterceptorConfig id isEnabled c dbOps) id
    = inr (Some (isEnabled, InterceptorConfig_toJSON c)) /\
  (id' <> id ->
     getInterceptorConfig (setInterceptorConfig id isEnabled c dbOps) id'
       = getInterceptorConfig dbOps id') /\
  (forall key, getSystemKV (setInterceptorConfig id isEnabled c dbOps) key
                 = getSystemKV dbOps key).
Proof.
  rewrite /getInterceptorConfig /setInterceptorConfig /=. split.
  - rewrite lookup_insert_eq /=. by destruct isEnabled.
  - split; [|done]. intros Hne. by rewrite lookup_insert_ne.
Qed.

(** X3. [InterceptorRepository.delete] answers [true] exactly when the id
    had a row; afterwards [getConfig] gives [null] for the id, a second
    [delete] answers [false], and the rows of other ids are as before. *)
Theorem interceptor_config_delete (dbOps : DatabaseOperations) (id id' : string) :
  let '(changed, dbOps') := deleteInterceptorConfig id dbOps in
  (changed = false <-> getInterceptorConfig dbOps id = inr None) /\
  getInterceptorConfig dbOps' id = inr None /\
  fst (deleteInterceptorConfig id dbOps') = false /\
  (id' <> id -> getInterceptorConfig dbOps' id' = getInterceptorConfig dbOps id').
Proof.
  rewrite /deleteInterceptorConfig /getInterceptorConfig /=.
  split; [|split; [|split]].
  - destruct (interceptors dbOps !! id) as [row|] eqn:Hrow.
    + split; [by rewrite bool_decide_eq_false; intros []; eexists|].
      by destruct (config row).
    + split; [done|]. intros _. rewrite bool_decide_eq_false. by intros [? ?].
  - by rewrite lookup_delete_eq.
  - rewrite lookup_delete_eq bool_decide_eq_false. by intros [? ?].
  - intros Hne. by rewrite lookup_delete_ne.
Qed.

Section LastSeenTwice.
Context `{Runtime ArrayBuffer}.

(** X4. A last-seen update run twice with the same defined value (the
    prompt, or whatever value of [tools] is passed) writes at most once:
    the second run finds the value stored and changes nothing; and after
    such an update the key holds the new value, whatever it held. Run
    with [tools] undefined, the update calls [setSystemKV] at every run:
    the table after two runs is the table after one, the journal has two
    more calls, and the key does not hold a value it did not hold. *)
Theorem last_seen_update_idempotent (driver : UndefinedBinding)
    (dbOps : DatabaseOperations) (prompt : string) (tools : JSON) :
  let updatePrompt := _updateLastSeenPrompt prompt in
  let updateTools := _updateLastSeenTools driver (Some tools) in
  let updateUndefined := _updateLastSeenTools driver None in
  updatePrompt (updatePrompt dbOps) = updatePrompt dbOps /\
  updateTools (updateTools dbOps) = updateTools dbOps /\
  getSystemKV (updatePrompt dbOps) "last_seen_system_prompt" = Some prompt /\
  getSystemKV (updateTools dbOps) "last_seen_tools" = Some (JSON_stringify tools) /\
  system_kv_store (updateUndefined (updateUndefined dbOps))
    = system_kv_store (updateUndefined dbOps) /\
  kv_statements (updateUndefined (updateUndefined dbOps))
    = kv_statements dbOps ++ [("last_seen_tools", None); ("last_seen_tools", None)] /\
  (forall value, getSystemKV (updateUndefined dbOps) "last_seen_tools" = Some value ->
     getSystemKV dbOps "last_seen_tools" = Some value).
Proof.
  assert (Hkey : forall key value db,
    let db' := if bool_decide (Some value <> getSystemKV db key)
               then setSystemKV key value db else db in
    getSystemKV db' key = Some value).
  { intros key value db. simpl. case_bool_decide as Hne.
    - by rewrite /getSystemKV /setSystemKV /= lookup_insert_eq.
    - done. }
  simpl. rewrite /_updateLastSeenPrompt /_updateLastSeenTools /strictNotEqual /=.
  split; [|split; [|split; [|split; [|split; [|split]]]]]; try apply Hkey.
  - rewrite (Hkey "last_seen_system_prompt" prompt dbOps).
    by rewrite bool_decide_eq_false_2; [intros []|].
  - rewrite (Hkey "last_seen_tools" (JSON_stringify tools) dbOps).
    by rewrite bool_decide_eq_false_2; [intros []|].
  - destruct driver; [|done]. apply delete_delete_eq.
  - by rewrite -app_assoc.
  - intros value. rewrite /getSystemKV /=. destruct driver; [|done].
    by rewrite lookup_delete_eq.
Qed.

End LastSeenTwice.

(* ===================================================================== *)
(** * Extraction of the dynamic blocks *)
(* ===================================================================== *)

#[local] Arguments String.append !_ _ / : simpl nomatch.

Lemma substringFrom_app a b : substringFrom (String.length a) (a +:+ b) = b.
Proof. induction a as [|c a IH]; simpl; [by destruct b|done]. Qed.

Lemma substringTo_app a b : substringTo (String.length a) (a +:+ b) = a.
Proof. induction a as [|c a IH]; simpl; [by destruct b|]. by rewrite IH. Qed.

Lemma substring_split n s : s = substringTo n s +:+ substringFrom n s.
Proof.
  revert s. induction n as [|n IH]; intros s; simpl; [by destruct s|].
  destruct s as [|c s]; simpl; [done|]. by rewrite -IH.
Qed.

Lemma indexOf_first needle s i pre post :
  indexOf needle s = Some i -> s = pre +:+ needle +:+ post -> i <= String.length pre.
Proof.
  revert i pre. induction s as [|c s IH]; intros i pre; simpl.
  - destruct (startsWith needle EmptyString); [|done]. intros [= <-] _. lia.
  - destruct (startsWith needle (String c s)) eqn:Hstart; [intros [= <-] _; lia|].
    destruct (indexOf needle s) as [j|] eqn:Hidx; [|done]. simpl. intros [= <-].
    destruct pre as [|c' pre]; simpl.
    + intros Hs. assert (startsWith needle (String c s) = true); [|congruence].
      apply startsWith_spec. by exists post.
    + intros [= -> Hs]. specialize (IH j pre eq_refl Hs). lia.
Qed.

Lemma includes_suffix needle n s :
  includes needle (substringFrom n s) = true -> includes needle s = true.
Proof.
  rewrite !includes_spec. intros (pre & post & Hs).
  exists (substringTo n s +:+ pre), post.
  by rewrite {1}(substring_split n s) Hs !append_assoc.
Qed.

Lemma nonempty_length (s : string) : s <> EmptyString -> 0 < String.length s.
Proof. destruct s; [done|simpl; lia]. Qed.

(** The text before the first occurrence of a marker holds no occurrence. *)
Lemma indexOf_prefix_free needle pre post :
  needle <> EmptyString ->
  indexOf needle (pre +:+ needle +:+ post) = Some (String.length pre) ->
  includes needle pre = false.
Proof.
  intros Hne Hidx. destruct (includes needle pre) eqn:Hinc; [|done].
  apply includes_spec in Hinc as (a & b & ->).
  pose proof (indexOf_first needle _ _ a (b +:+ needle +:+ post) Hidx) as Hle.
  rewrite !append_assoc in Hle. specialize (Hle eq_refl).
  rewrite !length_append in Hle. apply nonempty_length in Hne. lia.
Qed.

Lemma indexOf_decompose needle s i :
  indexOf needle s = Some i ->
  exists pre post, s = pre +:+ needle +:+ post /\ String.length pre = i /\
    substringTo i s = pre /\ substringFrom (i + String.length needle) s = post /\
    substringFrom i s = needle +:+ post.
Proof.
  intros Hidx. destruct (indexOf_Some _ _ _ Hidx) as (pre & post & -> & <-).
  exists pre, post. split; [done|]. split; [done|].
  split; [apply substringTo_app|]. split; [|apply substringFrom_app].
  rewrite -length_append -append_assoc. apply substringFrom_app.
Qed.

Lemma matchBlocks_shape open close fuel text :
  close <> EmptyString ->
  Forall (fun block =>
            exists inner, block = open +:+ inner +:+ close /\
              includes close inner = false /\ includes block text = true)
         (matchBlocks open close fuel text).
Proof.
  intros Hclose. revert text. induction fuel as [|fuel IH]; intros text; simpl; [done|].
  destruct (indexOf open text) as [i|] eqn:Hopen; [|done].
  destruct (indexOf_decompose _ _ _ Hopen) as (pre & post & Htext & Hi & _ & Hpost & _).
  rewrite Hpost.
  destruct (indexOf close post) as [j|] eqn:Hcl; [|done].
  destruct (indexOf_decompose _ _ _ Hcl) as (inner & rest & Hp & Hj & Hinner & Hrest & _).
  rewrite Hinner Hrest. constructor.
  - exists inner. split; [done|]. split.
    + apply indexOf_prefix_free with rest; [done|]. by rewrite -Hp Hj.
    + apply includes_spec. exists pre, rest. by rewrite Htext Hp !append_assoc.
  - eapply Forall_impl; [apply IH|]. simpl.
    intros block (inner' & -> & Hfree & Hinc). exists inner'.
    split; [done|]. split; [done|].
    apply (includes_suffix _ (String.length (pre +:+ open +:+ inner +:+ close)) text).
    assert (text = (pre +:+ open +:+ inner +:+ close) +:+ rest) as Htext'
      by (by rewrite Htext Hp !append_assoc).
    by rewrite {1}Htext' substringFrom_app.
Qed.

(** X5. Each env block the interceptor extracts is [<env>], a text
    without [</env>], and [</env>], and it occurs in the prompt it was
    taken from; a prompt without [<env>] gives the empty env block. *)
Theorem envBlocks_are_blocks_of_the_prompt (text : string) :
  Forall (fun block =>
            exists inner, block = "<env>" +:+ inner +:+ "</env>" /\
              includes "</env>" inner = false /\ includes block text = true)
         (envBlocks text) /\
  (includes "<env>" text = false -> extractEnvBlock text = EmptyString).
Proof.
  split; [by apply matchBlocks_shape|].
  rewrite /includes /extractEnvBlock /envBlocks.
  generalize (String.length text). intros [|fuel]; simpl; [done|].
  by destruct (indexOf "<env>" text).
Qed.

(** X6. The git-status block is the rest of the prompt from the first
    [gitStatus:] on: the prompt is some text without the marker followed
    by the block, and the block starts with the marker. Without the marker
    the block is empty. *)
Theorem gitStatusBlock_is_the_rest (text : string) :
  (includes "gitStatus:" text = false -> extractGitStatusBlock text = EmptyString) /\
  (includes "gitStatus:" text = true ->
     exists before,
       text = before +:+ extractGitStatusBlock text /\
       includes "gitStatus:" before = false /\
       startsWith "gitStatus:" (extractGitStatusBlock text) = true).
Proof.
  rewrite /includes /extractGitStatusBlock.
  destruct (indexOf "gitStatus:" text) as [i|] eqn:Hidx; [|done].
  split; [done|]. intros _.
  destruct (indexOf_decompose _ _ _ Hidx) as (pre & post & Htext & Hi & _ & _ & Hblock).
  exists pre. rewrite Hblock. split; [done|]. split.
  - apply indexOf_prefix_free with post; [done|]. by rewrite -Htext Hi.
  - apply startsWith_spec. by exists post.
Qed.

Lemma replaceEach_absent token subst fuel before s :
  indexOf token s = None -> replaceEach token subst fuel before s = s.
Proof.
  revert before s. induction fuel as [|fuel IH]; intros before s; simpl; [done|].
  destruct s as [|c s]; simpl.
  - by destruct (startsWith token EmptyString).
  - destruct (startsWith token (String c s)); [done|].
    destruct (indexOf token s) eqn:Hidx; [done|]. intros _. by rewrite IH.
Qed.

Lemma replaceAll_absent token replacement subject :
  includes token subject = false -> replaceAll token replacement subject = subject.
Proof.
  rewrite /includes /replaceAll. destruct (indexOf token subject) eqn:Hidx; [done|].
  intros _. by apply replaceEach_absent.
Qed.

#[local] Arguments String.append : simpl never.

Section TemplateWithoutPlaceholders.
Context `{Runtime ArrayBuffer}.
Import SystemPromptInterceptor.

(** X7. A template that holds neither placeholder replaces the prompt
    by itself: for an eligible request [system[1].text] of the returned
    body is the template, whatever env and git-status blocks the original
    prompt had. *)
Theorem template_without_placeholders (buffer : ArrayBuffer) dbOps requestBody config
    system template toolsFlag tools :
  decodeJSON buffer = Some requestBody ->
  getInterceptorConfig dbOps "system_prompt" = inr (Some (true, config)) ->
  Eligible requestBody config system template toolsFlag tools ->
  (removesTools toolsFlag tools = true -> tools <> Some JNull) ->
  includes "{{env_block}}" template = false ->
  includes "{{git_status_block}}" template = false ->
  exists result,
    applySystemPromptInterception (Some buffer) dbOps = Some (encodeJSON result) /\
    secondSystemText result = Some template.
Proof.
  intros Hdec Hcfg Hel Hnull Henv Hgit.
  destruct (rewritten_prompt_text _ _ _ _ _ _ _ _ Hdec Hcfg Hel Hnull)
    as (result & Hout & Htext).
  exists result. split; [done|].
  by rewrite Htext /applyTemplate (replaceAll_absent _ _ _ Henv) (replaceAll_absent _ _ _ Hgit).
Qed.

End TemplateWithoutPlaceholders.

(* ===================================================================== *)
(** * The System-Prompt Interceptor: edges *)
(* ===================================================================== *)

Section InterceptorEdges.
Context `{Runtime ArrayBuffer}.
Import SystemPromptInterceptor.

Ltac run_unfold :=
  rewrite /applySystemPromptInterception /scheduledTasks /intercept /runBind /caught
    /parseBody /unchanged /runRet /setImmediate.

(** X8. The interceptor returns [null] and schedules nothing when the
    body is not JSON, when there is no configuration row, when the row
    cannot be read or is disabled, and when [system] is not an array. *)
Theorem interceptor_passes_through (buffer : ArrayBuffer) dbOps :
  decodeJSON buffer = None \/
  getInterceptorConfig dbOps "system_prompt" = inr None \/
  (exists e, getInterceptorConfig dbOps "system_prompt" = inl e) \/
  (exists config, getInterceptorConfig dbOps "system_prompt" = inr (Some (false, config))) \/
  (exists requestBody system,
     decodeJSON buffer = Some requestBody /\
     getProp "system" requestBody = inr system /\ isArray system = false) ->
  applySystemPromptInterception (Some buffer) dbOps = None /\
  scheduledTasks (Some buffer) dbOps = [].
Proof.
  run_unfold.
  intros [Hdec|[Hcfg|[[e Hcfg]|[[config Hcfg]|(requestBody & system & Hdec & Hsys & Harr)]]]].
  - by rewrite Hdec.
  - rewrite Hcfg. by destruct (decodeJSON buffer).
  - rewrite Hcfg. by destruct (decodeJSON buffer).
  - rewrite Hcfg. by destruct (decodeJSON buffer).
  - rewrite Hdec Hsys /=.
    destruct (getInterceptorConfig dbOps "system_prompt") as [e|[[[] config]|]]; try done.
    by destruct system as [[]|].
Qed.

(** X9. In a main-agent session the last-seen tasks are scheduled before
    the template is looked at: the tools task when [tools] is an array,
    then the prompt task with the original [system[1].text] when the
    second block is a text block, whether or not the request is rewritten
    in the end. *)
Theorem main_agent_session_schedules (buffer : ArrayBuffer) dbOps requestBody config
    system tools :
  decodeJSON buffer = Some requestBody ->
  getInterceptorConfig dbOps "system_prompt" = inr (Some (true, config)) ->
  mainAgentSession requestBody system ->
  getProp "tools" requestBody = inr tools ->
  scheduledTasks (Some buffer) dbOps
  = (if isArray tools then [UpdateLastSeenTools] else [])
    ++ (if isSystemMessageWithText (system !! 1)
        then [UpdateLastSeenPrompt (messageText (system !! 1))] else []).
Proof.
  intros Hdec Hcfg (Hsys & Hfirst & Hmain & Hsub) Htools.
  run_unfold. rewrite Hdec Hcfg /= Hsys /= Hfirst Hmain Hsub /= Htools /=.
  assert (truthy tools && isArray tools = isArray tools) as ->
    by (destruct tools as [[]|]; simpl; by rewrite ?andb_false_r).
  destruct (isArray tools); simpl;
    (destruct (isSystemMessageWithText (system !! 1)); simpl; [|done]);
    destruct (getProp "replacementPrompt" config) as [e|template]; simpl; try done;
    destruct (getProp "toolsEnabled" config) as [e|toolsFlag]; simpl; try done;
    destruct template as [[ | | |template| | ]|]; simpl; try done;
    destruct (String.eqb template EmptyString); simpl; try done;
    destruct (negb (truthy toolsFlag) && bool_decide (tools <> None)); simpl; try done;
    by destruct (readLength tools).
Qed.

(** X10. When the configuration's [replacementPrompt] is missing, not a
    string or the empty string, the interceptor returns [null] for every
    request. *)
Theorem invalid_template_disables (buffer : ArrayBuffer) dbOps isEnabled config template :
  getInterceptorConfig dbOps "system_prompt" = inr (Some (isEnabled, config)) ->
  getProp "replacementPrompt" config = inr template ->
  validTemplate template = false ->
  applySystemPromptInterception (Some buffer) dbOps = None.
Proof.
  intros Hcfg Htpl Hinvalid. rewrite /applySystemPromptInterception.
  destruct (snd (intercept buffer dbOps)) as [e|result] eqn:Hrun; [done|].
  apply intercept_inv in Hrun
    as (body & config' & system & template' & toolsFlag & tools & _ & Hcfg' & Hel & _).
  destruct Hel as [_ _ _ _ _ Htpl' Hne _ _].
  rewrite Hcfg in Hcfg'. injection Hcfg' as -> <-.
  rewrite Htpl in Htpl'. injection Htpl' as ->.
  simpl in Hinvalid. apply String.eqb_neq in Hne. by rewrite Hne in Hinvalid.
Qed.

(** X11. An eligible request whose [tools] field is [null] is not
    rewritten when tools are disabled: reading [tools.length] throws, and
    the interceptor returns [null]. *)
Theorem null_tools_abort (buffer : ArrayBuffer) dbOps requestBody config system
    template toolsFlag :
  decodeJSON buffer = Some requestBody ->
  getInterceptorConfig dbOps "system_prompt" = inr (Some (true, config)) ->
  Eligible requestBody config system template toolsFlag (Some JNull) ->
  truthy toolsFlag = false ->
  applySystemPromptInterception (Some buffer) dbOps = None.
Proof.
  intros Hdec Hcfg Hel Hflag. rewrite /applySystemPromptInterception.
  destruct (snd (intercept buffer dbOps)) as [e|result] eqn:Hrun; [done|].
  apply intercept_inv in Hrun
    as (body & config' & system' & template' & toolsFlag' & tools' & Hdec' & Hcfg' & Hel' & Hnull & _).
  rewrite Hdec in Hdec'. injection Hdec' as <-.
  rewrite Hcfg in Hcfg'. injection Hcfg' as <-.
  destruct Hel as [_ _ _ _ _ _ _ Hf Ht]. destruct Hel' as [_ _ _ _ _ _ _ Hf' Ht'].
  rewrite Hf in Hf'. injection Hf' as <-. rewrite Ht in Ht'. injection Ht' as <-.
  exfalso. apply Hnull; [|done]. by rewrite /removesTools Hflag.
Qed.

(** X12. What becomes of [tools] in a rewritten request: with
    [toolsEnabled] false (or missing) the returned body has no [tools]
    field; otherwise the field is the one of the request. *)
Theorem tools_follow_the_flag (buffer : ArrayBuffer) dbOps requestBody config system
    template toolsFlag tools :
  decodeJSON buffer = Some requestBody ->
  getInterceptorConfig dbOps "system_prompt" = inr (Some (true, config)) ->
  Eligible requestBody config system template toolsFlag tools ->
  (removesTools toolsFlag tools = true -> tools <> Some JNull) ->
  exists result,
    applySystemPromptInterception (Some buffer) dbOps = Some (encodeJSON result) /\
    getProp "tools" result = inr (if truthy toolsFlag then tools else None).
Proof.
  intros Hdec Hcfg Hel Hnull. rewrite /applySystemPromptInterception.
  rewrite (intercept_eligible _ _ _ _ _ _ _ _ Hdec Hcfg Hel Hnull).
  eexists. split; [done|].
  set (newPrompt := applyTemplate _ _ _).
  destruct (rewritten_shape _ _ _ _ _ _ newPrompt Hel)
    as (fields & second & -> & Hsys & Htools & Hsecond & ->).
  rewrite /removesTools. simpl.
  destruct (truthy toolsFlag); simpl.
  - by rewrite lookupField_setField_ne // Htools.
  - destruct tools as [tool|]; simpl.
    + by rewrite lookupField_deleteField_eq.
    + by rewrite /= lookupField_setField_ne // Htools.
Qed.

(** X29. With tools disabled and a [tools] array in a request that is
    rewritten, the tools task is scheduled before the field is deleted
    from the same request object: when the task runs, the [tools] it
    reads to save as last seen is [undefined], not the array of the
    request. *)
Theorem tools_task_reads_deleted_field (buffer : ArrayBuffer) dbOps requestBody config
    system template toolsFlag items :
  decodeJSON buffer = Some requestBody ->
  getInterceptorConfig dbOps "system_prompt" = inr (Some (true, config)) ->
  Eligible requestBody config system template toolsFlag (Some (JArray items)) ->
  truthy toolsFlag = false ->
  exists result,
    snd (intercept buffer dbOps) = inr result /\
    scheduledTasks (Some buffer) dbOps
      = [UpdateLastSeenTools; UpdateLastSeenPrompt (messageText (system !! 1))] /\
    toolsReadByTask requestBody = inr (Some (JArray items)) /\
    toolsReadByTask result = inr None.
Proof.
  intros Hdec Hcfg Hel Hflag.
  assert (Hnull : removesTools toolsFlag (Some (JArray items)) = true ->
                  Some (JArray items) <> Some JNull) by done.
  pose proof (intercept_eligible _ _ _ _ _ _ _ _ Hdec Hcfg Hel Hnull) as Hrun.
  eexists. split; [exact Hrun|]. split; [|split].
  - destruct Hel as [Hsys Hfirst Hmain Hsub Hsecond Htpl Hne Hf Htools].
    run_unfold. rewrite Hdec Hcfg /= Hsys /= Hfirst Hmain Hsub /= Htools /= Hsecond /=.
    rewrite Htpl Hf /=. apply String.eqb_neq in Hne. rewrite Hne Hflag /=. done.
  - by destruct Hel.
  - set (newPrompt := applyTemplate _ _ _).
    destruct (rewritten_shape _ _ _ _ _ _ newPrompt Hel)
      as (fields & second & -> & Hsys & Htools & Hsecond & ->).
    rewrite /removesTools Hflag /toolsReadByTask /=.
    by rewrite lookupField_deleteField_eq.
Qed.

End InterceptorEdges.

(* ===================================================================== *)
(** * The Agent Interceptor: edges *)
(* ===================================================================== *)

(** Without a row, and for every row written by [setConfig], the agent
    interceptor's own prompt interception leaves the request as it is. *)
Lemma agent_stage_skips requestBody dbOps :
  getInterceptorConfig dbOps "system_prompt" = inr None \/
  (exists isEnabled c,
     getInterceptorConfig dbOps "system_prompt"
       = inr (Some (isEnabled, InterceptorConfig_toJSON c))) ->
  exists tasks,
    applySystemPromptInterception requestBody dbOps = (requestBody, notModified, tasks).
Proof.
  intros [Hnone|(isEnabled & c & Hcfg)].
  - exists []. by rewrite /applySystemPromptInterception /prepare /runBind Hnone.
  - by eapply agent_stage_skips_stored_config.
Qed.

Section AgentEdges.
Context `{Runtime ArrayBuffer} `{AgentRegistry Registry}.


(** The agent an interceptor run detects is the one it reports. *)
Lemma detects_agentUsed (buffer : ArrayBuffer) dbOps (agentRegistry : Registry) agent :
  detects buffer agentRegistry agent ->
  agentUsed (interceptAndModifyRequest (Some buffer) dbOps agentRegistry)
    = Some (Agent.id agent).
Proof.
  intros (requestBody & systemPrompt & registry' & agents
          & Hdec & Hprompt & Hne & Hreg & Hagents & Hfind).
  rewrite /interceptAndModifyRequest /intercept /parseBody Hdec /=.
  destruct (getProp "model" requestBody) as [e|model] eqn:Hmodel.
  { destruct requestBody; try done. }
  simpl. rewrite Hprompt /=.
  destruct systemPrompt as [|c systemPrompt]; [done|].
  rewrite Hreg /= Hagents /= Hfind.
  destruct (strictEqualString _ _).
  - destruct (applySystemPromptInterception requestBody dbOps) as [[body' flags] tasks].
    by destruct (modified flags || promptToolsRemoved flags).
  - by destruct (applySystemPromptInterception _ dbOps) as [[body' flags] tasks].
Qed.

(** X14. Detection takes the first agent of the directory whose
    signature occurs in the combined system prompt: if the prompt
    contains an agent's stored signature (untrimmed) and the trimmed
    signature of no agent listed before it, that agent is the one
    reported. *)
Theorem first_matching_agent_is_used (buffer : ArrayBuffer) dbOps
    (agentRegistry registry' : Registry) requestBody systemPrompt before agent after :
  decodeJSON buffer = Some requestBody ->
  extractSystemPrompt requestBody = inr (Some systemPrompt) ->
  systemPrompt <> EmptyString ->
  registerWorkspaces (extractAgentDirectories (Registry := Registry) systemPrompt)
    agentRegistry = inr registry' ->
  getAgents registry' = inr (before ++ agent :: after) ->
  Forall (fun a => includes (trim (Agent.systemPrompt a)) systemPrompt = false) before ->
  includes (Agent.systemPrompt agent) systemPrompt = true ->
  agentUsed (interceptAndModifyRequest (Some buffer) dbOps agentRegistry)
    = Some (Agent.id agent).
Proof.
  intros Hdec Hprompt Hne Hreg Hagents Hbefore Hmatch.
  apply detects_agentUsed.
  exists requestBody, systemPrompt, registry', (before ++ agent :: after).
  repeat split; try done. clear Hagents.
  induction Hbefore as [|a before Ha _ IH]; simpl.
  - by rewrite (includes_trim _ _ Hmatch).
  - by rewrite Ha.
Qed.

Lemma includes_empty s : includes EmptyString s = true.
Proof. rewrite /includes. by destruct s. Qed.

(** X15. An agent whose stored signature is blank (empty or white space
    only) matches every request that has a system prompt: listed first,
    it is the agent reported for all of them. *)
Theorem blank_signature_matches_everything (buffer : ArrayBuffer) dbOps
    (agentRegistry registry' : Registry) requestBody systemPrompt agent others :
  decodeJSON buffer = Some requestBody ->
  extractSystemPrompt requestBody = inr (Some systemPrompt) ->
  systemPrompt <> EmptyString ->
  registerWorkspaces (extractAgentDirectories (Registry := Registry) systemPrompt)
    agentRegistry = inr registry' ->
  getAgents registry' = inr (agent :: others) ->
  trim (Agent.systemPrompt agent) = EmptyString ->
  agentUsed (interceptAndModifyRequest (Some buffer) dbOps agentRegistry)
    = Some (Agent.id agent).
Proof.
  intros Hdec Hprompt Hne Hreg Hagents Hblank.
  apply detects_agentUsed.
  exists requestBody, systemPrompt, registry', (agent :: others).
  repeat split; try done. simpl. by rewrite Hblank includes_empty.
Qed.

Lemma isTextItem_throws item : (exists e, isTextItem item = inl e) -> item = JNull.
Proof.
  intros [e He]. destruct item; try done. rewrite /isTextItem /= in He.
  destruct (lookupField "type" fields) as [[ | | |ty| | ]|]; try done.
  by destruct (String.eqb ty "text").
Qed.

Lemma filterTry_null items : In JNull items -> filterTry isTextItem items = inl TypeError.
Proof.
  induction items as [|item items IH]; [done|]. intros [->|Hin]; [done|].
  simpl. destruct (isTextItem item) as [e|keep] eqn:Hitem.
  - assert (item = JNull) as -> by (apply isTextItem_throws; by exists e).
    by injection Hitem as <-.
  - simpl. by rewrite (IH Hin).
Qed.

(** X16. A [null] among the root-level [system] blocks makes the stage
    raise: the request is passed on as it came, with no agent and no
    model reported. *)
Theorem null_system_block_degrades (buffer : ArrayBuffer) dbOps (agentRegistry : Registry)
    requestBody items :
  decodeJSON buffer = Some requestBody ->
  getProp "system" requestBody = inr (Some (JArray items)) ->
  In JNull items ->
  interceptAndModifyRequest (Some buffer) dbOps agentRegistry = degraded buffer.
Proof.
  intros Hdec Hsys Hnull.
  rewrite /interceptAndModifyRequest /intercept /parseBody Hdec /=.
  destruct requestBody as [ | | | | |fields]; try done. simpl in *.
  rewrite /extractSystemPrompt /rootSystemContent /= /joinedText.
  injection Hsys as ->. simpl. by rewrite (filterTry_null _ Hnull).
Qed.

#[local] Arguments String.append !_ _ / : simpl nomatch.

Lemma isAgentsSuffix_length s : isAgentsSuffix s = true -> String.length s = 15.
Proof.
  destruct s as [|a s]; [done|].
  destruct a as [[] [] [] [] [] [] [] []]; try done.
  destruct s as [|c rest]; [done|]. simpl.
  destruct (isLineTerminator c); simpl; [done|].
  intros Heq. apply String.eqb_eq in Heq. by subst rest.
Qed.

Lemma workspacePathOf_cons x s :
  workspacePathOf (String x s)
  = if isAgentsSuffix (String x s) then EmptyString else String x (workspacePathOf s).
Proof. done. Qed.

(** X17. [workspacePathOf] removes a final [/.claude/agents]: the
    directory [root/.claude/agents] gives [root]. The dot of the pattern
    is not escaped, so any character but a line break is accepted in its
    place; a directory without such an ending is returned as it is. *)
Theorem workspacePathOf_strips_agents root c dir :
  (isLineTerminator c = false ->
     workspacePathOf (root +:+ String "/" (String c "claude/agents")) = root) /\
  workspacePathOf (root +:+ "/.claude/agents") = root /\
  ((forall root' c', isLineTerminator c' = false ->
      dir <> root' +:+ String "/" (String c' "claude/agents")) ->
   workspacePathOf dir = dir).
Proof.
  assert (Hstrip : forall c, isLineTerminator c = false ->
    workspacePathOf (root +:+ String "/" (String c "claude/agents")) = root).
  { intros c0 Hc. induction root as [|x root IH].
    - cbn [String.append workspacePathOf isAgentsSuffix]. rewrite Hc. done.
    - change (String x root +:+ String "/" (String c0 "claude/agents"))
        with (String x (root +:+ String "/" (String c0 "claude/agents"))).
      rewrite workspacePathOf_cons.
      destruct (isAgentsSuffix (String x (root +:+ String "/" (String c0 "claude/agents"))))
        eqn:Hsuffix.
      + apply isAgentsSuffix_length in Hsuffix. simpl in Hsuffix.
        rewrite length_append /= in Hsuffix. lia.
      + by rewrite IH. }
  split; [apply Hstrip|]. split; [by apply Hstrip|].
  induction dir as [|x dir IH]; intros Hno; [done|].
  rewrite workspacePathOf_cons.
  destruct (isAgentsSuffix (String x dir)) eqn:Hsuffix.
  - exfalso. destruct x as [[] [] [] [] [] [] [] []]; try done.
    destruct dir as [|c' rest]; [done|]. simpl in Hsuffix.
    destruct (isLineTerminator c') eqn:Hc'; [done|]. simpl in Hsuffix.
    apply String.eqb_eq in Hsuffix as ->.
    by apply (Hno EmptyString c').
  - f_equal. apply IH. intros root' c' Hc' ->. by apply (Hno (String x root') c').
Qed.

#[local] Arguments String.append : simpl never.

(** X18. Only workspaces that exist on disk are registered: when none of
    the directories found in the prompt has an existing workspace, the loop
    leaves the registry as it is, and cannot fail. *)
Theorem missing_workspaces_are_skipped (extraDirs : list string) (agentRegistry : Registry) :
  Forall (fun dir => existsSync (Registry := Registry) (workspacePathOf dir) = false)
    extraDirs ->
  registerWorkspaces extraDirs agentRegistry = inr agentRegistry.
Proof.
  induction 1 as [|dir extraDirs Hdir _ IH]; simpl; [done|]. by rewrite Hdir.
Qed.

End AgentEdges.

(* ===================================================================== *)
(** * The orchestrator: fallback and pass-through *)
(* ===================================================================== *)

Section OrchestratorEdges.
Context {ArrayBuffer Account Response World : Type}.
Context `{Runtime ArrayBuffer} `{AgentRegistry Registry}.
Variable ctx : Proxy.ProxyContext ArrayBuffer Account Response World.
Import Proxy.

Lemma failedAttempts_not_unauthenticated i (accounts : list Account) :
  ~ In Unauthenticated (failedAttempts (Response := Response) i accounts).
Proof.
  revert i. induction accounts as [|a rest IH]; intros i; simpl; [by intros []|].
  intros [Heq|Hin]; [done|]. by eapply IH.
Qed.

(** X19. The request is forwarded without an account only when the
    strategy returns no account, and then exactly once: when there are
    accounts, the forwarding calls are account attempts only, also when
    all of them fail. A path the provider refuses stops the request before
    any call. *)
Theorem unauthenticated_only_without_accounts pathname
    (requestBodyBuffer : option ArrayBuffer) dbOps (agentRegistry : Registry) (w : World) :
  let accounts :=
    selectAccountsForRequest ctx
      (AgentInterceptor.agentUsed
         (AgentInterceptor.interceptAndModifyRequest
            (orElse (SystemPromptInterceptor.applySystemPromptInterception
                       requestBodyBuffer dbOps) requestBodyBuffer)
            dbOps agentRegistry)) w in
  let '(journal, outcome, w') :=
    handleProxy ctx pathname requestBodyBuffer dbOps agentRegistry w in
  (validateProviderPath ctx pathname = false ->
     journal = [] /\ outcome = inl ValidationError /\ w' = w) /\
  (validateProviderPath ctx pathname = true -> accounts = [] ->
     journal = [Unauthenticated] /\
     forall message provider, outcome <> inl (ServiceUnavailableError message provider)) /\
  (validateProviderPath ctx pathname = true -> accounts <> [] ->
     journal <> [] /\ ~ In Unauthenticated journal).
Proof.
  simpl. rewrite /handleProxy.
  destruct (validateProviderPath ctx pathname); simpl.
  - set (finalBodyBuffer := orElse _ _). set (accounts := selectAccountsForRequest _ _ _).
    destruct accounts as [|account rest] eqn:Haccounts.
    + simpl. destruct (proxyUnauthenticated ctx finalBodyBuffer w) as [[e|response] w'].
      all: split; [done|]; split; [|done]; intros _ _; split; [done|]; by intros ? ?.
    + pose proof (forward_failover ctx finalBodyBuffer (account :: rest) w) as Hfail.
      destruct (forward ctx finalBodyBuffer (account :: rest) w) as [[journal outcome] w'].
      split; [done|]. split; [done|]. intros _ _.
      destruct Hfail as [_ [(failed & a & r & response & _ & -> & _)|(-> & _)]]; [done| |].
      * split; [by destruct (failedAttempts 0 failed)|].
        rewrite in_app_iff. intros [Hin|[Hin|[]]]; [|done].
        by eapply failedAttempts_not_unauthenticated.
      * split; [done|]. apply failedAttempts_not_unauthenticated.
  - split; [done|]. by split.
Qed.

(** With the interceptor switched off, the System-Prompt Interceptor
    returns [null]. *)
Lemma interceptor_off (requestBodyBuffer : option ArrayBuffer) dbOps :
  getInterceptorConfig dbOps "system_prompt" = inr None \/
  (exists config, getInterceptorConfig dbOps "system_prompt" = inr (Some (false, config))) ->
  SystemPromptInterceptor.applySystemPromptInterception requestBodyBuffer dbOps = None.
Proof.
  intros Hoff. destruct requestBodyBuffer as [buffer|]; [|done].
  rewrite /SystemPromptInterceptor.applySystemPromptInterception
    /SystemPromptInterceptor.intercept /runBind /caught /parseBody.
  destruct (decodeJSON buffer); [|done].
  by destruct Hoff as [->|[config ->]].
Qed.

(** X20. With the interceptor switched off (no row, or a row written by
    [setConfig] that is disabled) and a directory that lists no agent,
    the orchestrator forwards the request body it received, buffer for
    buffer, and selects the accounts for a request without agent. *)
Theorem body_passes_through_unchanged pathname
    (requestBodyBuffer : option ArrayBuffer) dbOps (agentRegistry : Registry) (w : World) :
  validateProviderPath ctx pathname = true ->
  getInterceptorConfig dbOps "system_prompt" = inr None \/
    (exists c, getInterceptorConfig dbOps "system_prompt"
                 = inr (Some (false, InterceptorConfig_toJSON c))) ->
  (forall registry : Registry, getAgents registry = inr []) ->
  handleProxy ctx pathname requestBodyBuffer dbOps agentRegistry w
  = forward ctx requestBodyBuffer (selectAccountsForRequest ctx None w) w.
Proof.
  intros Hpath Hcfg Hagents. rewrite /handleProxy Hpath /=.
  rewrite interceptor_off; [destruct Hcfg as [?|[c ?]]; eauto|].
  assert (Hskip : getInterceptorConfig dbOps "system_prompt" = inr None \/
    (exists isEnabled c, getInterceptorConfig dbOps "system_prompt"
       = inr (Some (isEnabled, InterceptorConfig_toJSON c))))
    by (destruct Hcfg as [?|[c ?]]; eauto).
  destruct requestBodyBuffer as [buffer|]; [|done].
  change (orElse None (Some buffer)) with (Some buffer).
  assert (AgentInterceptor.modifiedBody
            (AgentInterceptor.interceptAndModifyRequest (Some buffer) dbOps agentRegistry)
            = Some buffer /\
          AgentInterceptor.agentUsed
            (AgentInterceptor.interceptAndModifyRequest (Some buffer) dbOps agentRegistry)
            = None) as [-> ->]; [|done].
  rewrite /AgentInterceptor.interceptAndModifyRequest /AgentInterceptor.intercept /parseBody.
  destruct (decodeJSON buffer) as [requestBody|]; simpl; [|done].
  destruct (getProp "model" requestBody) as [e|model]; simpl; [done|].
  destruct (AgentInterceptor.extractSystemPrompt requestBody)
    as [e|[[|c systemPrompt]|]]; simpl; try done.
  destruct (AgentInterceptor.registerWorkspaces _ agentRegistry) as [e|registry'];
    simpl; [done|].
  rewrite Hagents /=.
  by destruct (agent_stage_skips requestBody dbOps Hskip) as [tasks ->].
Qed.

End OrchestratorEdges.

(* ===================================================================== *)
(** * The usage worker *)
(* ===================================================================== *)

Import UsageWorker.

Lemma WorkerInvariant_step p action :
  WorkerInvariant p -> WorkerInvariant (step p action).
Proof.
  intros (Hhandle & Hterm & Hnodup & Hcount).
  destruct action as [ | | |data]; rewrite /step.
  - rewrite /getUsageWorker.
    destruct (usageWorkerInstance p) as [worker|] eqn:Hinstance; simpl.
    + rewrite /WorkerInvariant Hinstance. done.
    + split; [|split; [|split]]; simpl.
      * intros worker [= <-]. split; [lia|]. split.
        { intros Hin. apply Hterm in Hin. lia. }
        split; [apply in_app_iff; right; by left|].
        intros ->. apply in_app_iff. right. by left.
      * intros worker Hin. apply Hterm in Hin. lia.
      * done.
      * lia.
  - rewrite /terminateUsageWorker.
    destruct (usageWorkerInstance p) as [worker|] eqn:Hinstance.
    + by rewrite /WorkerInvariant /=.
    + by rewrite /WorkerInvariant Hinstance.
  - rewrite /timeoutFires. destruct (timers p) as [|pending].
    { done. }
    destruct (usageWorkerInstance p) as [worker|] eqn:Hinstance.
    + destruct (Hhandle worker eq_refl) as (Hlt & Hnot & _).
      split; [|split; [|split]]; simpl.
      * done.
      * intros w [Hin|[<-|[]]]%in_app_iff; [by apply Hterm|done].
      * apply NoDup_app. split; [done|]. split; [|apply NoDup_singleton].
        intros w Hin [->|[]]%list_elem_of_In. apply Hnot. by apply list_elem_of_In.
      * rewrite length_app /=. lia.
    + by rewrite /WorkerInvariant /=.
  - rewrite /onmessage. destruct data; done.
Qed.

(** X21. Whatever the program does with the worker module (ask for the
    worker, terminate it, let a shutdown timer run, receive a message),
    the handle is a live worker whose messages are listened to and that
    was unref'ed where the method exists, no worker is terminated twice,
    and every worker ever created is the handle or terminated. *)
Theorem worker_invariant (hasUnref : bool) (actions : list Action) :
  WorkerInvariant (run actions (initial hasUnref)).
Proof.
  rewrite /run.
  assert (Hinit : WorkerInvariant (initial hasUnref)).
  { split; [done|]. split; [by intros ? []|]. split; [constructor|done]. }
  revert Hinit. generalize (initial hasUnref).
  induction actions as [|action actions IH]; intros p Hp; simpl; [done|].
  apply IH. by apply WorkerInvariant_step.
Qed.

(** X22. [getUsageWorker] makes a worker only when there is none: once
    it has answered a worker, asking again, terminating and receiving
    messages keep that worker as the handle and create no other, until
    a shutdown timer runs. *)
Theorem worker_is_created_once (p : Process) (actions : list Action) :
  Forall (fun action => action <> TimeoutFires) actions ->
  let '(worker, p') := getUsageWorker p in
  usageWorkerInstance (run actions p') = Some worker /\
  created (run actions p') = created p' /\
  fst (getUsageWorker (run actions p')) = worker /\
  terminated (run actions p') = terminated p'.
Proof.
  intros Hactions.
  assert (Hkeep : forall worker p0, usageWorkerInstance p0 = Some worker ->
    usageWorkerInstance (run actions p0) = Some worker /\
    created (run actions p0) = created p0 /\
    terminated (run actions p0) = terminated p0).
  { intros worker. induction Hactions as [|action actions Haction _ IH]; intros p0 Hp0;
      [done|]. rewrite /run /= -/(run actions _).
    assert (usageWorkerInstance (step p0 action) = Some worker /\
            created (step p0 action) = created p0 /\
            terminated (step p0 action) = terminated p0) as (Hi & Hc & Ht).
    { destruct action as [ | | |data]; rewrite /step /getUsageWorker /terminateUsageWorker
        /onmessage ?Hp0 //. by destruct data. }
    destruct (IH _ Hi) as (-> & -> & ->). by rewrite Hc Ht. }
  destruct (getUsageWorker p) as [worker p'] eqn:Hget.
  assert (usageWorkerInstance p' = Some worker) as Hp'.
  { rewrite /getUsageWorker in Hget.
    destruct (usageWorkerInstance p) eqn:Hi; injection Hget as <- <-; done. }
  destruct (Hkeep worker p' Hp') as (Hi & Hc & Ht).
  split; [done|]. split; [done|]. split; [|done].
  by rewrite /getUsageWorker Hi.
Qed.

(** X23. The shutdown protocol. With a worker as the handle,
    [terminateUsageWorker] posts the shutdown message to it and leaves
    it running; when the timer runs, that worker is terminated and the
    handle is cleared. On a process without handle,
    [terminateUsageWorker] does nothing at all, and the next
    [getUsageWorker] makes a new worker. *)
Theorem worker_shutdown_protocol (p : Process) (worker : nat) :
  usageWorkerInstance p = Some worker ->
  let p1 := terminateUsageWorker p in
  let p2 := timeoutFires p1 in
  shutdownPosted p1 = shutdownPosted p ++ [worker] /\
  terminated p1 = terminated p /\ usageWorkerInstance p1 = Some worker /\
  timers p1 = S (timers p) /\
  terminated p2 = terminated p ++ [worker] /\ usageWorkerInstance p2 = None /\
  timers p2 = timers p /\
  terminateUsageWorker p2 = p2 /\
  fst (getUsageWorker p2) = created p /\
  created (snd (getUsageWorker p2)) = S (created p).
Proof.
  intros Hinstance. simpl.
  by rewrite /terminateUsageWorker /timeoutFires /getUsageWorker Hinstance /=.
Qed.

(** X24. A shutdown timer terminates whatever worker is the handle when
    it runs. If a timer is still pending when the handle is empty (after
    two [terminateUsageWorker] calls in a row, say), the worker that the
    next [getUsageWorker] makes is terminated by that timer, without
    having been sent the shutdown message. *)
Theorem stale_timer_terminates_new_worker (p : Process) :
  usageWorkerInstance p = None ->
  0 < timers p ->
  let '(worker, p1) := getUsageWorker p in
  let p2 := timeoutFires p1 in
  worker = created p /\
  terminated p2 = terminated p ++ [worker] /\
  shutdownPosted p2 = shutdownPosted p /\
  usageWorkerInstance p2 = None.
Proof.
  intros Hinstance Htimers.
  rewrite /getUsageWorker Hinstance /timeoutFires /=.
  by destruct (timers p) as [|pending]; [lia|].
Qed.

(* ===================================================================== *)
(** * The configuration handlers *)
(* ===================================================================== *)

Section ConfigurationHandlers.
Import ToolsHandler.

Lemma validate_accepted body isEnabled c :
  AcceptedBody (Some body) isEnabled c -> validate body = inr (inr (isEnabled, c)).
Proof.
  intros (fields & [= ->] & HisEnabled & Htarget & Htrim & Hreplacement & Htools).
  rewrite /validate /= HisEnabled /= Htarget /=.
  apply String.eqb_neq in Htrim. rewrite Htrim Hreplacement /= Htools /=.
  by destruct c.
Qed.

Lemma validate_inv body isEnabled c :
  validate body = inr (inr (isEnabled, c)) -> AcceptedBody (Some body) isEnabled c.
Proof.
  rewrite /validate /AcceptedBody.
  destruct body as [ | | | | |fields]; simpl; try done.
  destruct (lookupField "isEnabled" fields) as [[ |isEnabled'| | | | ]|] eqn:HisEnabled;
    simpl; try done.
  destruct (lookupField "targetPrompt" fields) as [[ | | |target| | ]|] eqn:Htarget;
    simpl; try done.
  destruct (String.eqb (trim target) EmptyString) eqn:Htrim; [done|].
  destruct (lookupField "replacementPrompt" fields) as [[ | | |replacement| | ]|]
    eqn:Hreplacement; simpl; try done.
  destruct (lookupField "toolsEnabled" fields) as [[ |tools| | | | ]|] eqn:Htools;
    simpl; try done.
  intros [= <- <-]. exists fields. simpl. apply String.eqb_neq in Htrim. done.
Qed.

Lemma validate_exception body e : validate body = inl e -> body = JNull /\ e = TypeError.
Proof.
  rewrite /validate.
  destruct body as [ | | | | |fields]; simpl; try done.
  - by intros [= <-].
  - destruct (lookupField "isEnabled" fields) as [[ |isEnabled'| | | | ]|]; simpl; try done.
    destruct (lookupField "targetPrompt" fields) as [[ | | |target| | ]|]; simpl; try done.
    destruct (String.eqb (trim target) EmptyString) eqn:Htrim; [done|].
    destruct (lookupField "replacementPrompt" fields) as [[ | | |replacement| | ]|];
      simpl; try done.
    by destruct (lookupField "toolsEnabled" fields) as [[ |tools| | | | ]|].
Qed.

(** X25. [setSystemPromptConfig] writes the configuration exactly when
    the body is an object with boolean [isEnabled] and [toolsEnabled],
    a string [replacementPrompt] and a non-blank string [targetPrompt]:
    then it saves these values and answers them with [success]. In every
    other case the database is left as it was, and the answer is a
    bad-request error, or the [TypeError] of a [null] body thrown on. *)
Theorem config_is_saved_only_when_valid (parsed : option JSON) dbOps :
  let '(response, dbOps') := setSystemPromptConfig parsed dbOps in
  (forall isEnabled c, AcceptedBody parsed isEnabled c ->
     dbOps' = setInterceptorConfig "system_prompt" isEnabled c dbOps /\
     response = inr (JsonResponse (JObject
       [("success", JBool true);
        ("isEnabled", JBool isEnabled);
        ("targetPrompt", JString (targetPrompt c));
        ("replacementPrompt", JString (replacementPrompt c));
        ("toolsEnabled", JBool (toolsEnabled c))]))) /\
  ((forall isEnabled c, ~ AcceptedBody parsed isEnabled c) ->
     dbOps' = dbOps /\
     ((exists message, response = inr (BadRequest message)) \/
      (parsed = Some JNull /\ response = inl TypeError))).
Proof.
  rewrite /setSystemPromptConfig. destruct parsed as [body|].
  - destruct (validate body) as [e|[message|[isEnabled c]]] eqn:Hvalidate.
    + split.
      * intros isEnabled c Hacc%validate_accepted. by rewrite Hvalidate in Hacc.
      * intros _. split; [done|]. right.
        by destruct (validate_exception _ _ Hvalidate) as [-> ->].
    + split.
      * intros isEnabled c Hacc%validate_accepted. by rewrite Hvalidate in Hacc.
      * intros _. split; [done|]. left. by exists message.
    + split.
      * intros isEnabled' c' Hacc%validate_accepted.
        rewrite Hvalidate in Hacc. by injection Hacc as <- <-.
      * intros Hnot. by destruct (Hnot isEnabled c); apply validate_inv.
  - split.
    + by intros isEnabled c (fields & ? & _).
    + intros _. split; [done|]. left. by eexists.
Qed.

Lemma getInterceptorConfig_set id isEnabled c dbOps :
  getInterceptorConfig (setInterceptorConfig id isEnabled c dbOps) id
  = inr (Some (isEnabled, InterceptorConfig_toJSON c)).
Proof.
  rewrite /getInterceptorConfig /setInterceptorConfig /= lookup_insert_eq /=.
  by destruct isEnabled.
Qed.

(** X26. A configuration that [setSystemPromptConfig] accepted is what
    [getSystemPromptConfig] answers afterwards, whatever row was stored
    before, and it is the configuration the interceptor reads. *)
Theorem saved_config_is_served (parsed : option JSON) dbOps isEnabled c :
  AcceptedBody parsed isEnabled c ->
  let dbOps' := snd (setSystemPromptConfig parsed dbOps) in
  getSystemPromptConfig dbOps' = inr (configResponse isEnabled c) /\
  getInterceptorConfig dbOps' "system_prompt"
  = inr (Some (isEnabled, InterceptorConfig_toJSON c)).
Proof.
  intros Hacc. simpl. rewrite /setSystemPromptConfig.
  destruct Hacc as (fields & -> & Hrest).
  rewrite (validate_accepted (JObject fields) isEnabled c); [by exists fields|].
  simpl. by rewrite /getSystemPromptConfig getInterceptorConfig_set.
Qed.

End ConfigurationHandlers.

Section ConfigurationAndInterceptor.
Context `{Runtime ArrayBuffer}.
Import ToolsHandler.

(** X27. After [resetSystemPromptConfig], [getSystemPromptConfig]
    answers the default state: disabled, the default template, tools
    enabled, and as target the last-seen system prompt if one is stored
    and not empty, the built-in prompt otherwise. The key-value store is
    not touched, the interceptor returns [null] for every request, and a
    second reset changes nothing. *)
Theorem reset_restores_defaults dbOps (requestBodyBuffer : option ArrayBuffer) :
  let dbOps' := snd (resetSystemPromptConfig dbOps) in
  getSystemPromptConfig dbOps'
  = inr (configResponse false
           {| targetPrompt :=
                orDefault (getSystemKV dbOps "last_seen_system_prompt")
                  DEFAULT_TARGET_PROMPT;
              replacementPrompt := defaultTemplate;
              toolsEnabled := true |}) /\
  system_kv_store dbOps' = system_kv_store dbOps /\
  SystemPromptInterceptor.applySystemPromptInterception requestBodyBuffer dbOps' = None /\
  snd (resetSystemPromptConfig dbOps') = dbOps'.
Proof.
  simpl.
  assert (Hnone : getInterceptorConfig
            (snd (deleteInterceptorConfig "system_prompt" dbOps)) "system_prompt"
          = inr None).
  { by rewrite /getInterceptorConfig /= lookup_delete_eq. }
  split; [by rewrite /getSystemPromptConfig Hnone|]. split; [done|]. split.
  - destruct requestBodyBuffer as [buffer|]; [|done].
    rewrite /SystemPromptInterceptor.applySystemPromptInterception
      /SystemPromptInterceptor.intercept /runBind /caught /parseBody Hnone.
    by destruct (decodeJSON buffer).
  - rewrite /resetSystemPromptConfig /deleteInterceptorConfig /=. f_equal.
    apply delete_delete_eq.
Qed.

(** X28. An empty [replacementPrompt] is accepted by
    [setSystemPromptConfig], and with it the interceptor returns [null]
    for every request, also when the configuration is enabled. *)
Theorem empty_replacement_switches_off (parsed : option JSON) dbOps isEnabled c
    (requestBodyBuffer : option ArrayBuffer) :
  AcceptedBody parsed isEnabled c ->
  replacementPrompt c = EmptyString ->
  let '(response, dbOps') := setSystemPromptConfig parsed dbOps in
  (exists data, response = inr (JsonResponse data)) /\
  SystemPromptInterceptor.applySystemPromptInterception requestBodyBuffer dbOps' = None.
Proof.
  intros Hacc Hempty. rewrite /setSystemPromptConfig.
  destruct Hacc as (fields & -> & Hrest).
  rewrite (validate_accepted (JObject fields) isEnabled c); [by exists fields|].
  split; [by eexists|].
  destruct requestBodyBuffer as [buffer|]; [|done].
  rewrite /SystemPromptInterceptor.applySystemPromptInterception.
  destruct (snd (SystemPromptInterceptor.intercept buffer _)) as [e|result] eqn:Hrun; [done|].
  apply intercept_inv in Hrun
    as (body & config' & system & template' & toolsFlag & tools & _ & Hcfg' & Hel & _).
  destruct Hel as [_ _ _ _ _ Htpl' Hne _ _].
  rewrite getInterceptorConfig_set in Hcfg'. injection Hcfg' as _ <-.
  rewrite /= Hempty in Htpl'. by injection Htpl' as <-.
Qed.

End ConfigurationAndInterceptor.

(* ===================================================================== *)
(** * The properties above on sample requests *)
(* ===================================================================== *)

Lemma template_without_placeholders_witness :
  exists result,
    SystemPromptInterceptor.applySystemPromptInterception
      (Some (Encoded (mainBody "intro <env>X</env>" []))) (sampleDb true sameTextConfig)
    = Some (encodeJSON result) /\
    secondSystemText result = Some "Keep this prompt.".
Proof.
  refine (template_without_placeholders
            (Encoded (mainBody "intro <env>X</env>" [])) (sampleDb true sameTextConfig)
            (mainBody "intro <env>X</env>" []) (InterceptorConfig_toJSON sameTextConfig)
            [textBlock MAIN_AGENT_SIGNATURE; textBlock "intro <env>X</env>"]
            "Keep this prompt." (Some (JBool true)) None _ _ _ _ _ _);
    try reflexivity.
  - split; try reflexivity. discriminate.
  - discriminate.
Defined.

Lemma interceptor_passes_through_witness :
  SystemPromptInterceptor.applySystemPromptInterception
    (Some (Malformed "{")) (sampleDb true (sampleConfig true)) = None /\
  SystemPromptInterceptor.scheduledTasks
    (Some (Malformed "{")) (sampleDb true (sampleConfig true)) = [].
Proof.
  refine (interceptor_passes_through (Malformed "{") (sampleDb true (sampleConfig true)) _).
  left. reflexivity.
Defined.

Lemma main_agent_session_schedules_witness :
  SystemPromptInterceptor.scheduledTasks
    (Some (Encoded (mainBody "intro <env>X</env>" sampleTools)))
    (sampleDb true emptyTemplateConfig)
  = [UpdateLastSeenTools;
     UpdateLastSeenPrompt "intro <env>X</env>"].
Proof.
  refine (main_agent_session_schedules
            (Encoded (mainBody "intro <env>X</env>" sampleTools))
            (sampleDb true emptyTemplateConfig)
            (mainBody "intro <env>X</env>" sampleTools)
            (InterceptorConfig_toJSON emptyTemplateConfig)
            [textBlock MAIN_AGENT_SIGNATURE; textBlock "intro <env>X</env>"]
            (lookupField "tools" sampleTools) _ _ _ _); try reflexivity.
  repeat split; reflexivity.
Defined.

Lemma invalid_template_disables_witness :
  SystemPromptInterceptor.applySystemPromptInterception
    (Some (Encoded (mainBody "intro <env>X</env>" sampleTools)))
    (sampleDb true emptyTemplateConfig) = None.
Proof.
  refine (invalid_template_disables
            (Encoded (mainBody "intro <env>X</env>" sampleTools))
            (sampleDb true emptyTemplateConfig) true
            (InterceptorConfig_toJSON emptyTemplateConfig)
            (Some (JString EmptyString)) _ _ _); reflexivity.
Defined.

Lemma null_tools_abort_witness :
  SystemPromptInterceptor.applySystemPromptInterception
    (Some (Encoded (mainBody "intro <env>X</env>" [("tools", JNull)])))
    (sampleDb true (sampleConfig false)) = None.
Proof.
  refine (null_tools_abort
            (Encoded (mainBody "intro <env>X</env>" [("tools", JNull)]))
            (sampleDb true (sampleConfig false))
            (mainBody "intro <env>X</env>" [("tools", JNull)])
            (InterceptorConfig_toJSON (sampleConfig false))
            [textBlock MAIN_AGENT_SIGNATURE; textBlock "intro <env>X</env>"]
            ("Hi." +:+ LF +:+ "{{env_block}}") (Some (JBool false)) _ _ _ _);
    try reflexivity.
  split; try reflexivity. discriminate.
Defined.

Lemma tools_follow_the_flag_witness :
  exists result,
    SystemPromptInterceptor.applySystemPromptInterception
      (Some (Encoded (mainBody "intro <env>X</env>" sampleTools)))
      (sampleDb true (sampleConfig false)) = Some (encodeJSON result) /\
    getProp "tools" result = inr None.
Proof.
  refine (tools_follow_the_flag
            (Encoded (mainBody "intro <env>X</env>" sampleTools))
            (sampleDb true (sampleConfig false))
            (mainBody "intro <env>X</env>" sampleTools)
            (InterceptorConfig_toJSON (sampleConfig false))
            [textBlock MAIN_AGENT_SIGNATURE; textBlock "intro <env>X</env>"]
            ("Hi." +:+ LF +:+ "{{env_block}}") (Some (JBool false))
            (lookupField "tools" sampleTools) _ _ _ _); try reflexivity.
  - split; try reflexivity. discriminate.
  - discriminate.
Defined.


Lemma first_matching_agent_is_used_witness :
  AgentInterceptor.agentUsed
    (AgentInterceptor.interceptAndModifyRequest (Some (Encoded agent42Body)) emptyDb
       [agent7; agent42; blankAgent])
  = Some "Agent42".
Proof.
  refine (first_matching_agent_is_used (Encoded agent42Body) emptyDb
            [agent7; agent42; blankAgent] [agent7; agent42; blankAgent] agent42Body
            ("Rules. You are Agent42, a reviewer of pull requests." +:+ LF +:+ "Be brief.")
            [agent7] agent42 [blankAgent] _ _ _ _ _ _ _); try reflexivity.
  - discriminate.
  - repeat constructor.
Defined.

Lemma blank_signature_matches_everything_witness :
  AgentInterceptor.agentUsed
    (AgentInterceptor.interceptAndModifyRequest (Some (Encoded agent42Body)) emptyDb
       [blankAgent; agent42])
  = Some "Blank".
Proof.
  refine (blank_signature_matches_everything (Encoded agent42Body) emptyDb
            [blankAgent; agent42] [blankAgent; agent42] agent42Body
            ("Rules. You are Agent42, a reviewer of pull requests." +:+ LF +:+ "Be brief.")
            blankAgent [agent42] _ _ _ _ _ _); try reflexivity.
  discriminate.
Defined.

Lemma null_system_block_degrades_witness :
  AgentInterceptor.interceptAndModifyRequest (Some (Encoded nullBlockBody)) emptyDb
    [agent42]
  = degraded (Encoded nullBlockBody).
Proof.
  refine (null_system_block_degrades (Encoded nullBlockBody) emptyDb [agent42]
            nullBlockBody [textBlock "Rules."; JNull] _ _ _); try reflexivity.
  right. left. reflexivity.
Defined.

Lemma missing_workspaces_are_skipped_witness :
  AgentInterceptor.registerWorkspaces ["/repo/.claude/agents"; "/tmp/agents"] [agent42]
  = inr [agent42].
Proof.
  refine (missing_workspaces_are_skipped ["/repo/.claude/agents"; "/tmp/agents"]
            [agent42] _).
  repeat constructor.
Defined.

Lemma body_passes_through_unchanged_witness :
  Proxy.handleProxy (sampleContext ["down"; "good"]) "/v1/messages"
    (Some (Encoded agent42Body)) (sampleDb false (sampleConfig false)) tt 0
  = Proxy.forward (sampleContext ["down"; "good"]) (Some (Encoded agent42Body))
      ["down"; "good"] 0.
Proof.
  refine (body_passes_through_unchanged (sampleContext ["down"; "good"]) "/v1/messages"
            (Some (Encoded agent42Body)) (sampleDb false (sampleConfig false)) tt 0 _ _ _).
  - reflexivity.
  - right. exists (sampleConfig false). reflexivity.
  - reflexivity.
Defined.

Lemma worker_is_created_once_witness :
  let actions := [GetUsageWorker; TerminateUsageWorker; Message OtherMessage;
                  GetUsageWorker] in
  let p' := snd (getUsageWorker (initial true)) in
  usageWorkerInstance (run actions p') = Some 0 /\
  created (run actions p') = 1 /\
  fst (getUsageWorker (run actions p')) = 0 /\
  terminated (run actions p') = [].
Proof.
  refine (worker_is_created_once (initial true)
            [GetUsageWorker; TerminateUsageWorker; Message OtherMessage; GetUsageWorker] _).
  repeat constructor; discriminate.
Defined.

Lemma worker_shutdown_protocol_witness :
  let p := snd (getUsageWorker (initial true)) in
  let p1 := terminateUsageWorker p in
  let p2 := timeoutFires p1 in
  shutdownPosted p1 = shutdownPosted p ++ [0] /\
  terminated p1 = terminated p /\ usageWorkerInstance p1 = Some 0 /\
  timers p1 = S (timers p) /\
  terminated p2 = terminated p ++ [0] /\ usageWorkerInstance p2 = None /\
  timers p2 = timers p /\
  terminateUsageWorker p2 = p2 /\
  fst (getUsageWorker p2) = created p /\
  created (snd (getUsageWorker p2)) = S (created p).
Proof.
  refine (worker_shutdown_protocol (snd (getUsageWorker (initial true))) 0 _).
  reflexivity.
Defined.

Lemma stale_timer_terminates_new_worker_witness :
  let p2 := timeoutFires (snd (getUsageWorker staleTimerProcess)) in
  fst (getUsageWorker staleTimerProcess) = 1 /\
  terminated p2 = [0; 1] /\
  shutdownPosted p2 = [0; 0] /\
  usageWorkerInstance p2 = None.
Proof.
  refine (stale_timer_terminates_new_worker staleTimerProcess _ _).
  - reflexivity.
  - vm_compute. lia.
Defined.

Lemma saved_config_is_served_witness :
  let dbOps' :=
    snd (ToolsHandler.setSystemPromptConfig (Some (configRequest true (sampleConfig false)))
           (sampleDb false sameTextConfig)) in
  ToolsHandler.getSystemPromptConfig dbOps' = inr (configResponse true (sampleConfig false)) /\
  getInterceptorConfig dbOps' "system_prompt"
  = inr (Some (true, InterceptorConfig_toJSON (sampleConfig false))).
Proof.
  refine (saved_config_is_served (Some (configRequest true (sampleConfig false)))
            (sampleDb false sameTextConfig) true (sampleConfig false) _).
  eexists. repeat split; try reflexivity. vm_compute. discriminate.
Defined.

Lemma empty_replacement_switches_off_witness :
  let '(response, dbOps') :=
    ToolsHandler.setSystemPromptConfig (Some (configRequest true emptyTemplateConfig))
      emptyDb in
  (exists data, response = inr (ToolsHandler.JsonResponse data)) /\
  SystemPromptInterceptor.applySystemPromptInterception
    (Some (Encoded (mainBody "intro <env>X</env>" sampleTools))) dbOps' = None.
Proof.
  refine (empty_replacement_switches_off (Some (configRequest true emptyTemplateConfig))
            emptyDb true emptyTemplateConfig
            (Some (Encoded (mainBody "intro <env>X</env>" sampleTools))) _ _).
  - eexists. repeat split; try reflexivity. vm_compute. discriminate.
  - reflexivity.
Defined.

Lemma tools_task_reads_deleted_field_witness :
  exists result,
    snd (SystemPromptInterceptor.intercept
           (Encoded (mainBody "intro <env>X</env>" sampleTools))
           (sampleDb true (sampleConfig false))) = inr result /\
    SystemPromptInterceptor.scheduledTasks
      (Some (Encoded (mainBody "intro <env>X</env>" sampleTools)))
      (sampleDb true (sampleConfig false))
      = [UpdateLastSeenTools; UpdateLastSeenPrompt "intro <env>X</env>"] /\
    toolsReadByTask (mainBody "intro <env>X</env>" sampleTools)
      = inr (lookupField "tools" sampleTools) /\
    toolsReadByTask result = inr None.
Proof.
  refine (tools_task_reads_deleted_field
            (Encoded (mainBody "intro <env>X</env>" sampleTools))
            (sampleDb true (sampleConfig false))
            (mainBody "intro <env>X</env>" sampleTools)
            (InterceptorConfig_toJSON (sampleConfig false))
            [textBlock MAIN_AGENT_SIGNATURE; textBlock "intro <env>X</env>"]
            ("Hi." +:+ LF +:+ "{{env_block}}") (Some (JBool false))
            [JObject [("type", JString "custom"); ("name", JString "Bash")]] _ _ _ _);
    try reflexivity.
  split; try reflexivity. discriminate.
Defined.

Lemma last_seen_update_compares_before_write_witness :
  let buffer := Encoded (mainBody "intro <env>X</env>" sampleTools) in
  let dbOps := sampleDb true (sampleConfig false) in
  let v := printJSON (JArray [JObject [("type", JString "custom"); ("name", JString "Bash")]]) in
  let later := setSystemKV "last_seen_tools" v dbOps in
  let later' :=
    SystemPromptInterceptor.runDeferred BindsNull
      (SystemPromptInterceptor.toolsAtRunTime buffer dbOps) UpdateLastSeenTools later in
  getSystemKV later "last_seen_tools" = Some v /\
  kv_statements later' = kv_statements later ++ [("last_seen_tools", None)] /\
  later' <> later.
Proof.
  assert (Hel : Eligible (mainBody "intro <env>X</env>" sampleTools)
                  (InterceptorConfig_toJSON (sampleConfig false))
                  [textBlock MAIN_AGENT_SIGNATURE; textBlock "intro <env>X</env>"]
                  ("Hi." +:+ LF +:+ "{{env_block}}") (Some (JBool false))
                  (Some (JArray [JObject [("type", JString "custom");
                                          ("name", JString "Bash")]]))).
  { split; try reflexivity. discriminate. }
  assert (Hdec : decodeJSON (Encoded (mainBody "intro <env>X</env>" sampleTools))
                 = Some (mainBody "intro <env>X</env>" sampleTools)) by reflexivity.
  assert (Hcfg : getInterceptorConfig (sampleDb true (sampleConfig false)) "system_prompt"
                 = inr (Some (true, InterceptorConfig_toJSON (sampleConfig false))))
    by reflexivity.
  destruct (last_seen_update_compares_before_write BindsNull
              (Encoded (mainBody "intro <env>X</env>" sampleTools))
              (sampleDb true (sampleConfig false))
              (mainBody "intro <env>X</env>" sampleTools)
              (InterceptorConfig_toJSON (sampleConfig false))
              [textBlock MAIN_AGENT_SIGNATURE; textBlock "intro <env>X</env>"]
              ("Hi." +:+ LF +:+ "{{env_block}}") (Some (JBool false))
              [JObject [("type", JString "custom"); ("name", JString "Bash")]]
              (setSystemKV "last_seen_tools"
                 (printJSON (JArray [JObject [("type", JString "custom");
                                              ("name", JString "Bash")]]))
                 (sampleDb true (sampleConfig false)))
              Hdec Hcfg Hel eq_refl) as (_ & Hjournal & Hcalled & _).
  split; [reflexivity|]. split; [exact Hjournal|exact (Hcalled eq_refl)].
Defined.

(** [trim] removes the no-break space as it removes a space: a signature
    wrapped in it is detected by its text, and a target prompt made of it
    is refused as empty. *)
Lemma trim_no_break_space :
  trim (NBSP +:+ "Rules." +:+ NBSP) = "Rules." /\ trim (NBSP +:+ " " +:+ LF) = EmptyString.
Proof. split; reflexivity. Qed.

Lemma padded_signature_is_detected :
  AgentInterceptor.agentUsed
    (AgentInterceptor.interceptAndModifyRequest (Some (Encoded agent42Body)) emptyDb
       [paddedAgent; agent42])
  = Some "Padded".
Proof. reflexivity. Qed.

Lemma blank_target_is_refused :
  ToolsHandler.setSystemPromptConfig (Some (configRequest true blankTargetConfig)) emptyDb
  = (inr (ToolsHandler.BadRequest "targetPrompt cannot be empty"), emptyDb).
Proof. reflexivity. Qed.
